(** * cat-stat-analysis: Chi-Square / Cramér's V report generator

    A shallow embedding of [cat_stat/cat_stat.py] (and of the parts of
    [cat-stat-analysis.py] that differ from it), with the properties of its
    file naming, statistics, interpretation labels, chart labelling and
    file output.

    Conventions of the embedding:
    - a Python [str] is a Rocq [string]; the embedding is exact for ASCII
      text (column names, categories), and the characters of the report
      template outside ASCII stand as the bytes of their UTF-8 encoding;
    - a float64 is idealised as an exact number: finite values are
      rationals ([Q]), with the IEEE specials that the code can produce;
      a printed decimal is the rounding of the exact value, which can
      differ in its last digit from the rounding of the float64 (for 23
      of 80 the exact 28.75 prints as 28.8, the float64 below it as 28.7);
    - a cell of a data frame is a string or missing ([None]); a row with
      a missing value in one of the two columns is no observation;
    - the library routines the code calls (pandas' [crosstab], scipy's
      [chi2_contingency], numpy's [sqrt], matplotlib's bar containers) are
      embedded by their documented behaviour for the calls the code makes;
    - the disk is a finite map from file names to contents, and a run
      either returns or raises, in both cases leaving a disk; opening a
      file for writing empties it, and a write that fails leaves the
      characters written before the failure. *)

From Stdlib Require Import ZArith QArith Qabs Qround Qminmax Reals Lra Lia List Bool Ascii String
  DecimalString Qreals.
From Stdlib Require OrderedTypeEx.
From stdpp Require Import base option gmap strings.

Local Open Scope string_scope.

(* ===================================================================== *)
(** * Strings: [re.sub(r'\W+', '_', text)] *)
(* ===================================================================== *)

Module Re.

(** [str.isalnum] on one character of ASCII text: digits and letters. *)
Definition isalnum (c : ascii) : bool :=
  let n := nat_of_ascii c in
  (((48 <=? n) && (n <=? 57)) || ((65 <=? n) && (n <=? 90))
   || ((97 <=? n) && (n <=? 122)))%nat.

(** The class [\w] of a [str] pattern: alphanumerics and the underscore. *)
Definition is_word (c : ascii) : bool := isalnum c || Ascii.eqb c "_".

(** [sub_runs keep in_run text]: the scan of [re.sub] for a pattern
    [X+] with replacement ['_'], where [X] is the complement of [keep];
    [in_run] says that the previous character belonged to the match in
    progress, whose underscore is already out. *)
Fixpoint sub_runs (keep : ascii -> bool) (in_run : bool) (text : string) : string :=
  match text with
  | EmptyString => EmptyString
  | String c rest =>
      if keep c then String c (sub_runs keep false rest)
      else if in_run then sub_runs keep true rest
      else String "_" (sub_runs keep true rest)
  end.

(** [re.sub(r'\W+', '_', text)] *)
Definition sub_nonword_runs (text : string) : string := sub_runs is_word false text.

End Re.

(** [sanitize_filename] of both source files. *)
Definition sanitize_filename (text : string) : string := Re.sub_nonword_runs text.






(* ===================================================================== *)
(** * Floating-point values, idealised *)
(* ===================================================================== *)

Module Float.

(** A float64 with exact finite values.  Finite results are kept as
    reduced fractions, so that equal values are equal terms. *)
Inductive float : Type :=
| Fin (q : Q)
| PInf
| NInf
| NaN.

Definition fin (q : Q) : float := Fin (Qred q).
Definition of_Z (z : Z) : float := fin (inject_Z z).

(** The sign of a rational: [Lt] negative, [Eq] zero, [Gt] positive. *)
Definition sgn (q : Q) : comparison := Qcompare q 0.

Definition inf_of (s : comparison) : float :=
  match s with Gt => PInf | Lt => NInf | Eq => NaN end.

Definition flip (s : comparison) : comparison := CompOpp s.

Definition fneg (x : float) : float :=
  match x with
  | Fin q => fin (- q)
  | PInf => NInf
  | NInf => PInf
  | NaN => NaN
  end.

Definition fadd (x y : float) : float :=
  match x, y with
  | NaN, _ | _, NaN => NaN
  | Fin a, Fin b => fin (a + b)
  | PInf, NInf | NInf, PInf => NaN
  | PInf, _ | _, PInf => PInf
  | NInf, _ | _, NInf => NInf
  end.

Definition fsub (x y : float) : float := fadd x (fneg y).

Definition fmul (x y : float) : float :=
  match x, y with
  | NaN, _ | _, NaN => NaN
  | Fin a, Fin b => fin (a * b)
  | Fin a, PInf | PInf, Fin a => inf_of (sgn a)
  | Fin a, NInf | NInf, Fin a => inf_of (flip (sgn a))
  | PInf, PInf | NInf, NInf => PInf
  | PInf, NInf | NInf, PInf => NInf
  end.

(** numpy's true division: a zero divisor gives an infinity or [nan]
    (with a warning), never an exception. *)
Definition fdiv (x y : float) : float :=
  match x, y with
  | NaN, _ | _, NaN => NaN
  | Fin a, Fin b =>
      match sgn b with
      | Eq => inf_of (sgn a)
      | _ => fin (a / b)
      end
  | Fin _, _ => Fin 0
  | PInf, Fin b => match sgn b with Lt => NInf | _ => PInf end
  | NInf, Fin b => match sgn b with Lt => PInf | _ => NInf end
  | _, _ => NaN
  end.

Definition fabs (x : float) : float :=
  match x with
  | Fin q => fin (Qabs q)
  | PInf | NInf => PInf
  | NaN => NaN
  end.

(** [np.sign] *)
Definition fsign (x : float) : float :=
  match x with
  | Fin q => match sgn q with Lt => Fin (-1) | Eq => Fin 0 | Gt => Fin 1 end
  | PInf => Fin 1
  | NInf => Fin (-1)
  | NaN => NaN
  end.

(** [x < y]; every comparison with [nan] is false. *)
Definition flt (x y : float) : bool :=
  match x, y with
  | NaN, _ | _, NaN => false
  | Fin a, Fin b => match Qcompare a b with Lt => true | _ => false end
  | NInf, NInf | PInf, _ => false
  | NInf, _ | _, PInf => true
  | _, NInf => false
  end.

(** [x >= 0]; false for [nan]. *)
Definition fge0 (x : float) : bool :=
  match x with
  | Fin q => match sgn q with Lt => false | _ => true end
  | PInf => true
  | _ => false
  end.

(** [x == y] *)
Definition feq (x y : float) : bool :=
  match x, y with
  | Fin a, Fin b => Qeq_bool a b
  | PInf, PInf | NInf, NInf => true
  | _, _ => false
  end.

(** [np.minimum]: [nan] propagates. *)
Definition fminimum (x y : float) : float :=
  match x, y with
  | NaN, _ | _, NaN => NaN
  | _, _ => if flt y x then y else x
  end.

(** [np.sum] of a flat array. *)
Definition fsum (l : list float) : float := fold_left fadd l (Fin 0).

(** The value [np.sqrt(x)], kept exact by carrying its radicand [x]. *)
Inductive root : Type := Sqrt (x : float).

Definition np_sqrt (x : float) : root := Sqrt x.

(** [np.sqrt(x) < c] for a finite threshold [c]: decided on the squares.
    The root of a negative number and of [nan] is [nan]; the root of
    [+inf] is [+inf]. *)
Definition root_lt (v : root) (c : Q) : bool :=
  match v with
  | Sqrt (Fin q) =>
      match sgn q with
      | Lt => false
      | _ => match sgn c with
             | Gt => flt (Fin q) (Fin (c * c))
             | _ => false
             end
      end
  | Sqrt _ => false
  end.

(** The real number a root stands for, when it is one. *)
Definition root_real (v : root) : option R :=
  match v with
  | Sqrt (Fin q) => match sgn q with Lt => None | _ => Some (sqrt (Q2R q)) end
  | Sqrt _ => None
  end.

End Float.
Import Float.

(* ===================================================================== *)
(** * Exceptions *)
(* ===================================================================== *)

(** A raised exception: its class name and its message. *)
Record exn : Type := Exn { exn_class : string; exn_msg : string }.

(** The outcome of a call that may raise. *)
Inductive result (A : Type) : Type :=
| Raise (e : exn)
| Return (a : A).
Arguments Raise {A} e.
Arguments Return {A} a.

Definition bind {A B : Type} (r : result A) (k : A -> result B) : result B :=
  match r with
  | Raise e => Raise e
  | Return a => k a
  end.

Notation "'let*' x ':=' r 'in' k" := (bind r (fun x => k))
  (at level 10, x name, r at level 100, k at level 200).

(* ===================================================================== *)
(** * pandas: data frames, [crosstab], table arithmetic *)
(* ===================================================================== *)

Module Pandas.

(** A data frame of categorical columns: its column names, and its rows as
    records read by column name.  A cell holds a string, or nothing (a
    missing value: [None], [NaN]). *)
Record DataFrame : Type := {
  df_columns : list string;
  df_rows : list (string -> option string)
}.

(** [df[col]] *)
Definition getitem (df : DataFrame) (col : string) : result (list (option string)) :=
  if existsb (String.eqb col) (df_columns df)
  then Return (map (fun row => row col) (df_rows df))
  else Raise (Exn "KeyError" col).

(** A labelled two-dimensional table. *)
Record Table (A : Type) : Type := {
  index : list string;
  columns : list string;
  values : list (list A)
}.
Arguments index {A} t.
Arguments columns {A} t.
Arguments values {A} t.

Definition shape {A : Type} (t : Table A) : nat * nat :=
  (length (index t), length (columns t)).

(** The distinct labels of a column, in ascending order. *)
Fixpoint insert_label (x : string) (l : list string) : list string :=
  match l with
  | [] => [x]
  | y :: l' =>
      if String.eqb x y then l
      else if String.ltb x y then x :: l
      else y :: insert_label x l'
  end.

Definition labels (col : list string) : list string :=
  fold_right insert_label [] col.

Fixpoint zip {A B : Type} (a : list A) (b : list B) : list (A * B) :=
  match a, b with
  | x :: a', y :: b' => (x, y) :: zip a' b'
  | _, _ => []
  end.

(** The observations that a cross-tabulation counts: the pairs without a
    missing value. *)
Definition dropna (pairs : list (option string * option string)) : list (string * string) :=
  flat_map (fun p => match p with
                     | (Some x, Some y) => [(x, y)]
                     | _ => []
                     end) pairs.

Definition count_pair (pairs : list (string * string)) (x y : string) : Z :=
  Z.of_nat (length (List.filter
    (fun p => String.eqb (fst p) x && String.eqb (snd p) y) pairs)).

(** [pd.crosstab(a, b)]: pairs with a missing value are left out; rows
    are the distinct values of [a] in the remaining pairs, columns the
    distinct values of [b], both sorted; a cell counts the observations
    with that pair of values. *)
Definition crosstab (a b : list (option string)) : Table Z :=
  let pairs := dropna (zip a b) in
  let rows := labels (map fst pairs) in
  let cols := labels (map snd pairs) in
  {| index := rows;
     columns := cols;
     values := map (fun x => map (fun y => count_pair pairs x y) cols) rows |}.

Definition zsum (l : list Z) : Z := fold_left Z.add l 0%Z.

(** [t.sum(axis=1)]: one total per row. *)
Definition row_sums (t : Table Z) : list Z := map zsum (values t).

(** [t.sum()]: one total per column. *)
Definition col_sums (t : Table Z) : list Z :=
  map (fun j => zsum (map (fun row => nth j row 0%Z) (values t)))
      (seq 0 (length (columns t))).

(** [t.sum().sum()] *)
Definition total (t : Table Z) : Z := zsum (col_sums t).

(** [(t / d) * 100], cell by cell. *)
Definition percent_of (d : float) (x : Z) : float :=
  fmul (fdiv (of_Z x) d) (Fin 100).

(** [(t / t.sum().sum()) * 100] *)
Definition percent_of_total (t : Table Z) : Table float :=
  {| index := index t;
     columns := columns t;
     values := map (map (percent_of (of_Z (total t)))) (values t) |}.

(** [t.div(t.sum(axis=1), axis=0) * 100] *)
Definition percent_of_row (t : Table Z) : Table float :=
  {| index := index t;
     columns := columns t;
     values := map (fun row => map (percent_of (of_Z (zsum row))) row) (values t) |}.

(** A positional index of Python: negative positions count from the end. *)
Definition position (len : nat) (i : Z) : option nat :=
  let n := Z.of_nat len in
  if (0 <=? i)%Z && (i <? n)%Z then Some (Z.to_nat i)
  else if (- n <=? i)%Z && (i <? 0)%Z then Some (Z.to_nat (n + i))
  else None.

(** [t.iloc[r, c]] *)
Definition iloc {A : Type} (t : Table A) (r c : Z) : result A :=
  match position (length (index t)) r, position (length (columns t)) c with
  | Some i, Some j =>
      match nth_error (values t) i with
      | Some row =>
          match nth_error row j with
          | Some x => Return x
          | None => Raise (Exn "IndexError" "index out of bounds")
          end
      | None => Raise (Exn "IndexError" "index out of bounds")
      end
  | _, _ => Raise (Exn "IndexError" "single positional indexer is out-of-bounds")
  end.

End Pandas.
Import Pandas.

(* ===================================================================== *)
(** * scipy.stats: [chi2_contingency] *)
(* ===================================================================== *)

Module Scipy.

Definition matrix : Type := list (list float).

(** [np.asarray(table)] with a float dtype. *)
Definition as_float (values : list (list Z)) : matrix := map (map of_Z) values.

(** The shape of a two-dimensional array; an empty frame has shape (0, 0). *)
Definition np_shape {A : Type} (m : list (list A)) : nat * nat :=
  (length m, length (hd [] m)).

Definition np_size {A : Type} (m : list (list A)) : nat :=
  (fst (np_shape m) * snd (np_shape m))%nat.

(** Element-wise operation on two arrays of one shape. *)
Definition map2 (f : float -> float -> float) (a b : matrix) : matrix :=
  map (fun rows => map (fun xy => f (fst xy) (snd xy)) (zip (fst rows) (snd rows)))
      (zip a b).

Definition any (test : float -> bool) (m : matrix) : bool :=
  existsb (existsb test) m.

(** [observed.sum(axis=1)] and [observed.sum(axis=0)] *)
Definition margin_rows (m : matrix) : list float := map fsum m.
Definition margin_cols (m : matrix) : list float :=
  map (fun j => fsum (map (fun row => nth j row (Fin 0)) m))
      (seq 0 (snd (np_shape m))).

(** [expected_freq]: the product of the margins over the grand total. *)
Definition expected_freq (observed : matrix) : matrix :=
  let n := fsum (concat observed) in
  map (fun r => map (fun c => fdiv (fmul r c) n) (margin_cols observed))
      (margin_rows observed).

(** Yates' correction for continuity, as [chi2_contingency] applies it:
    every observed count moves towards its expected count by at most 0.5
    and by no more than their difference. *)
Definition yates (observed expected : matrix) : matrix :=
  map2 (fun o e =>
          let diff := fsub e o in
          let direction := fsign diff in
          let magnitude := fminimum (Fin (1 # 2)) (fabs diff) in
          fadd o (fmul magnitude direction))
       observed expected.

(** [power_divergence(f_obs, f_exp, lambda_=1)]: Pearson's statistic. *)
Definition pearson_terms (f_obs f_exp : matrix) : matrix :=
  map2 (fun o e => fdiv (fmul (fsub o e) (fsub o e)) e) f_obs f_exp.

Definition power_divergence_stat (f_obs f_exp : matrix) : float :=
  fsum (concat (pearson_terms f_obs f_exp)).

Record Chi2ContingencyResult : Type := {
  statistic : float;
  pvalue : float;
  dof : Z;
  expected_freqs : matrix
}.

Section Chi2.

(** [scipy.stats.chi2.sf(x, df)]: the survival function of the Chi-Square
    distribution, a numerical routine of the library. *)
Variable chi2_sf : float -> Z -> float.

(** [chi2_contingency(observed)] with its default arguments
    ([correction=True], [lambda_=None]). *)
Definition chi2_contingency (table : list (list Z)) : result Chi2ContingencyResult :=
  let observed := as_float table in
  if any (fun x => flt x (Fin 0)) observed
  then Raise (Exn "ValueError" "All values in `observed` must be nonnegative.")
  else if (np_size observed =? 0)%nat
  then Raise (Exn "ValueError" "No data; `observed` has size 0.")
  else
    let expected := expected_freq observed in
    if any (fun x => feq x (Fin 0)) expected
    then Raise (Exn "ValueError"
      "The internally computed table of expected frequencies has a zero element")
    else
      let '(r, c) := np_shape expected in
      let dof := (Z.of_nat (r * c) - Z.of_nat (r + c) + 2 - 1)%Z in
      if (dof =? 0)%Z
      then Return {| statistic := Fin 0; pvalue := Fin 1; dof := dof;
                     expected_freqs := expected |}
      else
        let observed' := if (dof =? 1)%Z then yates observed expected else observed in
        let chi2 := power_divergence_stat observed' expected in
        Return {| statistic := chi2; pvalue := chi2_sf chi2 dof; dof := dof;
                  expected_freqs := expected |}.

End Chi2.

End Scipy.
Import Scipy.

(* ===================================================================== *)
(** * Python: rounding and number formatting *)
(* ===================================================================== *)

Module Python.

Definition nl : string := String (ascii_of_nat 10) EmptyString.

(** [str(n)] for an integer. *)
Definition str_of_Z (z : Z) : string := NilZero.string_of_int (Z.to_int z).

(** Rounding to the nearest integer, ties to the even one. *)
Definition round_half_even (q : Q) : Z :=
  let f := Qfloor q in
  match Qcompare (q - inject_Z f) (1 # 2) with
  | Lt => f
  | Gt => (f + 1)%Z
  | Eq => if Z.even f then f else (f + 1)%Z
  end.

(** [round(x)] of a float: an integer, or an exception for [nan] and the
    infinities. *)
Definition py_round (x : float) : result Z :=
  match x with
  | Fin q => Return (round_half_even q)
  | NaN => Raise (Exn "ValueError" "cannot convert float NaN to integer")
  | _ => Raise (Exn "OverflowError" "cannot convert float infinity to integer")
  end.

Fixpoint zeros (n : nat) : string :=
  match n with
  | O => EmptyString
  | S n' => String "0" (zeros n')
  end.

(** [s.zfill(width)] for a string of digits. *)
Definition zfill (width : nat) (s : string) : string :=
  zeros (width - String.length s)%nat ++ s.

Definition pow10 (d : nat) : Z := (10 ^ Z.of_nat d)%Z.

(** The digits of [n / 10^d] with [d] decimals, for [0 <= n]. *)
Definition fixed_digits (d : nat) (negative : bool) (n : Z) : string :=
  (if negative then "-" else "")
  ++ str_of_Z (n / pow10 d)
  ++ match d with
     | O => ""
     | _ => "." ++ zfill d (str_of_Z (n mod pow10 d))
     end.

Definition is_negative (q : Q) : bool :=
  match sgn q with Lt => true | _ => false end.

(** [format(x, '.<d>f')] *)
Definition format_f (d : nat) (x : float) : string :=
  match x with
  | Fin q => fixed_digits d (is_negative q)
               (round_half_even (Qabs q * inject_Z (pow10 d)))
  | PInf => "inf"
  | NInf => "-inf"
  | NaN => "nan"
  end.

(** [q] is halfway between two numbers of [d] decimals.  There the digit
    that [format] prints depends on the error of the float64 that stands
    for [q] in the code, which the exact numbers of the embedding do not
    have. *)
Definition halfway (d : nat) (q : Q) : bool :=
  let scaled := (Qabs q * inject_Z (pow10 d))%Q in
  Qeq_bool (scaled - inject_Z (Qfloor scaled)) (1 # 2).

(** The integer nearest to [sqrt q], ties to even, for [0 <= q]. *)
Definition round_sqrt (q : Q) : Z :=
  let m := Z.sqrt (Qfloor q) in
  let half := (inject_Z m + (1 # 2))%Q in
  match Qcompare q (half * half) with
  | Lt => m
  | Gt => (m + 1)%Z
  | Eq => if Z.even m then m else (m + 1)%Z
  end.

(** [format(np.sqrt(x), '.<d>f')] *)
Definition format_root_f (d : nat) (v : root) : string :=
  match v with
  | Sqrt (Fin q) =>
      match sgn q with
      | Lt => "nan"
      | _ => fixed_digits d false
               (round_sqrt (q * inject_Z (pow10 d) * inject_Z (pow10 d)))
      end
  | Sqrt PInf => "inf"
  | Sqrt _ => "nan"
  end.

Definition ndigits (z : Z) : Z := Z.of_nat (String.length (str_of_Z z)).

(** The decimal exponent of a positive rational: [10^e <= q < 10^(e+1)]. *)
Definition exponent10 (q : Q) : Z :=
  let e := (ndigits (Qnum q) - ndigits (Zpos (Qden q)))%Z in
  if Qle_bool (Qpower 10 e) q then e else (e - 1)%Z.

(** [format(x, '.<d>e')] *)
Definition format_e (d : nat) (x : float) : string :=
  match x with
  | Fin q =>
      let a := Qabs q in
      let '(m, e) :=
        match sgn a with
        | Gt =>
            let e := exponent10 a in
            let m := round_half_even (a / Qpower 10 e * inject_Z (pow10 d)) in
            if (pow10 (S d) <=? m)%Z then (pow10 d, (e + 1)%Z) else (m, e)
        | _ => (0%Z, 0%Z)
        end in
      fixed_digits d (is_negative q) m
      ++ "e" ++ (if (e <? 0)%Z then "-" else "+")
      ++ zfill 2 (str_of_Z (Z.abs e))
  | PInf => "inf"
  | NInf => "-inf"
  | NaN => "nan"
  end.

Definition is_lower (c : ascii) : bool :=
  let n := nat_of_ascii c in ((97 <=? n) && (n <=? 122))%nat.
Definition is_upper (c : ascii) : bool :=
  let n := nat_of_ascii c in ((65 <=? n) && (n <=? 90))%nat.
Definition to_upper (c : ascii) : ascii :=
  if is_lower c then ascii_of_nat (nat_of_ascii c - 32) else c.
Definition to_lower (c : ascii) : ascii :=
  if is_upper c then ascii_of_nat (nat_of_ascii c + 32) else c.

(** [s.replace(a, b)] for single characters. *)
Fixpoint replace_char (a b : ascii) (s : string) : string :=
  match s with
  | EmptyString => EmptyString
  | String c rest =>
      String (if Ascii.eqb c a then b else c) (replace_char a b rest)
  end.

(** [s.title()]: a letter after a letter is lowered, any other letter is
    raised. *)
Fixpoint title_from (after_letter : bool) (s : string) : string :=
  match s with
  | EmptyString => EmptyString
  | String c rest =>
      if is_lower c || is_upper c
      then String (if after_letter then to_lower c else to_upper c)
                  (title_from true rest)
      else String c (title_from false rest)
  end.

Definition title (s : string) : string := title_from false s.

(** [text.strip()]: ASCII white space off both ends. *)
Definition is_space (c : ascii) : bool :=
  let n := nat_of_ascii c in (((9 <=? n) && (n <=? 13)) || ((28 <=? n) && (n <=? 32)))%nat.

Fixpoint lstrip (s : string) : string :=
  match s with
  | EmptyString => EmptyString
  | String c rest => if is_space c then lstrip rest else s
  end.

Fixpoint rstrip (s : string) : string :=
  match s with
  | EmptyString => EmptyString
  | String c rest =>
      match rstrip rest with
      | EmptyString => if is_space c then EmptyString else String c EmptyString
      | rest' => String c rest'
      end
  end.

Definition strip (s : string) : string := rstrip (lstrip s).

(** [int(x)] of a float: truncation towards zero, or an exception for
    [nan] and the infinities. *)
Definition py_int (x : float) : result Z :=
  match x with
  | Fin q => Return (match sgn q with Lt => Qceiling q | _ => Qfloor q end)
  | NaN => Raise (Exn "ValueError" "cannot convert float NaN to integer")
  | _ => Raise (Exn "OverflowError" "cannot convert float infinity to integer")
  end.

(** Text read with universal newlines: "\r\n" and "\r" come as "\n". *)
Fixpoint universal_newlines (s : string) : string :=
  match s with
  | EmptyString => EmptyString
  | String c rest =>
      if Ascii.eqb c (ascii_of_nat 13) then
        String (ascii_of_nat 10)
          match rest with
          | EmptyString => EmptyString
          | String c' rest' =>
              if Ascii.eqb c' (ascii_of_nat 10) then universal_newlines rest'
              else universal_newlines rest
          end
      else String c (universal_newlines rest)
  end.

(** The lines of a text, each with the newline that ends it. *)
Fixpoint lines (s : string) : list string :=
  match s with
  | EmptyString => []
  | String c rest =>
      if Ascii.eqb c (ascii_of_nat 10) then String c EmptyString :: lines rest
      else match lines rest with
           | [] => [String c EmptyString]
           | line :: more => String c line :: more
           end
  end.

End Python.
Import Python.

(* ===================================================================== *)
(** * matplotlib: stacked bars and the figure that is saved *)
(* ===================================================================== *)

Module Matplotlib.

(** A bar segment (a [Rectangle] of a [BarContainer]). *)
Record Bar : Type := {
  get_x : float;
  get_y : float;
  get_width : float;
  get_height : float
}.

(** A text label placed by [ax.text]. *)
Record Text : Type := { text_x : float; text_y : float; text_s : string }.

(** What [savefig] writes: the content of the current figure. *)
Record Figure : Type := {
  fig_title : string;
  fig_xlabel : string;
  fig_ylabel : string;
  fig_legend_title : string;
  fig_colors : list float;
  fig_containers : list (list Bar);
  fig_texts : list Text
}.

(** The columns of a table, each from the first row to the last. *)
Definition table_columns (t : Table float) : list (list float) :=
  map (fun j => map (fun row => nth j row NaN) (values t))
      (seq 0 (length (columns t))).

Definition fillna0 (x : float) : float :=
  match x with NaN => Fin 0 | _ => x end.

(** The bars of one column of a stacked bar plot: bar [k] is centred on
    tick [k] with width 0.5, and starts where the bars before it in its
    row end: the non-negative ones (mask [y >= 0]) for a non-negative
    height, the negative ones otherwise. *)
Fixpoint bar_column (k : nat) (pos_prior neg_prior y : list float) : list Bar :=
  match pos_prior, neg_prior, y with
  | p :: ps, n :: ns, h :: hs =>
      {| get_x := fsub (of_Z (Z.of_nat k)) (Fin (1 # 4));
         get_y := if fge0 h then p else n;
         get_width := Fin (1 # 2);
         get_height := h |} :: bar_column (S k) ps ns hs
  | _, _, _ => []
  end.

Fixpoint bar_containers (pos_prior neg_prior : list float) (cols : list (list float))
  : list (list Bar) :=
  match cols with
  | [] => []
  | col :: rest =>
      let y := map fillna0 col in
      let mask := map fge0 y in
      let step (keep : bool -> bool) (prior : list float) :=
        map (fun pmh => fadd (fst (fst pmh))
                             (if keep (snd (fst pmh)) then snd pmh else Fin 0))
            (zip (zip prior mask) y) in
      bar_column 0 pos_prior neg_prior y
      :: bar_containers (step (fun m => m) pos_prior) (step negb neg_prior) rest
  end.

(** The containers of a stacked bar plot of [t]: one container per column
    of [t], one bar per row. *)
Definition stacked_containers (t : Table float) : list (list Bar) :=
  let zero := map (fun _ => Fin 0) (values t) in
  bar_containers zero zero (table_columns t).

(** [t.plot(kind='bar', stacked=True, ...).containers]; pandas refuses to
    plot a frame without columns. *)
Definition plot_bar_stacked (t : Table float) : result (list (list Bar)) :=
  match columns t with
  | [] => Raise (Exn "TypeError" "no numeric data to plot")
  | _ => Return (stacked_containers t)
  end.

End Matplotlib.
Import Matplotlib.

(* ===================================================================== *)
(** * The disk, standard output, and calls that may raise *)
(* ===================================================================== *)

Module IO.

Inductive File : Type :=
| TextFile (content : string)
| ImageFile (fig : Figure).

Record World : Type := {
  disk : gmap string File;
  stdout : list string
}.

(** What the environment does to the calls that reach it: whether opening
    a file for writing raises; whether writing to the open file raises, and
    after how many characters have reached the file; whether saving a
    figure under a name raises. *)
Record Env : Type := {
  open_error : string -> option exn;
  write_error : string -> option (nat * exn);
  savefig_error : string -> option exn
}.

Definition io (A : Type) : Type := World -> result A * World.

Definition io_bind {A B : Type} (m : io A) (k : A -> io B) : io B :=
  fun w =>
    match m w with
    | (Raise e, w') => (Raise e, w')
    | (Return a, w') => k a w'
    end.

Definition lift {A : Type} (r : result A) : io A := fun w => (r, w).

(** [with open(name, "w", encoding="utf-8") as f: f.write(content)]:
    opening creates the file, or empties the one there is; a write that
    fails leaves in the file the characters that had reached it. *)
Definition write_text (env : Env) (name content : string) : io unit :=
  fun w =>
    match open_error env name with
    | Some e => (Raise e, w)
    | None =>
        match write_error env name with
        | Some (n, e) =>
            (Raise e, {| disk := <[name := TextFile (substring 0 n content)]> (disk w);
                         stdout := stdout w |})
        | None => (Return tt, {| disk := <[name := TextFile content]> (disk w);
                                 stdout := stdout w |})
        end
    end.

(** [plt.savefig(name, ...)] of the figure [fig]. *)
Definition savefig (env : Env) (name : string) (fig : Figure) : io unit :=
  fun w =>
    match savefig_error env name with
    | Some e => (Raise e, w)
    | None => (Return tt, {| disk := <[name := ImageFile fig]> (disk w);
                             stdout := stdout w |})
    end.

Definition print (line : string) : io unit :=
  fun w => (Return tt, {| disk := disk w; stdout := stdout w ++ [line] |}).

End IO.
Import IO.

Notation "'perform' x ':=' m 'in' k" := (io_bind m (fun x => k))
  (at level 10, x name, m at level 100, k at level 200).

(* ===================================================================== *)
(** * cat_stat/cat_stat.py *)
(* ===================================================================== *)

(** [clean_text] *)
Definition clean_text (text : string) : string := strip text.

(** [except (IndexError, KeyError)] *)
Definition caught (e : exn) : bool :=
  String.eqb (exn_class e) "IndexError" || String.eqb (exn_class e) "KeyError".

Section LabelLoop.

(** The lookup [percentage_labels.iloc[r, i]] of the label loop. *)
Variable lookup : Z -> Z -> result float.

(** The body of the [try] for one bar of container [i]. *)
Definition try_label (i : nat) (bar : Bar) (x y : float) : result Text :=
  let* r := py_round (get_x bar) in
  let* percent := lookup r (Z.of_nat i) in
  Return {| text_x := x; text_y := y; text_s := format_f 1 percent ++ "%" |}.

(** [for bar in bars: ...] for the bars of container [i]. *)
Fixpoint label_bars (i : nat) (bars : list Bar) : result (list Text) :=
  match bars with
  | [] => Return []
  | bar :: rest =>
      let height := get_height bar in
      if flt (Fin 0) height then
        let x := fadd (get_x bar) (fdiv (get_width bar) (Fin 2)) in
        let y := fadd (get_y bar) (fdiv height (Fin 2)) in
        match try_label i bar x y with
        | Return text =>
            let* texts := label_bars i rest in Return (text :: texts)
        | Raise e =>
            if caught e then label_bars i rest else Raise e
        end
      else label_bars i rest
  end.

(** [for i, bars in enumerate(ax.containers): ...] *)
Fixpoint label_containers (i : nat) (containers : list (list Bar)) : result (list Text) :=
  match containers with
  | [] => Return []
  | bars :: rest =>
      let* texts := label_bars i bars in
      let* more := label_containers (S i) rest in
      Return (texts ++ more)%list
  end.

End LabelLoop.

(** [plot_stacked_percentage_bar].  The figure keeps what the function
    derives from the data (bars, labels, titles, the positions of the
    colours on the "Blues" map); the fixed styling arguments (figure size,
    edge colour, fonts, tick rotation, legend anchor, dpi) are left out. *)
Definition plot_stacked_percentage_bar (env : Env) (df : DataFrame)
    (x_col hue_col title filename : string) : io unit :=
  perform x_values := lift (getitem df x_col) in
  perform hue_values := lift (getitem df hue_col) in
  let pivot_table := crosstab x_values hue_values in
  let pivot_table_percentage := percent_of_total pivot_table in
  let percentage_labels := percent_of_row pivot_table in
  let ncols := length (columns pivot_table) in
  let colors := map (fun i => fdiv (of_Z (Z.of_nat i)) (of_Z (Z.of_nat ncols)))
                    (seq 0 ncols) in
  perform containers := lift (plot_bar_stacked pivot_table_percentage) in
  perform texts := lift (label_containers (iloc percentage_labels) 0 containers) in
  let fig := {| fig_title := title;
                fig_xlabel := Python.title (replace_char "_" " " x_col);
                fig_ylabel := "Percentage (%)";
                fig_legend_title := Python.title (replace_char "_" " " hue_col);
                fig_colors := colors;
                fig_containers := containers;
                fig_texts := texts |} in
  perform _ := savefig env filename fig in
  print ("✅ Stacked bar chart saved as '"
         ++ filename
         ++ "'.").

(** The statistics of both [get_analysis] and [statistical_analysis]. *)
Record Statistics : Type := {
  contingency_table : Table Z;
  chi2_stat : float;
  p_val : float;
  dof_ : Z;
  cramers_v : root
}.

Section Analysis.

Variable chi2_sf : float -> Z -> float.

(** The contingency table, the Chi-Square test and Cramér's V. *)
Definition statistics (df : DataFrame) (col1 col2 : string) : result Statistics :=
  let* values1 := getitem df col1 in
  let* values2 := getitem df col2 in
  let contingency_table := crosstab values1 values2 in
  let* res := chi2_contingency chi2_sf (values contingency_table) in
  let chi2_stat := statistic res in
  let n := total contingency_table in
  let '(r, c) := shape contingency_table in
  let cramers_v :=
    np_sqrt (fdiv chi2_stat (of_Z (n * (Z.of_nat (Nat.min r c) - 1)))) in
  Return {| contingency_table := contingency_table;
            chi2_stat := chi2_stat;
            p_val := pvalue res;
            dof_ := dof res;
            cramers_v := cramers_v |}.

Definition chi2_conclusion (col1 col2 : string) (p_val : float) : string :=
  if flt p_val (Fin 0.05)
  then "**Conclusion:** `"
       ++ col1
       ++ "` and `"
       ++ col2
       ++ "` **are statistically related** (p-value < 0.05)."
  else "**Conclusion:** No significant relationship between `"
       ++ col1
       ++ "` and `"
       ++ col2
       ++ "` (p-value > 0.05).".

Definition cramers_conclusion (cramers_v : root) : string :=
  if root_lt cramers_v 0.1
  then "🔹 **Conclusion:** The association is **very weak or negligible**."
  else if root_lt cramers_v 0.3
  then "🔹 **Conclusion:** There is a **weak association**."
  else if root_lt cramers_v 0.5
  then "🔹 **Conclusion:** There is a **moderate association**."
  else "🔹 **Conclusion:** The association is **strong**.".

Definition md_filename (col1 col2 : string) : string :=
  "stat_analysis_" ++ sanitize_filename col1 ++ "_vs_" ++ sanitize_filename col2 ++ ".md".

Definition png_filename (col1 col2 : string) : string :=
  "stacked_bar_" ++ sanitize_filename col1 ++ "_vs_" ++ sanitize_filename col2 ++ ".png".

Definition report_md (col1 col2 : string) (st : Statistics) : string :=
  let chi2_stat := chi2_stat st in
  let p_val := p_val st in
  let dof := dof_ st in
  let cramers_v := cramers_v st in
  let chi2_conclusion := chi2_conclusion col1 col2 p_val in
  let cramers_conclusion := cramers_conclusion cramers_v in
  let png_filename := png_filename col1 col2 in
  "# 📊 Statistical Analysis: `"
  ++ col1
  ++ "` vs `"
  ++ col2
  ++ "`"
  ++ nl
  ++ nl
  ++ "## 1️⃣ Chi-Square Test for Independence"
  ++ nl
  ++ "- **Chi-Square Statistic**: "
  ++ format_f 4 chi2_stat
  ++ nl
  ++ "- **p-value**: "
  ++ format_e 4 p_val
  ++ nl
  ++ "- **Degrees of Freedom**: "
  ++ str_of_Z dof
  ++ nl
  ++ nl
  ++ chi2_conclusion
  ++ nl
  ++ nl
  ++ "## 2️⃣ Cramér’s V (Strength of Association)"
  ++ nl
  ++ "- **Cramér’s V**: "
  ++ format_root_f 4 cramers_v
  ++ nl
  ++ nl
  ++ cramers_conclusion
  ++ nl
  ++ nl
  ++ "## 3️⃣ Visualization"
  ++ nl
  ++ "![Stacked Bar Chart]("
  ++ png_filename
  ++ ")"
  ++ nl.

(** [get_analysis] *)
Definition get_analysis (env : Env) (df : DataFrame) (col1 col2 : string) : io unit :=
  let md_filename := md_filename col1 col2 in
  let png_filename := png_filename col1 col2 in
  perform st := lift (statistics df col1 col2) in
  perform _ := write_text env md_filename (report_md col1 col2 st) in
  perform _ := print ("✅ Markdown report saved as '"
                 ++ md_filename
                 ++ "'.") in
  plot_stacked_percentage_bar env df col1 col2
    ("Stacked Percentage Bar Chart: " ++ col1 ++ " vs " ++ col2) png_filename.

End Analysis.

(* ===================================================================== *)
(** * cat-stat-analysis.py: what differs in [statistical_analysis] *)
(* ===================================================================== *)

Module Script.

(** [sanitize_filename], the file names of the report and the chart and
    the statistics are those of [cat_stat.py]; the Chi-Square conclusion
    carries a bullet. *)
Definition chi2_conclusion (col1 col2 : string) (p_val : float) : string :=
  if flt p_val (Fin 0.05)
  then "🔹 **Conclusion:** `"
       ++ col1
       ++ "` and `"
       ++ col2
       ++ "` **are statistically related** (p-value < 0.05)."
  else "🔹 **Conclusion:** No significant relationship between `"
       ++ col1
       ++ "` and `"
       ++ col2
       ++ "` (p-value > 0.05).".

Definition cramers_conclusion (cramers_v : root) : string :=
  if root_lt cramers_v 0.1
  then "🔹 **Conclusion:** The association is **very weak or negligible**."
  else if root_lt cramers_v 0.3
  then "🔹 **Conclusion:** There is a **weak association**."
  else if root_lt cramers_v 0.5
  then "🔹 **Conclusion:** There is a **moderate association**."
  else "🔹 **Conclusion:** The association is **strong**.".

(** The label loop of the script's [plot_stacked_percentage_bar]: the row
    of the lookup is [int(bar.get_x())], and no exception is caught. *)
Section ScriptLabelLoop.

Variable lookup : Z -> Z -> result float.

Definition label_text (i : nat) (bar : Bar) (x y : float) : result Text :=
  let* r := py_int (get_x bar) in
  let* percent := lookup r (Z.of_nat i) in
  Return {| text_x := x; text_y := y; text_s := format_f 1 percent ++ "%" |}.

Fixpoint label_bars (i : nat) (bars : list Bar) : result (list Text) :=
  match bars with
  | [] => Return []
  | bar :: rest =>
      let height := get_height bar in
      if flt (Fin 0) height then
        let x := fadd (get_x bar) (fdiv (get_width bar) (Fin 2)) in
        let y := fadd (get_y bar) (fdiv height (Fin 2)) in
        let* text := label_text i bar x y in
        let* texts := label_bars i rest in
        Return (text :: texts)
      else label_bars i rest
  end.

Fixpoint label_containers (i : nat) (containers : list (list Bar)) : result (list Text) :=
  match containers with
  | [] => Return []
  | bars :: rest =>
      let* texts := label_bars i bars in
      let* more := label_containers (S i) rest in
      Return (texts ++ more)%list
  end.

End ScriptLabelLoop.

(** [plot_stacked_percentage_bar] of the script; [plt.show()] and the
    styling arguments are left out. *)
Definition plot_stacked_percentage_bar (env : Env) (df : DataFrame)
    (x_col hue_col title filename : string) : io unit :=
  perform x_values := lift (getitem df x_col) in
  perform hue_values := lift (getitem df hue_col) in
  let pivot_table := crosstab x_values hue_values in
  let pivot_table_percentage := percent_of_total pivot_table in
  let percentage_labels := percent_of_row pivot_table in
  let ncols := length (columns pivot_table) in
  let colors := map (fun i => fdiv (of_Z (Z.of_nat i)) (of_Z (Z.of_nat ncols)))
                    (seq 0 ncols) in
  perform containers := lift (plot_bar_stacked pivot_table_percentage) in
  perform texts := lift (label_containers (iloc percentage_labels) 0 containers) in
  let fig := {| fig_title := title;
                fig_xlabel := Python.title (replace_char "_" " " x_col);
                fig_ylabel := "Percentage (%)";
                fig_legend_title := Python.title (replace_char "_" " " hue_col);
                fig_colors := colors;
                fig_containers := containers;
                fig_texts := texts |} in
  perform _ := savefig env filename fig in
  print ("✅ Stacked bar chart saved as '"
         ++ filename
         ++ "'.").

Definition pdf_filename (col1 col2 : string) : string :=
  "stat_analysis_" ++ sanitize_filename col1 ++ "_vs_" ++ sanitize_filename col2 ++ ".pdf".

Definition report_md (col1 col2 : string) (st : Statistics) : string :=
  let chi2_stat := chi2_stat st in
  let p_val := p_val st in
  let dof := dof_ st in
  let cramers_v := cramers_v st in
  let chi2_conclusion := chi2_conclusion col1 col2 p_val in
  let cramers_conclusion := cramers_conclusion cramers_v in
  let png_filename := png_filename col1 col2 in
  nl
  ++ "    # 📊 Statistical Analysis of `"
  ++ col1
  ++ "` vs `"
  ++ col2
  ++ "`"
  ++ nl
  ++ nl
  ++ "    ## 1️⃣ Chi-Square Test for Independence"
  ++ nl
  ++ "    - **Chi-Square Statistic**: "
  ++ format_f 4 chi2_stat
  ++ nl
  ++ "    - **p-value**: "
  ++ format_e 4 p_val
  ++ nl
  ++ "    - **Degrees of Freedom**: "
  ++ str_of_Z dof
  ++ nl
  ++ nl
  ++ "    "
  ++ chi2_conclusion
  ++ nl
  ++ nl
  ++ "    ## 2️⃣ Cramér’s V (Strength of Association)"
  ++ nl
  ++ "    - **Cramér’s V**: "
  ++ format_root_f 4 cramers_v
  ++ nl
  ++ nl
  ++ "    "
  ++ cramers_conclusion
  ++ nl
  ++ nl
  ++ "    ## 3️⃣ Stacked Percentage Bar Chart"
  ++ nl
  ++ "    ![Stacked Bar Chart]("
  ++ png_filename
  ++ ")"
  ++ nl
  ++ "    ".

(** The functions on text that the module of the script binds to a name.
    [generate_pdf_report] calls [clean_text], which the script neither
    defines nor imports. *)
Definition global (name : string) : result (string -> string) :=
  if String.eqb name "sanitize_filename" then Return sanitize_filename
  else Raise (Exn "NameError" ("name '" ++ name ++ "' is not defined")).

(** [for line in f: clean_line = clean_text(line); pdf.cell(..., txt=clean_line, ...)]:
    the texts of the cells. *)
Fixpoint pdf_cells (lines : list string) : result (list string) :=
  match lines with
  | [] => Return []
  | line :: rest =>
      let* clean_text := global "clean_text" in
      let clean_line := clean_text line in
      let* cells := pdf_cells rest in
      Return (clean_line :: cells)
  end.

Section Pdf.

(** Whether opening a file for reading raises. *)
Variable read_error : string -> option exn.

(** [pdf.ln(10); pdf.image(image_file, x=20, w=170); pdf.output(pdf_filename, "F")]:
    what FPDF makes of the cells and of the image. *)
Variable pdf_output : list string -> string -> string -> io unit.

(** [with open(name, "r", encoding="utf-8") as f: for line in f: ...] *)
Definition read_lines (name : string) : io (list string) :=
  fun w =>
    match read_error name with
    | Some e => (Raise e, w)
    | None =>
        match disk w !! name with
        | Some (TextFile content) => (Return (lines (universal_newlines content)), w)
        | Some (ImageFile _) =>
            (Raise (Exn "UnicodeDecodeError"
                      "'utf-8' codec can't decode byte 0x89 in position 0: invalid start byte"),
             w)
        | None =>
            (Raise (Exn "FileNotFoundError"
                      ("[Errno 2] No such file or directory: '" ++ name ++ "'")), w)
        end
    end.

(** [generate_pdf_report] *)
Definition generate_pdf_report (md_file image_file pdf_filename : string) : io unit :=
  perform lines := read_lines md_file in
  perform cells := lift (pdf_cells lines) in
  perform _ := pdf_output cells image_file pdf_filename in
  print ("✅ PDF report saved as '"
         ++ pdf_filename
         ++ "'.").

Variable chi2_sf : float -> Z -> float.

(** [statistical_analysis] *)
Definition statistical_analysis (env : Env) (df : DataFrame) (col1 col2 : string) : io unit :=
  let md_filename := md_filename col1 col2 in
  let png_filename := png_filename col1 col2 in
  let pdf_filename := pdf_filename col1 col2 in
  perform st := lift (statistics chi2_sf df col1 col2) in
  perform _ := write_text env md_filename (report_md col1 col2 st) in
  perform _ := print ("✅ Statistical analysis report saved as '"
                 ++ md_filename
                 ++ "'.") in
  perform _ := plot_stacked_percentage_bar env df col1 col2
                 ("Stacked Percentage Bar Chart: " ++ col1 ++ " vs " ++ col2) png_filename in
  generate_pdf_report md_filename png_filename pdf_filename.

End Pdf.

End Script.

(* ===================================================================== *)
(** * The statements of the specification, and sample inputs *)
(* ===================================================================== *)

Module Spec.

(** Pearson's statistic in the words of the specification: over all cells
    (i, j), the sum of (observed - expected)^2 / expected, where
    expected[i][j] = row_total[i] * col_total[j] / N. *)
Definition cell (t : list (list Z)) (i j : nat) : Z := nth j (nth i t []) 0%Z.

Definition row_total (t : list (list Z)) (i : nat) : Z := zsum (nth i t []).

Definition col_total (t : list (list Z)) (j : nat) : Z :=
  zsum (map (fun row => nth j row 0%Z) t).

Definition grand_total (t : list (list Z)) : Z := zsum (concat t).

Definition expected (t : list (list Z)) (i j : nat) : float :=
  fdiv (fmul (of_Z (row_total t i)) (of_Z (col_total t j))) (of_Z (grand_total t)).

Definition pearson_term (t : list (list Z)) (i j : nat) : float :=
  let d := fsub (of_Z (cell t i j)) (expected t i j) in
  fdiv (fmul d d) (expected t i j).

Definition pearson (t : list (list Z)) : float :=
  fsum (flat_map (fun i => map (pearson_term t i) (seq 0 (length (hd [] t))))
                 (seq 0 (length t))).

End Spec.

(** A frame of two columns from its rows. *)
Definition frame (col1 col2 : string) (rows : list (string * string)) : DataFrame :=
  {| df_columns := [col1; col2];
     df_rows := map (fun r name => Some (if String.eqb name col1 then fst r else snd r))
                    rows |}.

(** The data of [use_case.py]. *)
Definition use_case : DataFrame :=
  frame "Gender" "Purchase"
    [("Male", "Yes"); ("Female", "No"); ("Female", "Yes"); ("Male", "Yes");
     ("Female", "No"); ("Male", "Yes"); ("Female", "No"); ("Male", "Yes");
     ("Female", "No"); ("Male", "Yes")].

(** Twenty observations in perfect association: the table [[10,0],[0,10]]. *)
Definition perfect_association : DataFrame :=
  frame "Gender" "Purchase"
    (repeat ("Female", "No") 10 ++ repeat ("Male", "Yes") 10).


(** One category in the first column. *)
Definition all_male : DataFrame :=
  frame "Gender" "Purchase" [("Male", "Yes"); ("Male", "No"); ("Male", "Yes")].

(** A 2x3 table. *)
Definition three_levels : DataFrame :=
  frame "Gender" "Purchase"
    [("Male", "Yes"); ("Female", "No"); ("Female", "Maybe"); ("Male", "Maybe");
     ("Female", "Yes"); ("Male", "No"); ("Female", "No")].

Definition no_faults : Env :=
  {| open_error := fun _ => None; write_error := fun _ => None;
     savefig_error := fun _ => None |}.

(** The chart cannot be saved. *)
Definition savefig_fails : Env :=
  {| open_error := fun _ => None;
     write_error := fun _ => None;
     savefig_error := fun _ => Some (Exn "OSError" "cannot write the image") |}.

(** The report cannot be written to its end: the disk is full after 40
    characters. *)
Definition disk_full : Env :=
  {| open_error := fun _ => None;
     write_error := fun _ => Some (40%nat, Exn "OSError" "[Errno 28] No space left on device");
     savefig_error := fun _ => None |}.

(** The disk after a write of the report that failed after [n]
    characters. *)
Definition report_cut (col1 col2 : string) (st : Statistics) (n : nat) (w : World) : World :=
  {| disk := <[md_filename col1 col2 :=
                 TextFile (substring 0 n (report_md col1 col2 st))]> (disk w);
     stdout := stdout w |}.

Definition empty_world : World := {| disk := ∅; stdout := [] |}.

(** A survival function for the examples that need one; no statement
    below depends on its values. *)
Definition sample_sf (x : float) (df : Z) : float :=
  match x with
  | Fin q => fdiv (Fin 1) (fadd (Fin 1) (fmul x x))
  | _ => Fin 0
  end.

(** Every character of [s] satisfies [p]. *)
Fixpoint all_chars (p : ascii -> bool) (s : string) : bool :=
  match s with
  | EmptyString => true
  | String c rest => p c && all_chars p rest
  end.




(** The label of a bar segment of container [i], when it gets one: its
    height is positive and the lookup of its percentage succeeds. *)
Definition label_of (lookup : Z -> Z -> result float) (i : nat) (bar : Bar) : option Text :=
  if flt (Fin 0) (get_height bar) then
    match try_label lookup i bar
            (fadd (get_x bar) (fdiv (get_width bar) (Fin 2)))
            (fadd (get_y bar) (fdiv (get_height bar) (Fin 2))) with
    | Return text => Some text
    | Raise _ => None
    end
  else None.

Fixpoint labels_from (lookup : Z -> Z -> result float) (i : nat)
    (containers : list (list Bar)) : list Text :=
  match containers with
  | [] => []
  | bars :: rest => omap (label_of lookup i) bars ++ labels_from lookup (S i) rest
  end.

(** A table of row percentages with two rows and one column, and two
    bars of its only container: the second one lies beyond the rows. *)
Definition one_column : Table float :=
  {| index := ["a"; "b"]; columns := ["x"]; values := [[Fin 100]; [Fin 100]] |}.

Definition stray_bars : list (list Bar) :=
  [[ {| get_x := Fin (-1 # 4); get_y := Fin 0; get_width := Fin (1 # 2);
        get_height := Fin 50 |};
     {| get_x := Fin (7 # 4); get_y := Fin 0; get_width := Fin (1 # 2);
        get_height := Fin 50 |} ]].

(** A table of counts as a cross-tabulation of at least one observation
    gives it: rectangular, not empty, no negative count, and no row or
    column without an observation. *)
Definition positive_margins (t : list (list Z)) : Prop :=
  t <> [] /\ hd [] t <> []
  /\ Forall (fun row => length row = length (hd [] t)) t
  /\ Forall (Forall (fun z => (0 <= z)%Z)) t
  /\ Forall (fun row => (0 < zsum row)%Z) t
  /\ (forall j, (j < length (hd [] t))%nat -> (0 < Spec.col_total t j)%Z).

(** (R - 1)(C - 1) *)
Definition degrees_of_freedom (t : list (list Z)) : Z :=
  ((Z.of_nat (length t) - 1) * (Z.of_nat (length (hd [] t)) - 1))%Z.

(** The values of a column, row by row. *)
Definition column (df : DataFrame) (col : string) : list (option string) :=
  map (fun row => row col) (df_rows df).

(** The observations of two columns: the rows that have a value in both. *)
Definition observations (df : DataFrame) (col1 col2 : string) : list (string * string) :=
  dropna (zip (column df col1) (column df col2)).

(** The data of [use_case.py] with two more rows, each with a missing
    value. *)
Definition with_missing : DataFrame :=
  {| df_columns := ["Gender"; "Purchase"];
     df_rows := (fun name => if String.eqb name "Gender" then Some "Male" else None)
                :: (fun name => if String.eqb name "Gender" then None else Some "No")
                :: map (fun r name => Some (if String.eqb name "Gender" then fst r else snd r))
                     [("Male", "Yes"); ("Female", "No"); ("Female", "Yes"); ("Male", "Yes");
                      ("Female", "No"); ("Male", "Yes"); ("Female", "No"); ("Male", "Yes");
                      ("Female", "No"); ("Male", "Yes")] |}.


(** The table of counts that the analysis builds from two columns. *)
Definition counts (df : DataFrame) (col1 col2 : string) : list (list Z) :=
  values (crosstab (column df col1) (column df col2)).

(** The figure that [plot_stacked_percentage_bar] saves, when the frame
    has both columns and at least one observation. *)
Definition chart (df : DataFrame) (x_col hue_col title : string) : Figure :=
  let pivot_table := crosstab (column df x_col) (column df hue_col) in
  let ncols := length (columns pivot_table) in
  let containers := stacked_containers (percent_of_total pivot_table) in
  {| fig_title := title;
     fig_xlabel := Python.title (replace_char "_" " " x_col);
     fig_ylabel := "Percentage (%)";
     fig_legend_title := Python.title (replace_char "_" " " hue_col);
     fig_colors := map (fun i => fdiv (of_Z (Z.of_nat i)) (of_Z (Z.of_nat ncols))) (seq 0 ncols);
     fig_containers := containers;
     fig_texts := labels_from (iloc (percent_of_row pivot_table)) 0 containers |}.

(** The disk and the output after the report has been written. *)
Definition report_written (col1 col2 : string) (st : Statistics) (w : World) : World :=
  {| disk := <[md_filename col1 col2 := TextFile (report_md col1 col2 st)]> (disk w);
     stdout := stdout w
               ++ ["✅ Markdown report saved as '" ++ md_filename col1 col2 ++ "'."] |}.

(** The disk and the output after the chart has been saved. *)
Definition chart_saved (df : DataFrame) (col1 col2 : string) (w : World) : World :=
  {| disk := <[png_filename col1 col2 :=
                 ImageFile (chart df col1 col2
                   ("Stacked Percentage Bar Chart: " ++ col1 ++ " vs " ++ col2))]> (disk w);
     stdout := stdout w
               ++ ["✅ Stacked bar chart saved as '" ++ png_filename col1 col2 ++ "'."] |}.

(** The figure that the script's [plot_stacked_percentage_bar] saves, when
    the frame has both columns and at least one row. *)
Definition script_chart (df : DataFrame) (x_col hue_col title : string) : Figure :=
  let pivot_table := crosstab (column df x_col) (column df hue_col) in
  let ncols := length (columns pivot_table) in
  let containers := stacked_containers (percent_of_total pivot_table) in
  {| fig_title := title;
     fig_xlabel := Python.title (replace_char "_" " " x_col);
     fig_ylabel := "Percentage (%)";
     fig_legend_title := Python.title (replace_char "_" " " hue_col);
     fig_colors := map (fun i => fdiv (of_Z (Z.of_nat i)) (of_Z (Z.of_nat ncols))) (seq 0 ncols);
     fig_containers := containers;
     fig_texts := match Script.label_containers (iloc (percent_of_row pivot_table)) 0
                          containers with
                  | Return texts => texts
                  | Raise _ => []
                  end |}.

(** The disk and the output after the script has written its report, and
    after it has saved its chart. *)
Definition script_report_written (col1 col2 : string) (st : Statistics) (w : World) : World :=
  {| disk := <[md_filename col1 col2 := TextFile (Script.report_md col1 col2 st)]> (disk w);
     stdout := stdout w
               ++ ["✅ Statistical analysis report saved as '" ++ md_filename col1 col2
                   ++ "'."] |}.

Definition script_chart_saved (df : DataFrame) (col1 col2 : string) (w : World) : World :=
  {| disk := <[png_filename col1 col2 :=
                 ImageFile (script_chart df col1 col2
                   ("Stacked Percentage Bar Chart: " ++ col1 ++ " vs " ++ col2))]> (disk w);
     stdout := stdout w
               ++ ["✅ Stacked bar chart saved as '" ++ png_filename col1 col2 ++ "'."] |}.

(** A list of labels in strictly ascending order. *)
Fixpoint ascending (l : list string) : Prop :=
  match l with
  | [] => True
  | x :: rest => Forall (fun y => String.ltb x y = true) rest /\ ascending rest
  end.

(** Finite values, and finite values of a sign. *)
Definition ffinite (x : float) : Prop := exists q, x = Fin q.
Definition fnonneg (x : float) : Prop := exists q, x = Fin q /\ (0 <= q)%Q.
Definition fpositive (x : float) : Prop := exists q, x = Fin q /\ (0 < q)%Q.

(* ===================================================================== *)
(** * The library models on samples *)
(* ===================================================================== *)

Example format_f_samples :
  format_f 4 (Fin (81 # 5)) = "16.2000" /\ format_f 1 (Fin (35 # 100)) = "0.4"
  /\ format_f 1 (Fin (-1 # 20)) = "-0.0" /\ format_f 4 NaN = "nan".
Proof. repeat split. Qed.

Example format_e_samples :
  format_e 4 (Fin 1) = "1.0000e+00" /\ format_e 4 (Fin (57 # 1000000)) = "5.7000e-05"
  /\ format_e 4 (Fin (999999 # 10)) = "1.0000e+05" /\ format_e 4 (Fin 0) = "0.0000e+00".
Proof. repeat split. Qed.

Example format_root_f_samples :
  format_root_f 4 (Sqrt (Fin (81 # 100))) = "0.9000"
  /\ format_root_f 4 (Sqrt (Fin 2)) = "1.4142" /\ format_root_f 4 (Sqrt NaN) = "nan".
Proof. repeat split. Qed.

Example py_round_samples :
  py_round (Fin (-1 # 4)) = Return 0%Z /\ py_round (Fin (3 # 4)) = Return 1%Z
  /\ py_round (Fin (5 # 2)) = Return 2%Z /\ py_round (Fin (7 # 2)) = Return 4%Z.
Proof. repeat split. Qed.

Example title_sample : title (replace_char "_" " " "unit_price usd2x") = "Unit Price Usd2X".
Proof. reflexivity. Qed.

Example iloc_samples :
  iloc one_column 1 0 = Return (Fin 100) /\ iloc one_column (-1) 0 = Return (Fin 100)
  /\ iloc one_column 2 0
     = Raise (Exn "IndexError" "single positional indexer is out-of-bounds").
Proof. repeat split. Qed.

(** The table of [use_case.py], and [chi2_contingency] on some tables. *)
Example use_case_counts : counts use_case "Gender" "Purchase" = [[4; 1]; [0; 5]]%Z.
Proof. reflexivity. Qed.

Example chi2_contingency_no_association :
  chi2_contingency sample_sf [[5; 5]; [5; 5]]%Z
  = Return {| statistic := Fin 0; pvalue := sample_sf (Fin 0) 1%Z; dof := 1;
              expected_freqs := [[Fin 5; Fin 5]; [Fin 5; Fin 5]] |}.
Proof. reflexivity. Qed.

Example chi2_contingency_2x3 :
  chi2_contingency sample_sf [[1; 2; 3]; [4; 5; 6]]%Z
  = Return {| statistic := Fin (7 # 25); pvalue := sample_sf (Fin (7 # 25)) 2%Z; dof := 2;
              expected_freqs := [[Fin (10 # 7); Fin 2; Fin (18 # 7)];
                                 [Fin (25 # 7); Fin 5; Fin (45 # 7)]] |}.
Proof. vm_compute. reflexivity. Qed.

(** The labels of the chart of [use_case.py]: the row percentages of the
    segments with a positive height. *)
Example use_case_labels :
  fig_texts (chart use_case "Gender" "Purchase" "")
  = [ {| text_x := Fin 0; text_y := Fin 20; text_s := "80.0%" |};
      {| text_x := Fin 0; text_y := Fin 45; text_s := "20.0%" |};
      {| text_x := Fin 1; text_y := Fin 25; text_s := "100.0%" |} ].
Proof. vm_compute. reflexivity. Qed.

(* ===================================================================== *)
(** * File names *)
(* ===================================================================== *)

Example sanitize_plain : sanitize_filename "Gender" = "Gender".
Proof. reflexivity. Qed.

Example sanitize_runs : sanitize_filename "Unit Price ($)" = "Unit_Price_".
Proof. reflexivity. Qed.

Example sanitize_keeps_underscore : sanitize_filename "unit_price (usd)" = "unit_price_usd_".
Proof. reflexivity. Qed.

Lemma sub_runs_fixed keep in_run s :
  all_chars keep s = true -> Re.sub_runs keep in_run s = s.
Proof.
  revert in_run. induction s as [|c s IH]; intros in_run H; simpl in *.
  - reflexivity.
  - apply andb_true_iff in H as [Hc Hs]. rewrite Hc. f_equal. now apply IH.
Qed.

Lemma sub_runs_all_word in_run s :
  all_chars Re.is_word (Re.sub_runs Re.is_word in_run s) = true.
Proof.
  revert in_run. induction s as [|c s IH]; intros in_run; simpl.
  - reflexivity.
  - destruct (Re.is_word c) eqn:Hc; simpl.
    + rewrite Hc. apply IH.
    + destruct in_run; simpl; apply IH.
Qed.

(** Every character of a sanitised name is a letter, a digit or an
    underscore. *)
Lemma sanitize_filename_word s : all_chars Re.is_word (sanitize_filename s) = true.
Proof. apply sub_runs_all_word. Qed.


(** C10: [sanitize_filename] is idempotent: sanitising a sanitised name
    changes nothing. *)
Theorem C10_sanitize_filename_idempotent (s : string) :
  sanitize_filename (sanitize_filename s) = sanitize_filename s.
Proof.
  unfold sanitize_filename at 1. unfold Re.sub_nonword_runs.
  apply sub_runs_fixed, sanitize_filename_word.
Qed.











(* ===================================================================== *)
(** * Interpretation thresholds *)
(* ===================================================================== *)

Lemma sgn_nonneg q : sgn q <> Lt -> (0 <= q)%Q.
Proof.
  unfold sgn. intros H. apply Qnot_lt_le. intros Hlt. apply Qlt_alt in Hlt. contradiction.
Qed.

Lemma Q2R_0 : Q2R 0 = 0%R.
Proof. unfold Q2R; simpl; lra. Qed.

Lemma root_lt_spec v x c :
  root_real v = Some x -> (0 < c)%Q -> (root_lt v c = true <-> (x < Q2R c)%R).
Proof.
  destruct v as [[q| | |]]; simpl; try discriminate.
  intros Hx Hc.
  assert (Hs : sgn q <> Lt) by (intros E; rewrite E in Hx; discriminate).
  assert (Hq0 : (0 <= Q2R q)%R) by (rewrite <- Q2R_0; apply Qle_Rle, sgn_nonneg, Hs).
  assert (Hc0 : (0 < Q2R c)%R) by (rewrite <- Q2R_0; now apply Qlt_Rlt).
  assert (Hx' : x = sqrt (Q2R q)) by (destruct (sgn q) eqn:E; congruence).
  assert (Hlt : root_lt (Sqrt (Fin q)) c = true <-> (q < c * c)%Q).
  { simpl. replace (sgn c) with Gt by (symmetry; apply Qgt_alt; exact Hc).
    rewrite Qlt_alt. destruct (sgn q) eqn:E; [| congruence |];
      destruct (Qcompare q (c * c)); split; congruence. }
  unfold root_lt in Hlt. rewrite Hlt, Hx'. clear Hlt Hx Hx'.
  split; intros H.
  - apply Qlt_Rlt in H. rewrite Q2R_mult in H.
    rewrite <- (sqrt_square (Q2R c)) by lra. apply sqrt_lt_1; nra.
  - apply Rlt_Qlt. rewrite Q2R_mult.
    rewrite <- (sqrt_square (Q2R c)) in H by lra. apply sqrt_lt_0 in H; nra.
Qed.

Lemma flt_Fin_lt p c : flt (Fin p) (Fin c) = true <-> (p < c)%Q.
Proof.
  simpl. rewrite Qlt_alt. destruct (Qcompare p c); split; congruence.
Qed.

Lemma root_lt_false v x c :
  root_real v = Some x -> (0 < c)%Q -> (Q2R c <= x)%R -> root_lt v c = false.
Proof.
  intros Hv Hc Hx. destruct (root_lt v c) eqn:E; [| reflexivity].
  apply (root_lt_spec v x c Hv Hc) in E. lra.
Qed.

Lemma root_lt_true v x c :
  root_real v = Some x -> (0 < c)%Q -> (x < Q2R c)%R -> root_lt v c = true.
Proof. intros Hv Hc Hx. now apply (root_lt_spec v x c Hv Hc). Qed.

(** A root that is no real number (of a negative number, of [nan], of an
    infinity) is below no threshold. *)
Lemma root_lt_not_real v c : root_real v = None -> root_lt v c = false.
Proof.
  destruct v as [[q| | |]]; try reflexivity. simpl.
  destruct (sgn q); [discriminate | reflexivity | discriminate].
Qed.

(** C6 as stated fails: the result computed for a column with the single
    category "Male" has a Cramér's V in none of the bands (it is not a
    number), and its label is the one of the band [0.5, 1.0]. *)
Lemma C6_counterexample :
  ~ (exists chi2_sf,
       forall st,
         statistics chi2_sf all_male "Gender" "Purchase" = Return st ->
         cramers_conclusion (cramers_v st)
         = "🔹 **Conclusion:** The association is **strong**." ->
         exists x, root_real (cramers_v st) = Some x /\ (0.5 <= x <= 1)%R).
Proof.
  intros (chi2_sf & H).
  eassert (Hst : statistics chi2_sf all_male "Gender" "Purchase" = Return _)
    by (vm_compute; reflexivity).
  destruct (H _ Hst eq_refl) as (x & Hx & _). discriminate.
Qed.

(** C6, amended: in both source files the relatedness conclusion is the
    "statistically related" sentence exactly when p_value < 0.05 and the
    "no significant relationship" sentence otherwise (also for a p-value
    that is not a number).  Where Cramér's V is a number, its conclusion
    follows the bands [0, 0.1) negligible, [0.1, 0.3) weak, [0.3, 0.5)
    moderate, and strong from 0.5 on; where it is not a number (nan, as
    for a table with a single row or column), the conclusion is the
    strong one. *)
Theorem C6_interpretation (col1 col2 : string) (p : Q) (v : root) :
  ((p < 0.05)%Q ->
     chi2_conclusion col1 col2 (Fin p)
     = ("**Conclusion:** `"
       ++ col1
       ++ "` and `"
       ++ col2
       ++ "` **are statistically related** (p-value < 0.05).")
     /\ Script.chi2_conclusion col1 col2 (Fin p)
        = ("🔹 **Conclusion:** `"
        ++ col1
        ++ "` and `"
        ++ col2
        ++ "` **are statistically related** (p-value < 0.05)."))
  /\ (~ (p < 0.05)%Q ->
     chi2_conclusion col1 col2 (Fin p)
     = ("**Conclusion:** No significant relationship between `"
       ++ col1
       ++ "` and `"
       ++ col2
       ++ "` (p-value > 0.05).")
     /\ Script.chi2_conclusion col1 col2 (Fin p)
        = ("🔹 **Conclusion:** No significant relationship between `"
        ++ col1
        ++ "` and `"
        ++ col2
        ++ "` (p-value > 0.05)."))
  /\ (chi2_conclusion col1 col2 NaN
      = ("**Conclusion:** No significant relationship between `"
        ++ col1
        ++ "` and `"
        ++ col2
        ++ "` (p-value > 0.05).")
      /\ Script.chi2_conclusion col1 col2 NaN
         = ("🔹 **Conclusion:** No significant relationship between `"
         ++ col1
         ++ "` and `"
         ++ col2
         ++ "` (p-value > 0.05)."))
  /\ (forall x : R,
        root_real v = Some x ->
        ((0 <= x < 0.1)%R ->
         cramers_conclusion v = "🔹 **Conclusion:** The association is **very weak or negligible**."
         /\ Script.cramers_conclusion v = "🔹 **Conclusion:** The association is **very weak or negligible**.")
        /\ ((0.1 <= x < 0.3)%R ->
            cramers_conclusion v = "🔹 **Conclusion:** There is a **weak association**."
            /\ Script.cramers_conclusion v = "🔹 **Conclusion:** There is a **weak association**.")
        /\ ((0.3 <= x < 0.5)%R ->
            cramers_conclusion v = "🔹 **Conclusion:** There is a **moderate association**."
            /\ Script.cramers_conclusion v = "🔹 **Conclusion:** There is a **moderate association**.")
        /\ ((0.5 <= x)%R ->
            cramers_conclusion v = "🔹 **Conclusion:** The association is **strong**."
            /\ Script.cramers_conclusion v = "🔹 **Conclusion:** The association is **strong**."))
  /\ (root_real v = None ->
      cramers_conclusion v = "🔹 **Conclusion:** The association is **strong**."
      /\ Script.cramers_conclusion v = "🔹 **Conclusion:** The association is **strong**.").
Proof.
  assert (H1 : (0 < 0.1)%Q) by reflexivity.
  assert (H3 : (0 < 0.3)%Q) by reflexivity.
  assert (H5 : (0 < 0.5)%Q) by reflexivity.
  split; [| split; [| split; [| split]]].
  - intros Hp. apply flt_Fin_lt in Hp.
    unfold chi2_conclusion, Script.chi2_conclusion. rewrite Hp. split; reflexivity.
  - intros Hp. unfold chi2_conclusion, Script.chi2_conclusion.
    destruct (flt (Fin p) (Fin 0.05)) eqn:E;
      [apply flt_Fin_lt in E; contradiction | split; reflexivity].
  - split; reflexivity.
  - intros x Hv. unfold cramers_conclusion, Script.cramers_conclusion.
    split; [| split; [| split]]; intros Hx.
    + rewrite (root_lt_true v x 0.1 Hv H1 ltac:(lra)). split; reflexivity.
    + rewrite (root_lt_false v x 0.1 Hv H1 ltac:(lra)).
      rewrite (root_lt_true v x 0.3 Hv H3 ltac:(lra)). split; reflexivity.
    + rewrite (root_lt_false v x 0.1 Hv H1 ltac:(lra)).
      rewrite (root_lt_false v x 0.3 Hv H3 ltac:(lra)).
      rewrite (root_lt_true v x 0.5 Hv H5 ltac:(lra)). split; reflexivity.
    + rewrite (root_lt_false v x 0.1 Hv H1 ltac:(lra)).
      rewrite (root_lt_false v x 0.3 Hv H3 ltac:(lra)).
      rewrite (root_lt_false v x 0.5 Hv H5 ltac:(lra)). split; reflexivity.
  - intros Hv. unfold cramers_conclusion, Script.cramers_conclusion.
    rewrite !(root_lt_not_real v _ Hv). split; reflexivity.
Qed.

Lemma C6_interpretation_witness :
  chi2_conclusion "Gender" "Purchase" (Fin 0.01)
  = "**Conclusion:** `Gender` and `Purchase` **are statistically related** (p-value < 0.05)."
  /\ cramers_conclusion (Sqrt (Fin 0.81))
     = "🔹 **Conclusion:** The association is **strong**."
  /\ cramers_conclusion (Sqrt NaN)
     = "🔹 **Conclusion:** The association is **strong**.".
Proof.
  destruct (C6_interpretation "Gender" "Purchase" 0.01 (Sqrt (Fin 0.81)))
    as (Hrel & _ & _ & Hbands & _).
  destruct (C6_interpretation "Gender" "Purchase" 0.01 (Sqrt NaN))
    as (_ & _ & _ & _ & Hnan).
  split; [apply Hrel; reflexivity |]. split; [| apply Hnan; reflexivity].
  destruct (Hbands (sqrt (Q2R 0.81)) eq_refl) as (_ & _ & _ & Hstrong).
  apply Hstrong.
  replace (Q2R 0.81) with (0.9 * 0.9)%R by (unfold Q2R; simpl; lra).
  rewrite sqrt_square; lra.
Defined.

(* ===================================================================== *)
(** * The label loop of the chart renderer *)
(* ===================================================================== *)

Lemma caught_classes e :
  exn_class e = "IndexError" \/ exn_class e = "KeyError" -> caught e = true.
Proof. unfold caught. intros [-> | ->]; reflexivity. Qed.

(** [iloc] raises nothing but [IndexError]. *)
Lemma iloc_raises_IndexError {A : Type} (t : Table A) r c e :
  iloc t r c = Raise e -> exn_class e = "IndexError".
Proof.
  unfold iloc. intros H.
  destruct (position (length (index t)) r) as [i|],
    (position (length (columns t)) c) as [j|];
    try (injection H as <-; reflexivity).
  destruct (nth_error (values t) i) as [row|]; [destruct (nth_error row j) |];
    try discriminate; injection H as <-; reflexivity.
Qed.

Section LabelLoopFacts.

Variable lookup : Z -> Z -> result float.

(** The errors of the lookup are out-of-range or missing-key errors. *)
Hypothesis lookup_errors :
  forall r c e, lookup r c = Raise e ->
    exn_class e = "IndexError" \/ exn_class e = "KeyError".

Lemma try_label_caught i bar x y e :
  (exists q, get_x bar = Fin q) ->
  try_label lookup i bar x y = Raise e -> caught e = true.
Proof.
  intros [q Hq]. unfold try_label. rewrite Hq. simpl.
  destruct (lookup _ _) eqn:E; simpl; [| discriminate].
  intros H. injection H as <-. eapply caught_classes, lookup_errors, E.
Qed.

Lemma label_bars_returns i bars :
  Forall (fun bar => exists q, get_x bar = Fin q) bars ->
  label_bars lookup i bars = Return (omap (label_of lookup i) bars).
Proof.
  induction 1 as [|bar rest Hbar Hrest IH]; cbn -[flt fadd fdiv try_label].
  - reflexivity.
  - unfold label_of at 1.
    destruct (flt (Fin 0) (get_height bar)); [| exact IH].
    destruct (try_label lookup i bar _ _) as [e|text] eqn:E.
    + rewrite (try_label_caught _ _ _ _ _ Hbar E). exact IH.
    + rewrite IH. reflexivity.
Qed.

Lemma label_containers_returns i containers :
  Forall (Forall (fun bar => exists q, get_x bar = Fin q)) containers ->
  label_containers lookup i containers = Return (labels_from lookup i containers).
Proof.
  intros H. revert i. induction H as [|bars rest Hbars Hrest IH]; intros i; simpl.
  - reflexivity.
  - rewrite (label_bars_returns i bars Hbars). cbn [bind]. rewrite IH. reflexivity.
Qed.

End LabelLoopFacts.

(** C9: in the label loop of [plot_stacked_percentage_bar], a lookup of a
    percentage label that raises an out-of-range or missing-key error is
    caught: the loop goes on and returns the labels of the segments whose
    lookup succeeded, the failing segment among them without a label; the
    loop itself does not fail. *)
Theorem C9_label_lookup_errors_are_skipped
    (lookup : Z -> Z -> result float) (containers : list (list Bar)) :
  (forall r c e, lookup r c = Raise e ->
     exn_class e = "IndexError" \/ exn_class e = "KeyError") ->
  Forall (Forall (fun bar => exists q, get_x bar = Fin q)) containers ->
  label_containers lookup 0 containers = Return (labels_from lookup 0 containers)
  /\ forall i bar rest e,
       flt (Fin 0) (get_height bar) = true ->
       try_label lookup i bar
         (fadd (get_x bar) (fdiv (get_width bar) (Fin 2)))
         (fadd (get_y bar) (fdiv (get_height bar) (Fin 2))) = Raise e ->
       (exists q, get_x bar = Fin q) ->
       label_of lookup i bar = None
       /\ label_bars lookup i (bar :: rest) = label_bars lookup i rest.
Proof.
  intros Herr Hx. split.
  - now apply label_containers_returns.
  - intros i bar rest e Hh He Hq. unfold label_of.
    cbn -[flt fadd fdiv try_label]. rewrite Hh, He.
    rewrite (try_label_caught lookup Herr _ _ _ _ _ Hq He). split; reflexivity.
Qed.

Lemma C9_label_lookup_errors_are_skipped_witness :
  label_containers (iloc one_column) 0 stray_bars
  = Return [ {| text_x := Fin 0; text_y := Fin 25; text_s := "100.0%" |} ].
Proof.
  refine (proj1 (C9_label_lookup_errors_are_skipped (iloc one_column) stray_bars _ _)).
  - intros r c e H. left. exact (iloc_raises_IndexError _ _ _ _ H).
  - repeat constructor; eexists; reflexivity.
Defined.

(** A lookup error of another kind is not caught: the loop fails with it. *)
Lemma label_bars_other_error :
  label_bars (fun _ _ => Raise (Exn "TypeError" "")) 0
    [ {| get_x := Fin 0; get_y := Fin 0; get_width := Fin 1; get_height := Fin 1 |} ]
  = Raise (Exn "TypeError" "").
Proof. reflexivity. Qed.
(* ===================================================================== *)
(** * Exact arithmetic on counts *)
(* ===================================================================== *)

Lemma fin_eq p q : (p == q)%Q -> fin p = fin q.
Proof. intros H. unfold fin. f_equal. now apply Qred_complete. Qed.

Lemma of_Z_0 : of_Z 0 = Fin 0.
Proof. reflexivity. Qed.

Lemma fadd_of_Z a b : fadd (of_Z a) (of_Z b) = of_Z (a + b).
Proof.
  unfold of_Z. cbn [fadd fin]. apply fin_eq.
  rewrite !Qred_correct, inject_Z_plus. reflexivity.
Qed.

Lemma fold_fadd_of_Z l a :
  fold_left fadd (map of_Z l) (of_Z a) = of_Z (fold_left Z.add l a).
Proof.
  revert a. induction l as [|z l IH]; intros a; cbn [fold_left map].
  - reflexivity.
  - rewrite fadd_of_Z. apply IH.
Qed.

(** The float sum of integer counts is their integer sum. *)
Lemma fsum_of_Z l : fsum (map of_Z l) = of_Z (zsum l).
Proof. unfold fsum, zsum. rewrite <- of_Z_0. apply fold_fadd_of_Z. Qed.

Lemma sgn_of_Z z : sgn (Qred (inject_Z z)) = (z ?= 0)%Z.
Proof.
  unfold sgn. rewrite (Qcompare_comp _ _ (Qred_correct _) 0%Q 0%Q (Qeq_refl 0%Q)).
  unfold Qcompare, inject_Z. simpl. now rewrite Z.mul_1_r.
Qed.

Lemma flt_of_Z_0 z : (0 <= z)%Z -> flt (of_Z z) (Fin 0) = false.
Proof.
  intros H. unfold of_Z, fin. cbn [flt]. fold (sgn (Qred (inject_Z z))).
  rewrite sgn_of_Z. destruct (Z.compare_spec z 0); try reflexivity. lia.
Qed.

(** A cell of the expected table is not zero when its margins and the
    total are positive. *)
Lemma expected_cell_nonzero r c n :
  (0 < r)%Z -> (0 < c)%Z -> (0 < n)%Z ->
  feq (fdiv (fmul (of_Z r) (of_Z c)) (of_Z n)) (Fin 0) = false.
Proof.
  intros Hr Hc Hn. unfold of_Z. cbn [fmul fin fdiv].
  rewrite sgn_of_Z. destruct (Z.compare_spec n 0); try lia.
  cbn [feq fin]. apply not_true_is_false. intros Hz. apply Qeq_bool_iff in Hz.
  rewrite !Qred_correct in Hz.
  assert (Hrc : (0 < inject_Z r * inject_Z c)%Q).
  { apply Qmult_lt_0_compat; rewrite <- (Zlt_Qlt 0); assumption. }
  assert (Hn' : (0 < inject_Z n)%Q) by (now rewrite <- (Zlt_Qlt 0)).
  assert (Hpos : (0 < inject_Z r * inject_Z c / inject_Z n)%Q).
  { apply Qlt_shift_div_l; [exact Hn' |]. now rewrite Qmult_0_l. }
  rewrite Hz in Hpos. discriminate.
Qed.

Lemma fold_add_shift l a : fold_left Z.add l a = (a + fold_left Z.add l 0)%Z.
Proof.
  revert a. induction l as [|y l IH]; intros a; simpl.
  - lia.
  - rewrite (IH (a + y)%Z), (IH (0 + y)%Z). lia.
Qed.

Lemma zsum_cons z l : zsum (z :: l) = (z + zsum l)%Z.
Proof. unfold zsum. simpl. apply fold_add_shift. Qed.

Lemma zsum_nonneg l : Forall (fun z => (0 <= z)%Z) l -> (0 <= zsum l)%Z.
Proof.
  induction 1 as [|z l Hz Hl IH]; [reflexivity |]. rewrite zsum_cons. lia.
Qed.

Lemma zsum_pos l z :
  Forall (fun z => (0 <= z)%Z) l -> In z l -> (0 < z)%Z -> (0 < zsum l)%Z.
Proof.
  induction 1 as [|y l Hy Hl IH]; intros Hin Hz; [destruct Hin |].
  rewrite zsum_cons. apply zsum_nonneg in Hl as Hs.
  destruct Hin as [-> | Hin]; [lia |]. specialize (IH Hin Hz). lia.
Qed.

Lemma zsum_app l1 l2 : zsum (l1 ++ l2) = (zsum l1 + zsum l2)%Z.
Proof.
  induction l1 as [|z l1 IH]; [reflexivity |].
  rewrite <- app_comm_cons, !zsum_cons, IH. lia.
Qed.

Lemma existsb_none {A : Type} (p : A -> bool) l :
  Forall (fun x => p x = false) l -> existsb p l = false.
Proof. induction 1 as [|x l Hx Hl IH]; simpl; [reflexivity | now rewrite Hx]. Qed.

(* ===================================================================== *)
(** * The expected table and Pearson's statistic *)
(* ===================================================================== *)

Lemma nth_as_float row j : nth j (map of_Z row) (Fin 0) = of_Z (nth j row 0%Z).
Proof. rewrite <- of_Z_0. apply map_nth. Qed.

Lemma margin_rows_counts t : margin_rows (as_float t) = map (fun row => of_Z (zsum row)) t.
Proof.
  unfold margin_rows, as_float. rewrite map_map. apply map_ext. intros row. apply fsum_of_Z.
Qed.

Lemma hd_as_float t : length (hd [] (as_float t)) = length (hd [] t).
Proof. destruct t; simpl; [reflexivity | apply length_map]. Qed.

Lemma margin_cols_counts t :
  margin_cols (as_float t)
  = map (fun j => of_Z (Spec.col_total t j)) (seq 0 (length (hd [] t))).
Proof.
  unfold margin_cols, np_shape. cbn [snd]. rewrite hd_as_float.
  apply map_ext. intros j. unfold Spec.col_total, as_float.
  rewrite map_map, <- fsum_of_Z, map_map. f_equal. apply map_ext. intros row.
  apply nth_as_float.
Qed.

Lemma total_counts t : fsum (concat (as_float t)) = of_Z (Spec.grand_total t).
Proof.
  unfold as_float, Spec.grand_total. rewrite <- fsum_of_Z. f_equal.
  now rewrite concat_map.
Qed.

(** The expected table of [chi2_contingency]: row total times column
    total over the grand total, cell by cell. *)
Lemma expected_freq_counts t :
  expected_freq (as_float t)
  = map (fun row => map (fun j => fdiv (fmul (of_Z (zsum row)) (of_Z (Spec.col_total t j)))
                                        (of_Z (Spec.grand_total t)))
                        (seq 0 (length (hd [] t)))) t.
Proof.
  unfold expected_freq. rewrite margin_rows_counts, margin_cols_counts, total_counts.
  rewrite map_map. apply map_ext. intros row. rewrite map_map. reflexivity.
Qed.

Lemma map_seq_nth {A B : Type} (G : A -> B) (l : list A) (d : A) (k : nat) :
  map (fun i => G (nth (i - k) l d)) (seq k (length l)) = map G l.
Proof.
  revert k. induction l as [|a l IH]; intros k; [reflexivity |].
  cbn [length seq map]. rewrite Nat.sub_diag. cbn [nth]. f_equal.
  rewrite <- (IH (S k)). apply map_ext_in. intros i Hi. apply in_seq in Hi.
  replace (i - k)%nat with (S (i - S k)) by lia. reflexivity.
Qed.

Lemma zip_map_same {A B C : Type} (f : A -> B) (g : A -> C) (l : list A) :
  zip (map f l) (map g l) = map (fun a => (f a, g a)) l.
Proof. induction l as [|a l IH]; simpl; [reflexivity | now rewrite IH]. Qed.

Lemma zip_seq {A B : Type} (l : list A) (e : nat -> B) (d : A) (k : nat) :
  zip l (map e (seq k (length l)))
  = map (fun j => (nth (j - k) l d, e j)) (seq k (length l)).
Proof.
  revert k. induction l as [|a l IH]; intros k; [reflexivity |].
  cbn [length seq map zip]. rewrite Nat.sub_diag. cbn [nth]. f_equal.
  rewrite (IH (S k)). apply map_ext_in. intros i Hi. apply in_seq in Hi.
  replace (i - k)%nat with (S (i - S k)) by lia. reflexivity.
Qed.

(** On a rectangular table of counts, the statistic that
    [power_divergence] computes from the counts and their expected table
    is Pearson's formula of the specification. *)
Lemma power_divergence_pearson t :
  Forall (fun row => length row = length (hd [] t)) t ->
  power_divergence_stat (as_float t) (expected_freq (as_float t)) = Spec.pearson t.
Proof.
  intros Hrect. unfold power_divergence_stat, Spec.pearson. f_equal.
  rewrite flat_map_concat_map. f_equal.
  set (C := length (hd [] t)) in *.
  set (G := fun row : list Z =>
              map (fun j =>
                     let e := fdiv (fmul (of_Z (zsum row)) (of_Z (Spec.col_total t j)))
                                   (of_Z (Spec.grand_total t)) in
                     let d := fsub (of_Z (nth j row 0%Z)) e in
                     fdiv (fmul d d) e) (seq 0 C)).
  transitivity (map G t).
  - unfold pearson_terms, map2. rewrite expected_freq_counts. unfold as_float.
    rewrite zip_map_same, map_map. cbn [fst snd]. fold C.
    apply map_ext_in. intros row Hrow.
    pose proof (proj1 (List.Forall_forall _ _) Hrect row Hrow) as Hlen.
    unfold G. rewrite <- Hlen, <- (length_map of_Z row).
    rewrite (zip_seq _ _ (Fin 0) 0), map_map. apply map_ext. intros j.
    cbn [fst snd]. rewrite Nat.sub_0_r, nth_as_float. reflexivity.
  - rewrite <- (map_seq_nth G t [] 0). apply map_ext. intros i.
    rewrite Nat.sub_0_r. reflexivity.
Qed.

(* ===================================================================== *)
(** * [chi2_contingency] on tables with positive margins *)
(* ===================================================================== *)

Lemma zsum_concat_pos t :
  t <> [] -> Forall (Forall (fun z => (0 <= z)%Z)) t ->
  Forall (fun row => (0 < zsum row)%Z) t -> (0 < Spec.grand_total t)%Z.
Proof.
  unfold Spec.grand_total. intros Hne Hnn Hpos.
  destruct t as [|row t]; [contradiction |]. cbn [concat]. rewrite zsum_app.
  inversion Hpos; subst. inversion Hnn; subst.
  assert (0 <= zsum (concat t))%Z; [| lia].
  apply zsum_nonneg. now apply Forall_concat.
Qed.

Lemma np_shape_expected t :
  t <> [] ->
  np_shape (expected_freq (as_float t)) = (length t, length (hd [] t)).
Proof.
  intros Hne. rewrite expected_freq_counts. unfold np_shape.
  rewrite length_map. f_equal. destruct t; [contradiction |].
  cbn [map hd]. now rewrite length_map, length_seq.
Qed.

Lemma no_negative_count t :
  Forall (Forall (fun z => (0 <= z)%Z)) t ->
  any (fun x => flt x (Fin 0)) (as_float t) = false.
Proof.
  intros H. unfold any, as_float. apply existsb_none.
  apply List.Forall_map. eapply List.Forall_impl; [| exact H].
  intros row Hrow. apply existsb_none. apply List.Forall_map.
  eapply List.Forall_impl; [| exact Hrow]. intros z. apply flt_of_Z_0.
Qed.

Lemma no_zero_expected t :
  positive_margins t ->
  any (fun x => feq x (Fin 0)) (expected_freq (as_float t)) = false.
Proof.
  intros (Hne & Hcol & Hrect & Hnn & Hrow & Hcols).
  pose proof (zsum_concat_pos t Hne Hnn Hrow) as Hn.
  rewrite expected_freq_counts. unfold any. apply existsb_none.
  apply List.Forall_map. eapply List.Forall_impl; [| exact Hrow].
  intros row Hr. apply existsb_none. apply List.Forall_map.
  apply List.Forall_forall. intros j Hj. apply in_seq in Hj.
  apply expected_cell_nonzero; [assumption | apply Hcols; lia | assumption].
Qed.

(** On a table with positive margins [chi2_contingency] returns: the
    degrees of freedom are (R - 1)(C - 1); with none, the statistic is 0
    and the p-value 1; with one, the statistic is Pearson's formula on the
    counts after Yates' correction; with more, on the counts as they
    are. *)
Lemma chi2_contingency_counts chi2_sf t :
  positive_margins t ->
  chi2_contingency chi2_sf t
  = Return
      (let d := degrees_of_freedom t in
       let expected := expected_freq (as_float t) in
       if (d =? 0)%Z
       then {| statistic := Fin 0; pvalue := Fin 1; dof := d;
               expected_freqs := expected |}
       else
         let chi2 := if (d =? 1)%Z
                     then power_divergence_stat (yates (as_float t) expected) expected
                     else Spec.pearson t in
         {| statistic := chi2; pvalue := chi2_sf chi2 d; dof := d;
            expected_freqs := expected |}).
Proof.
  intros Hpm. pose proof Hpm as (Hne & Hcol & Hrect & Hnn & Hrow & Hcols).
  unfold chi2_contingency.
  rewrite (no_negative_count t Hnn), (no_zero_expected t Hpm).
  assert (Hsize : (np_size (as_float t) =? 0)%nat = false).
  { apply Nat.eqb_neq. unfold np_size, np_shape. cbn [fst snd].
    rewrite hd_as_float. unfold as_float. rewrite length_map.
    destruct t; [contradiction |]. destruct (hd [] (l :: t)); [contradiction |].
    simpl. lia. }
  rewrite Hsize, (np_shape_expected t Hne).
  assert (Hd : (Z.of_nat (length t * length (hd [] t))
                - Z.of_nat (length t + length (hd [] t)) + 2 - 1)%Z
               = degrees_of_freedom t).
  { unfold degrees_of_freedom. lia. }
  rewrite Hd. cbv zeta.
  destruct (degrees_of_freedom t =? 0)%Z; [reflexivity |].
  destruct (degrees_of_freedom t =? 1)%Z; [reflexivity |].
  now rewrite (power_divergence_pearson t Hrect).
Qed.

(* ===================================================================== *)
(** * [crosstab] *)
(* ===================================================================== *)

Lemma In_insert_label x y l : In y (insert_label x l) <-> y = x \/ In y l.
Proof.
  induction l as [|z l IH]; simpl.
  - intuition.
  - destruct (String.eqb_spec x z) as [-> | Hne].
    + simpl. intuition.
    + destruct (String.ltb x z); simpl; [intuition |]. rewrite IH. intuition.
Qed.

(** The labels of a column are its values. *)
Lemma In_labels y l : In y (labels l) <-> In y l.
Proof.
  unfold labels. induction l as [|x l IH]; simpl; [reflexivity |].
  rewrite In_insert_label, IH. intuition.
Qed.

Lemma insert_label_nonempty x l : insert_label x l <> [].
Proof.
  destruct l as [|z l]; simpl; [discriminate |].
  destruct (String.eqb x z); [discriminate |]. destruct (String.ltb x z); discriminate.
Qed.

Lemma labels_nonempty l : l <> [] -> labels l <> [].
Proof. destruct l; [contradiction |]. intros _. apply insert_label_nonempty. Qed.

Lemma count_pair_nonneg pairs x y : (0 <= count_pair pairs x y)%Z.
Proof. unfold count_pair. lia. Qed.

Lemma count_pair_pos pairs x y : In (x, y) pairs -> (0 < count_pair pairs x y)%Z.
Proof.
  intros Hin. unfold count_pair.
  assert (H : In (x, y) (List.filter (fun p => String.eqb (fst p) x && String.eqb (snd p) y) pairs)).
  { apply filter_In. split; [exact Hin |]. simpl. now rewrite !String.eqb_refl. }
  destruct (List.filter _ pairs); [destruct H | simpl; lia].
Qed.

Lemma crosstab_values a b :
  values (crosstab a b)
  = map (fun x => map (count_pair (dropna (zip a b)) x) (labels (map snd (dropna (zip a b)))))
        (labels (map fst (dropna (zip a b)))).
Proof. reflexivity. Qed.

(** The contingency table of at least one observation has positive
    margins. *)
Lemma crosstab_positive_margins a b :
  dropna (zip a b) <> [] -> positive_margins (values (crosstab a b)).
Proof.
  intros Hne. rewrite crosstab_values.
  set (pairs := dropna (zip a b)) in *.
  set (rows := labels (map fst pairs)). set (cols := labels (map snd pairs)).
  assert (Hrows : rows <> []).
  { apply labels_nonempty. destruct pairs; [contradiction | discriminate]. }
  assert (Hcols : cols <> []).
  { apply labels_nonempty. destruct pairs; [contradiction | discriminate]. }
  assert (Hhd : hd [] (map (fun x => map (count_pair pairs x) cols) rows)
                = map (count_pair pairs (hd "" rows)) cols).
  { destruct rows; [contradiction | reflexivity]. }
  repeat split.
  - destruct rows; [contradiction | discriminate].
  - rewrite Hhd. destruct cols; [contradiction | discriminate].
  - rewrite Hhd. apply List.Forall_map, List.Forall_forall. intros x _.
    now rewrite !length_map.
  - apply List.Forall_map, List.Forall_forall. intros x _.
    apply List.Forall_map, List.Forall_forall. intros y _. apply count_pair_nonneg.
  - apply List.Forall_map, List.Forall_forall. intros x Hx.
    apply In_labels, in_map_iff in Hx as ([x' y] & <- & Hxy). simpl.
    apply (zsum_pos _ (count_pair pairs x' y)).
    + apply List.Forall_map, List.Forall_forall. intros y' _. apply count_pair_nonneg.
    + apply in_map, In_labels, in_map_iff. now exists (x', y).
    + now apply count_pair_pos.
  - intros j Hj. rewrite Hhd, length_map in Hj.
    unfold Spec.col_total. rewrite map_map.
    assert (Hy : In (nth j cols "") cols) by now apply nth_In.
    apply In_labels, in_map_iff in Hy as ([x y] & Hy & Hxy). simpl in Hy.
    apply (zsum_pos _ (count_pair pairs x y)).
    + apply List.Forall_map, List.Forall_forall. intros x' _.
      rewrite (nth_indep _ 0%Z (count_pair pairs x' "")) by now rewrite length_map.
      rewrite map_nth. apply count_pair_nonneg.
    + apply in_map_iff. exists x. split.
      * rewrite (nth_indep _ 0%Z (count_pair pairs x "")) by now rewrite length_map.
        rewrite map_nth. now rewrite <- Hy.
      * apply In_labels, in_map_iff. now exists (x, y).
    + now apply count_pair_pos.
Qed.

(* ===================================================================== *)
(** * The statistics of the analysis *)
(* ===================================================================== *)

Lemma getitem_column df col :
  In col (df_columns df) -> getitem df col = Return (column df col).
Proof.
  intros H. unfold getitem.
  replace (existsb (String.eqb col) (df_columns df)) with true; [reflexivity |].
  symmetry. apply existsb_exists. exists col. split; [exact H | apply String.eqb_refl].
Qed.

Lemma getitem_Return df col a : getitem df col = Return a -> a = column df col.
Proof.
  unfold getitem. destruct (existsb _ _); [| discriminate].
  intros H. now injection H as <-.
Qed.

Lemma zip_columns df col1 col2 :
  zip (column df col1) (column df col2) = map (fun row => (row col1, row col2)) (df_rows df).
Proof. unfold column. apply zip_map_same. Qed.

Lemma counts_positive_margins df col1 col2 :
  observations df col1 col2 <> [] -> positive_margins (counts df col1 col2).
Proof.
  intros H. now apply crosstab_positive_margins.
Qed.

Lemma counts_no_rows df col1 col2 : df_rows df = [] -> counts df col1 col2 = [].
Proof. unfold counts, column. now intros ->. Qed.

(** The shape of the contingency table is the shape of its counts. *)
Lemma crosstab_shape a b :
  shape (crosstab a b)
  = (length (values (crosstab a b)),
     match values (crosstab a b) with [] => length (columns (crosstab a b))
                                    | row :: _ => length row end).
Proof.
  unfold shape. rewrite crosstab_values. cbn [crosstab index columns].
  rewrite length_map. destruct (labels (map fst (dropna (zip a b)))); [reflexivity |].
  cbn [map]. now rewrite length_map.
Qed.

(** What [statistics] returns on a frame that has both columns and at
    least one row. *)
Lemma statistics_counts chi2_sf df col1 col2 :
  In col1 (df_columns df) -> In col2 (df_columns df) -> observations df col1 col2 <> [] ->
  exists res,
    chi2_contingency chi2_sf (counts df col1 col2) = Return res
    /\ statistics chi2_sf df col1 col2
       = Return {| contingency_table := crosstab (column df col1) (column df col2);
                   chi2_stat := statistic res;
                   p_val := pvalue res;
                   dof_ := dof res;
                   cramers_v :=
                     np_sqrt (fdiv (statistic res)
                       (of_Z (total (crosstab (column df col1) (column df col2))
                              * (Z.of_nat
                                   (Nat.min (length (counts df col1 col2))
                                            (length (hd [] (counts df col1 col2)))) - 1)))) |}.
Proof.
  intros H1 H2 Hrows.
  pose proof (counts_positive_margins df col1 col2 Hrows) as Hpm.
  pose proof (chi2_contingency_counts chi2_sf _ Hpm) as Hchi.
  eexists. split; [exact Hchi |].
  unfold statistics. rewrite (getitem_column df col1 H1), (getitem_column df col2 H2).
  cbn [bind]. fold (counts df col1 col2). rewrite Hchi. cbn [bind].
  rewrite crosstab_shape. fold (counts df col1 col2).
  destruct Hpm as (Hne & _). destruct (counts df col1 col2) as [|row t] eqn:E;
    [contradiction |]. reflexivity.
Qed.

Lemma perfect_association_statistics chi2_sf :
  statistics chi2_sf perfect_association "Gender" "Purchase"
  = Return {| contingency_table :=
                {| index := ["Female"; "Male"]; columns := ["No"; "Yes"];
                   values := [[10; 0]; [0; 10]]%Z |};
              chi2_stat := Fin (81 # 5);
              p_val := chi2_sf (Fin (81 # 5)) 1%Z;
              dof_ := 1;
              cramers_v := Sqrt (Fin (81 # 100)) |}.
Proof. vm_compute. reflexivity. Qed.

Lemma sqrt_81_100 : sqrt (Q2R (81 # 100)) = 0.9%R.
Proof.
  replace (Q2R (81 # 100)) with (0.9 * 0.9)%R by (unfold Q2R; simpl; lra).
  apply sqrt_square. lra.
Qed.

(** C1 as stated fails on the 2x2 table [[10,0],[0,10]]: Pearson's formula
    gives 20, and the analysis reports 81/5 = 16.2, whatever the survival
    function, because [chi2_contingency] applies Yates' correction to a
    table with one degree of freedom. *)
Lemma C1_counterexample :
  counts perfect_association "Gender" "Purchase" = [[10; 0]; [0; 10]]%Z
  /\ Spec.pearson [[10; 0]; [0; 10]]%Z = Fin 20
  /\ ~ (exists chi2_sf st,
          statistics chi2_sf perfect_association "Gender" "Purchase" = Return st
          /\ chi2_stat st = Spec.pearson (values (contingency_table st))).
Proof.
  split; [reflexivity |]. split; [reflexivity |].
  intros (chi2_sf & st & Hst & Hchi).
  rewrite perfect_association_statistics in Hst. injection Hst as <-.
  vm_compute in Hchi. discriminate.
Qed.

(** C1, amended: for every contingency table that the analysis builds from
    at least one observation and that has more than one degree of freedom
    (at least two categories in each column, and not 2x2), the analysis
    returns, and the Chi-Square statistic it reports is Pearson's formula:
    the sum over all cells of (observed - expected)^2 / expected with
    expected[i][j] = row_total[i] * col_total[j] / N. *)
Theorem C1_chi2_is_pearson_above_one_dof
    (chi2_sf : float -> Z -> float) (df : DataFrame) (col1 col2 : string) :
  In col1 (df_columns df) -> In col2 (df_columns df) -> observations df col1 col2 <> [] ->
  (1 < degrees_of_freedom (counts df col1 col2))%Z ->
  exists st,
    statistics chi2_sf df col1 col2 = Return st
    /\ values (contingency_table st) = counts df col1 col2
    /\ dof_ st = degrees_of_freedom (counts df col1 col2)
    /\ chi2_stat st = Spec.pearson (counts df col1 col2).
Proof.
  intros H1 H2 Hrows Hdof.
  destruct (statistics_counts chi2_sf df col1 col2 H1 H2 Hrows) as (res & Hres & Hst).
  rewrite (chi2_contingency_counts chi2_sf _ (counts_positive_margins df col1 col2 Hrows))
    in Hres.
  cbv zeta in Hres.
  destruct (degrees_of_freedom (counts df col1 col2) =? 0)%Z eqn:E0;
    [apply Z.eqb_eq in E0; lia |].
  destruct (degrees_of_freedom (counts df col1 col2) =? 1)%Z eqn:E1;
    [apply Z.eqb_eq in E1; lia |].
  injection Hres as <-. eexists. split; [exact Hst |]. repeat split.
Qed.

Lemma C1_chi2_is_pearson_above_one_dof_witness :
  exists st,
    statistics sample_sf three_levels "Gender" "Purchase" = Return st
    /\ values (contingency_table st) = counts three_levels "Gender" "Purchase"
    /\ dof_ st = degrees_of_freedom (counts three_levels "Gender" "Purchase")
    /\ chi2_stat st = Spec.pearson (counts three_levels "Gender" "Purchase").
Proof.
  apply (C1_chi2_is_pearson_above_one_dof sample_sf three_levels "Gender" "Purchase").
  - simpl. auto.
  - simpl. auto.
  - discriminate.
  - reflexivity.
Defined.

(** C4 as stated fails: for the table [[10,0],[0,10]] the computed
    Cramér's V is not 1.0, whatever the survival function. *)
Lemma C4_counterexample :
  ~ (exists chi2_sf st,
       statistics chi2_sf perfect_association "Gender" "Purchase" = Return st
       /\ root_real (cramers_v st) = Some 1%R).
Proof.
  intros (chi2_sf & st & Hst & Hv).
  rewrite perfect_association_statistics in Hst. injection Hst as <-.
  cbn [cramers_v] in Hv. simpl in Hv. rewrite sqrt_81_100 in Hv.
  injection Hv as Hv. lra.
Qed.

(** C4, amended: for the table [[10,0],[0,10]] the statistic is 16.2 (Yates'
    correction applies to a 2x2 table), the computed Cramér's V is
    sqrt(16.2 / 20) = 0.9, and the association-strength conclusion is the
    "strong" one. *)
Theorem C4_perfect_association (chi2_sf : float -> Z -> float) :
  exists st,
    statistics chi2_sf perfect_association "Gender" "Purchase" = Return st
    /\ values (contingency_table st) = [[10; 0]; [0; 10]]%Z
    /\ chi2_stat st = Fin (81 # 5)
    /\ root_real (cramers_v st) = Some 0.9%R
    /\ cramers_conclusion (cramers_v st)
       = "🔹 **Conclusion:** The association is **strong**.".
Proof.
  eexists. split; [apply perfect_association_statistics |].
  cbn [contingency_table values chi2_stat cramers_v].
  repeat split. simpl. now rewrite sqrt_81_100.
Qed.

(* ===================================================================== *)
(** * The run of [get_analysis] *)
(* ===================================================================== *)

Lemma bar_column_finite_x k pos_prior neg_prior y :
  Forall (fun bar => exists q, get_x bar = Fin q) (bar_column k pos_prior neg_prior y).
Proof.
  revert k neg_prior y.
  induction pos_prior as [|p ps IH]; intros k [|n ns] [|h hs]; simpl; try constructor.
  - eexists. reflexivity.
  - apply IH.
Qed.

Lemma bar_containers_finite_x pos_prior neg_prior cols :
  Forall (Forall (fun bar => exists q, get_x bar = Fin q))
         (bar_containers pos_prior neg_prior cols).
Proof.
  revert pos_prior neg_prior. induction cols as [|col rest IH]; intros p n.
  - constructor.
  - cbn [bar_containers]. constructor; [apply bar_column_finite_x | apply IH].
Qed.

(** With both columns and a row in the frame, the chart renderer fails
    only where [savefig] does. *)
Lemma plot_outcome env df x_col hue_col title filename w :
  In x_col (df_columns df) -> In hue_col (df_columns df) -> observations df x_col hue_col <> [] ->
  plot_stacked_percentage_bar env df x_col hue_col title filename w
  = match savefig_error env filename with
    | Some e => (Raise e, w)
    | None =>
        (Return tt,
         {| disk := <[filename := ImageFile (chart df x_col hue_col title)]> (disk w);
            stdout := stdout w ++ ["✅ Stacked bar chart saved as '" ++ filename ++ "'."] |})
    end.
Proof.
  intros Hx Hhue Hrows. unfold plot_stacked_percentage_bar, io_bind, lift.
  rewrite (getitem_column df x_col Hx), (getitem_column df hue_col Hhue).
  unfold plot_bar_stacked, chart. cbn [percent_of_total columns].
  destruct (columns (crosstab (column df x_col) (column df hue_col))) eqn:Hcols.
  { exfalso. revert Hcols. cbn [crosstab columns]. apply labels_nonempty.
    fold (observations df x_col hue_col).
    destruct (observations df x_col hue_col); [contradiction | discriminate]. }
  rewrite label_containers_returns.
  - unfold savefig, print. destruct (savefig_error env filename); reflexivity.
  - intros r c e H. left. exact (iloc_raises_IndexError _ _ _ _ H).
  - apply bar_containers_finite_x.
Qed.

(** Without an observation the statistics fail. *)
Lemma statistics_no_observations chi2_sf df col1 col2 :
  observations df col1 col2 = [] ->
  exists e, statistics chi2_sf df col1 col2 = Raise e
            /\ (exn_class e = "ValueError" \/ exn_class e = "KeyError").
Proof.
  intros Hobs. unfold statistics, getitem.
  destruct (existsb (String.eqb col1) (df_columns df));
    [| eexists; split; [reflexivity | now right]].
  destruct (existsb (String.eqb col2) (df_columns df));
    [| eexists; split; [reflexivity | now right]].
  cbn [bind]. fold (column df col1) (column df col2). unfold crosstab.
  fold (observations df col1 col2). rewrite Hobs.
  eexists. split; [reflexivity | now left].
Qed.


Lemma statistics_Return_observations chi2_sf df col1 col2 st :
  statistics chi2_sf df col1 col2 = Return st -> observations df col1 col2 <> [].
Proof.
  intros Hst Hobs.
  destruct (statistics_no_observations chi2_sf df col1 col2 Hobs) as (e & He & _).
  congruence.
Qed.

Lemma statistics_columns chi2_sf df col1 col2 st :
  statistics chi2_sf df col1 col2 = Return st ->
  In col1 (df_columns df) /\ In col2 (df_columns df).
Proof.
  unfold statistics, getitem.
  destruct (existsb (String.eqb col1) (df_columns df)) eqn:E1; [| discriminate].
  destruct (existsb (String.eqb col2) (df_columns df)) eqn:E2; [| discriminate].
  intros _. apply existsb_exists in E1 as (c1 & H1 & E1), E2 as (c2 & H2 & E2).
  apply String.eqb_eq in E1, E2. subst. now split.
Qed.

(** Every run of [get_analysis]: it fails with the statistics and leaves
    the world as it was; or it fails opening the report, the world as it
    was; or it writes the report and fails saving the chart; or it writes
    both and returns. *)
Lemma get_analysis_outcome chi2_sf env df col1 col2 w :
  get_analysis chi2_sf env df col1 col2 w
  = match statistics chi2_sf df col1 col2 with
    | Raise e => (Raise e, w)
    | Return st =>
        match open_error env (md_filename col1 col2) with
        | Some e => (Raise e, w)
        | None =>
            match write_error env (md_filename col1 col2) with
            | Some (n, e) => (Raise e, report_cut col1 col2 st n w)
            | None =>
                match savefig_error env (png_filename col1 col2) with
                | Some e => (Raise e, report_written col1 col2 st w)
                | None =>
                    (Return tt, chart_saved df col1 col2 (report_written col1 col2 st w))
                end
            end
        end
    end.
Proof.
  unfold get_analysis, io_bind at 1, lift.
  destruct (statistics chi2_sf df col1 col2) as [e|st] eqn:Hst; [reflexivity |].
  destruct (statistics_columns _ _ _ _ _ Hst) as [H1 H2].
  pose proof (statistics_Return_observations _ _ _ _ _ Hst) as Hrows.
  unfold io_bind, write_text, print.
  destruct (open_error env (md_filename col1 col2)); [reflexivity |].
  destruct (write_error env (md_filename col1 col2)) as [[n e]|]; [reflexivity |].
  rewrite (plot_outcome env df col1 col2 _ _ _ H1 H2 Hrows).
  destruct (savefig_error env (png_filename col1 col2)); reflexivity.
Qed.

Lemma md_png_differ col1 col2 : md_filename col1 col2 <> png_filename col1 col2.
Proof. unfold md_filename, png_filename. intros H. cbn in H. inversion H. Qed.

(* ===================================================================== *)
(** * Empty and degenerate input *)
(* ===================================================================== *)




Lemma degenerate_dof t :
  positive_margins t ->
  (length t < 2 \/ length (hd [] t) < 2)%nat -> degrees_of_freedom t = 0%Z.
Proof.
  intros (Hne & Hcol & _) Hdeg. unfold degrees_of_freedom.
  destruct t as [|row t]; [contradiction |]. cbn [hd] in *.
  destruct row as [|z row]; [contradiction |]. cbn [length] in *.
  destruct Hdeg as [H | H].
  - replace (length t) with 0%nat by lia. reflexivity.
  - replace (length row) with 0%nat by lia. lia.
Qed.

(** What a run without faults leaves on a disk. *)
Lemma files_after_run df col1 col2 st w :
  disk (chart_saved df col1 col2 (report_written col1 col2 st w)) !! md_filename col1 col2
  = Some (TextFile (report_md col1 col2 st))
  /\ disk (chart_saved df col1 col2 (report_written col1 col2 st w)) !! png_filename col1 col2
     = Some (ImageFile (chart df col1 col2
               ("Stacked Percentage Bar Chart: " ++ col1 ++ " vs " ++ col2))).
Proof.
  unfold chart_saved, report_written. cbn [disk]. split.
  - rewrite lookup_insert_ne by (apply not_eq_sym, md_png_differ). apply lookup_insert_eq.
  - apply lookup_insert_eq.
Qed.





(* ===================================================================== *)
(** * Failures after the report is written, and repeated runs *)
(* ===================================================================== *)

Lemma use_case_statistics chi2_sf :
  statistics chi2_sf use_case "Gender" "Purchase"
  = Return {| contingency_table :=
                {| index := ["Female"; "Male"]; columns := ["No"; "Yes"];
                   values := [[4; 1]; [0; 5]]%Z |};
              chi2_stat := Fin (15 # 4);
              p_val := chi2_sf (Fin (15 # 4)) 1%Z;
              dof_ := 1;
              cramers_v := Sqrt (Fin (3 # 8)) |}.
Proof. vm_compute. reflexivity. Qed.

(** C5 as stated fails: when the disk is full after 40 characters, the run
    on the data of [use_case.py] fails, and whatever the survival function,
    the report file it leaves is not the report: it holds the first 40
    characters, a part of the title line. *)
Lemma C5_counterexample :
  ~ (exists chi2_sf,
       forall e w' st content,
         get_analysis chi2_sf disk_full use_case "Gender" "Purchase" empty_world
         = (Raise e, w') ->
         statistics chi2_sf use_case "Gender" "Purchase" = Return st ->
         disk w' !! md_filename "Gender" "Purchase" = Some (TextFile content) ->
         content = report_md "Gender" "Purchase" st).
Proof.
  intros (chi2_sf & H).
  specialize (H (Exn "OSError" "[Errno 28] No space left on device")
                (report_cut "Gender" "Purchase"
                   {| contingency_table :=
                        {| index := ["Female"; "Male"]; columns := ["No"; "Yes"];
                           values := [[4; 1]; [0; 5]]%Z |};
                      chi2_stat := Fin (15 # 4);
                      p_val := chi2_sf (Fin (15 # 4)) 1%Z;
                      dof_ := 1;
                      cramers_v := Sqrt (Fin (3 # 8)) |} 40 empty_world)).
  rewrite get_analysis_outcome, use_case_statistics in H.
  specialize (H _ _ eq_refl eq_refl (lookup_insert_eq _ _ _)).
  apply (f_equal (substring 40 1)) in H. cbn in H. discriminate.
Qed.

(** C5, amended: nothing is rolled back.  If the analysis fails before the
    report is opened (a missing column, no observation, a report that
    cannot be opened), the disk is as it was.  If writing the report
    fails, the report file is left with the characters that were written
    before the failure, in place of any report of that name that was
    there.  If saving the chart fails, the complete report is left: the
    disk differs from what it was by the report alone. *)
Theorem C5_disk_after_failure
    (chi2_sf : float -> Z -> float) (env : Env) (df : DataFrame)
    (col1 col2 : string) (w : World) :
  let run := get_analysis chi2_sf env df col1 col2 in
  let md := md_filename col1 col2 in
  (forall e, statistics chi2_sf df col1 col2 = Raise e -> run w = (Raise e, w))
  /\ forall st,
       statistics chi2_sf df col1 col2 = Return st ->
       (forall e, open_error env md = Some e -> run w = (Raise e, w))
       /\ (forall n e,
             open_error env md = None -> write_error env md = Some (n, e) ->
             exists w',
               run w = (Raise e, w')
               /\ disk w' = <[md := TextFile (substring 0 n (report_md col1 col2 st))]> (disk w)
               /\ stdout w' = stdout w)
       /\ (forall e,
             open_error env md = None -> write_error env md = None ->
             savefig_error env (png_filename col1 col2) = Some e ->
             exists w',
               run w = (Raise e, w')
               /\ disk w' = <[md := TextFile (report_md col1 col2 st)]> (disk w)
               /\ disk w' !! md = Some (TextFile (report_md col1 col2 st))).
Proof.
  cbv zeta. split.
  - intros e He. now rewrite get_analysis_outcome, He.
  - intros st Hst. rewrite get_analysis_outcome, Hst. split; [| split].
    + intros e ->. reflexivity.
    + intros n e -> ->. eexists. split; [reflexivity |]. split; reflexivity.
    + intros e -> -> ->. eexists. split; [reflexivity |]. split; [reflexivity |].
      apply lookup_insert_eq.
Qed.

Lemma C5_disk_after_failure_witness :
  exists st w',
    statistics sample_sf use_case "Gender" "Purchase" = Return st
    /\ get_analysis sample_sf savefig_fails use_case "Gender" "Purchase" empty_world
       = (Raise (Exn "OSError" "cannot write the image"), w')
    /\ disk w' !! md_filename "Gender" "Purchase"
       = Some (TextFile (report_md "Gender" "Purchase" st)).
Proof.
  destruct (C5_disk_after_failure sample_sf savefig_fails use_case "Gender" "Purchase"
              empty_world) as [_ H].
  destruct (H _ (use_case_statistics sample_sf)) as (_ & _ & Hsave).
  destruct (Hsave _ eq_refl eq_refl eq_refl) as (w' & Hrun & _ & Hmd).
  eexists. exists w'. split; [apply use_case_statistics |]. split; [exact Hrun | exact Hmd].
Defined.

(** C8: a run of the analysis is a function of its input alone. From any
    two states of the disk, two runs on the same data and column names
    (in the same environment) end alike, and where they return, the
    report they leave is the same text, the report of the same statistics;
    and a second run right after the first leaves the disk as the first
    left it. *)
Theorem C8_runs_are_repeatable
    (chi2_sf : float -> Z -> float) (env : Env) (df : DataFrame)
    (col1 col2 : string) (w1 w2 : World) :
  let run := get_analysis chi2_sf env df col1 col2 in
  fst (run w1) = fst (run w2)
  /\ (fst (run w1) = Return tt ->
      exists st,
        statistics chi2_sf df col1 col2 = Return st
        /\ disk (snd (run w1)) !! md_filename col1 col2
           = Some (TextFile (report_md col1 col2 st))
        /\ disk (snd (run w2)) !! md_filename col1 col2
           = Some (TextFile (report_md col1 col2 st))
        /\ disk (snd (run w1)) !! png_filename col1 col2
           = disk (snd (run w2)) !! png_filename col1 col2)
  /\ fst (run (snd (run w1))) = fst (run w1)
  /\ disk (snd (run (snd (run w1)))) = disk (snd (run w1)).
Proof.
  cbv zeta. rewrite !get_analysis_outcome.
  destruct (statistics chi2_sf df col1 col2) as [e|st]; cbn [fst snd].
  { repeat split; try reflexivity. discriminate. }
  destruct (open_error env (md_filename col1 col2)); cbn [fst snd].
  { repeat split; try reflexivity. discriminate. }
  destruct (write_error env (md_filename col1 col2)) as [[n e]|]; cbn [fst snd].
  { repeat split; try reflexivity; [discriminate |].
    unfold report_cut. cbn [disk]. apply insert_insert_eq. }
  destruct (savefig_error env (png_filename col1 col2)); cbn [fst snd].
  { repeat split; try reflexivity; [discriminate |].
    unfold report_written. cbn [disk]. apply insert_insert_eq. }
  repeat split.
  - intros _. exists st. split; [reflexivity |].
    pose proof (files_after_run df col1 col2 st w1) as [Hmd1 Hpng1].
    pose proof (files_after_run df col1 col2 st w2) as [Hmd2 Hpng2].
    repeat split; [exact Hmd1 | exact Hmd2 | now rewrite Hpng1, Hpng2].
  - unfold chart_saved, report_written. cbn [disk].
    apply map_eq. intros name. rewrite !lookup_insert.
    repeat case_decide; reflexivity.
Qed.

Lemma C8_runs_are_repeatable_witness :
  let run := get_analysis sample_sf no_faults use_case "Gender" "Purchase" in
  fst (run empty_world) = Return tt
  /\ disk (snd (run (snd (run empty_world)))) = disk (snd (run empty_world)).
Proof.
  cbv zeta.
  destruct (C8_runs_are_repeatable sample_sf no_faults use_case "Gender" "Purchase"
              empty_world empty_world) as (_ & _ & _ & Hdisk).
  split; [| exact Hdisk].
  rewrite get_analysis_outcome, use_case_statistics. reflexivity.
Defined.

(* ===================================================================== *)
(** * More on file names *)
(* ===================================================================== *)

Lemma sub_runs_length keep in_run s :
  (String.length (Re.sub_runs keep in_run s) <= String.length s)%nat.
Proof.
  revert in_run. induction s as [|c s IH]; intros in_run; simpl.
  - lia.
  - destruct (keep c); [| destruct in_run]; simpl;
      match goal with |- context [Re.sub_runs keep ?b s] => specialize (IH b) end; lia.
Qed.

(** X1: [sanitize_filename] never lengthens a name, and the names it
    leaves as they are are exactly those made of letters, digits and
    underscores. *)
Theorem sanitize_filename_fixed_points (s : string) :
  (String.length (sanitize_filename s) <= String.length s)%nat
  /\ (sanitize_filename s = s <-> all_chars Re.is_word s = true).
Proof.
  split; [apply sub_runs_length |]. split.
  - intros H. rewrite <- H. apply sanitize_filename_word.
  - apply sub_runs_fixed.
Qed.

Lemma sub_runs_same_class keep in_run a b c d :
  keep c = false -> keep d = false ->
  Re.sub_runs keep in_run (a ++ String c b) = Re.sub_runs keep in_run (a ++ String d b).
Proof.
  intros Hc Hd. revert in_run. induction a as [|x a IH]; intros in_run; simpl.
  - now rewrite Hc, Hd.
  - destruct (keep x); [| destruct in_run]; now rewrite IH.
Qed.

Lemma sub_runs_collapse keep in_run a b c d :
  keep c = false -> keep d = false ->
  Re.sub_runs keep in_run (a ++ String c (String d b))
  = Re.sub_runs keep in_run (a ++ String c b).
Proof.
  intros Hc Hd. revert in_run. induction a as [|x a IH]; intros in_run; simpl.
  - now rewrite Hc, Hd.
  - destruct (keep x); [| destruct in_run]; now rewrite IH.
Qed.

(** X2: column names that differ only in which special character stands
    at some place, or in how many special characters follow one another
    there, have the same sanitised name; the analyses of such columns
    write to the same report and chart files. *)
Theorem sanitize_filename_collisions (a b : string) (c d : ascii) (col2 : string) :
  Re.is_word c = false -> Re.is_word d = false ->
  sanitize_filename (a ++ String c b) = sanitize_filename (a ++ String d b)
  /\ sanitize_filename (a ++ String c (String d b)) = sanitize_filename (a ++ String c b)
  /\ md_filename (a ++ String c b) col2 = md_filename (a ++ String d b) col2
  /\ png_filename (a ++ String c b) col2 = png_filename (a ++ String d b) col2
  /\ md_filename col2 (a ++ String c b) = md_filename col2 (a ++ String d b)
  /\ png_filename col2 (a ++ String c b) = png_filename col2 (a ++ String d b).
Proof.
  intros Hc Hd.
  assert (H : sanitize_filename (a ++ String c b) = sanitize_filename (a ++ String d b))
    by now apply sub_runs_same_class.
  split; [exact H |]. split; [now apply sub_runs_collapse |].
  unfold md_filename, png_filename. rewrite H. repeat split.
Qed.

Lemma sanitize_filename_collisions_witness :
  "unit price" <> "unit-price"
  /\ md_filename "unit price" "Gender" = md_filename "unit-price" "Gender"
  /\ png_filename "unit price" "Gender" = png_filename "unit-price" "Gender".
Proof.
  split; [discriminate |].
  destruct (sanitize_filename_collisions "unit" "price" " " "-" "Gender" eq_refl eq_refl)
    as (_ & _ & Hmd & Hpng & _).
  split; [exact Hmd | exact Hpng].
Defined.

Lemma all_chars_app p a b : all_chars p (a ++ b) = all_chars p a && all_chars p b.
Proof. induction a as [|c a IH]; simpl; [reflexivity | now rewrite IH, andb_assoc]. Qed.

Lemma all_chars_impl (p q : ascii -> bool) s :
  (forall c, p c = true -> q c = true) -> all_chars p s = true -> all_chars q s = true.
Proof.
  intros Hpq. induction s as [|c s IH]; simpl; [reflexivity |].
  intros H. apply andb_true_iff in H as [Hc Hs]. now rewrite (Hpq c Hc), IH.
Qed.

Lemma filename_chars (p : ascii -> bool) prefix col1 col2 suffix :
  (forall c, Re.is_word c = true -> p c = true) ->
  all_chars p prefix = true -> all_chars p suffix = true ->
  all_chars p (prefix ++ sanitize_filename col1 ++ "_vs_" ++ sanitize_filename col2 ++ suffix)
  = true.
Proof.
  intros Hp Hpre Hsuf. rewrite !all_chars_app, Hpre, Hsuf.
  rewrite !(all_chars_impl Re.is_word p _ Hp (sanitize_filename_word _)).
  rewrite (all_chars_impl Re.is_word p "_vs_" Hp eq_refl). reflexivity.
Qed.

Lemma is_word_not_separator c :
  Re.is_word c = true -> negb (Ascii.eqb c "/") && negb (Ascii.eqb c "\") = true.
Proof.
  destruct c as [[] [] [] [] [] [] [] []]; vm_compute; congruence.
Qed.

(** X3: whatever the column names, the names of the report and of the
    chart consist of letters, digits, underscores and the dot of the
    extension: they hold no path separator, so both files are written to
    the current directory. *)
Theorem filenames_have_no_path (col1 col2 : string) :
  all_chars (fun c => Re.is_word c || Ascii.eqb c ".") (md_filename col1 col2) = true
  /\ all_chars (fun c => Re.is_word c || Ascii.eqb c ".") (png_filename col1 col2) = true
  /\ all_chars (fun c => negb (Ascii.eqb c "/") && negb (Ascii.eqb c "\"))
       (md_filename col1 col2) = true
  /\ all_chars (fun c => negb (Ascii.eqb c "/") && negb (Ascii.eqb c "\"))
       (png_filename col1 col2) = true.
Proof.
  unfold md_filename, png_filename. repeat split.
  1,2: apply filename_chars; try reflexivity; intros c Hc; now rewrite Hc.
  1,2: apply filename_chars; try reflexivity; apply is_word_not_separator.
Qed.

(* ===================================================================== *)
(** * [clean_text] *)
(* ===================================================================== *)

Lemma lstrip_spec s :
  exists l, s = l ++ lstrip s /\ all_chars is_space l = true
            /\ forall c rest, lstrip s = String c rest -> is_space c = false.
Proof.
  induction s as [|c s (l & Hs & Hl & Hhead)]; simpl.
  - exists "". repeat split. discriminate.
  - destruct (is_space c) eqn:Hc.
    + exists (String c l). simpl. rewrite Hc, Hl. repeat split; [exact (f_equal (String c) Hs) | exact Hhead].
    + exists "". repeat split. intros c' rest H. now injection H as <- _.
Qed.

Lemma rstrip_spec s :
  exists r, s = rstrip s ++ r /\ all_chars is_space r = true
            /\ forall front c, rstrip s = front ++ String c "" -> is_space c = false.
Proof.
  induction s as [|c s (r & Hs & Hr & Hlast)]; simpl.
  - exists "". repeat split. intros [|x front] c H; discriminate.
  - destruct (rstrip s) as [|c' rest'] eqn:E.
    + change (s = r) in Hs. subst r. destruct (is_space c) eqn:Hc.
      * exists (String c s). simpl. rewrite Hc, Hr. repeat split.
        intros [|x front] c0 H; discriminate.
      * exists s. repeat split; [exact Hr |].
        intros [|x front] c0 H; simpl in H.
        -- now injection H as <-.
        -- injection H as _ H. destruct front; discriminate.
    + exists r. repeat split; [exact (f_equal (String c) Hs) | exact Hr |].
      intros [|x front] c0 H; simpl in H; [discriminate |].
      injection H as _ H. exact (Hlast front c0 H).
Qed.

(** [rstrip] keeps the first character of a text that starts with
    anything but white space. *)
Lemma rstrip_head c s :
  is_space c = false -> exists rest, rstrip (String c s) = String c rest.
Proof.
  intros Hc. simpl. destruct (rstrip s); [rewrite Hc |]; eexists; reflexivity.
Qed.

Lemma lstrip_fixed s :
  (forall c rest, s = String c rest -> is_space c = false) -> lstrip s = s.
Proof.
  destruct s as [|c s]; [reflexivity |]. intros H. simpl.
  now rewrite (H c s eq_refl).
Qed.

Lemma rstrip_fixed s :
  (forall front c, s = front ++ String c "" -> is_space c = false) -> rstrip s = s.
Proof.
  induction s as [|c s IH]; [reflexivity |]. intros H. simpl.
  destruct s as [|c' s'].
  - simpl. now rewrite (H "" c eq_refl).
  - rewrite IH.
    + reflexivity.
    + intros front c0 E. apply (H (String c front) c0). exact (f_equal (String c) E).
Qed.

Lemma strip_head s c rest : strip s = String c rest -> is_space c = false.
Proof.
  unfold strip. destruct (lstrip_spec s) as (l & _ & _ & Hhead).
  destruct (lstrip s) as [|c' s'] eqn:E; [discriminate |].
  pose proof (Hhead c' s' eq_refl) as Hc'.
  destruct (rstrip_head c' s' Hc') as (rest' & ->). intros H. now injection H as <- _.
Qed.

Lemma strip_last s front c : strip s = front ++ String c "" -> is_space c = false.
Proof.
  unfold strip. destruct (rstrip_spec (lstrip s)) as (r & _ & _ & Hlast). apply Hlast.
Qed.

(** X4: [clean_text] takes white space off both ends and nothing else: the
    text is its result between two runs of white space, the result neither
    starts nor ends with white space, and cleaning a clean text changes
    nothing. *)
Theorem clean_text_trims (text : string) :
  (exists l r, text = l ++ clean_text text ++ r
               /\ all_chars is_space l = true /\ all_chars is_space r = true)
  /\ (forall c rest, clean_text text = String c rest -> is_space c = false)
  /\ (forall front c, clean_text text = front ++ String c "" -> is_space c = false)
  /\ clean_text (clean_text text) = clean_text text.
Proof.
  unfold clean_text. repeat split.
  - destruct (lstrip_spec text) as (l & Hl & Hls & _).
    destruct (rstrip_spec (lstrip text)) as (r & Hr & Hrs & _).
    exists l, r. unfold strip. now rewrite <- Hr, <- Hl.
  - apply strip_head.
  - apply strip_last.
  - unfold strip at 1. rewrite (lstrip_fixed (strip text)) by apply strip_head.
    apply rstrip_fixed, strip_last.
Qed.

(* ===================================================================== *)
(** * When the analysis succeeds, and what it leaves untouched *)
(* ===================================================================== *)

(** X5: on a frame that has both columns and at least one row with a value
    in both of them (rows with a missing value are not counted), the
    statistics of the analysis are always computed: none of the errors of
    [chi2_contingency] (negative count, no data, zero expected frequency)
    can occur.  The degrees of freedom are (R - 1)(C - 1); with none, the
    statistic is 0 and the p-value 1; otherwise the p-value is the survival
    function at the statistic, and with one degree of freedom (a 2x2
    table) the statistic is Pearson's on the counts after Yates'
    correction. *)
Theorem statistics_of_observations
    (chi2_sf : float -> Z -> float) (df : DataFrame) (col1 col2 : string) :
  In col1 (df_columns df) -> In col2 (df_columns df) -> observations df col1 col2 <> [] ->
  exists st,
    statistics chi2_sf df col1 col2 = Return st
    /\ values (contingency_table st) = counts df col1 col2
    /\ dof_ st = degrees_of_freedom (counts df col1 col2)
    /\ (dof_ st = 0%Z -> chi2_stat st = Fin 0 /\ p_val st = Fin 1)
    /\ (dof_ st <> 0%Z -> p_val st = chi2_sf (chi2_stat st) (dof_ st))
    /\ (dof_ st = 1%Z ->
        let observed := as_float (counts df col1 col2) in
        chi2_stat st
        = power_divergence_stat (yates observed (expected_freq observed))
                                (expected_freq observed)).
Proof.
  intros H1 H2 Hrows.
  destruct (statistics_counts chi2_sf df col1 col2 H1 H2 Hrows) as (res & Hres & Hst).
  rewrite (chi2_contingency_counts chi2_sf _ (counts_positive_margins df col1 col2 Hrows))
    in Hres.
  cbv zeta in Hres. eexists. split; [exact Hst |].
  cbn [contingency_table dof_ chi2_stat p_val]. split; [reflexivity |].
  destruct (degrees_of_freedom (counts df col1 col2) =? 0)%Z eqn:E0.
  - apply Z.eqb_eq in E0. injection Hres as <-. cbn [dof statistic pvalue].
    repeat split; congruence.
  - apply Z.eqb_neq in E0.
    destruct (degrees_of_freedom (counts df col1 col2) =? 1)%Z eqn:E1;
      injection Hres as <-; cbn [dof statistic pvalue]; repeat split; try congruence.
    apply Z.eqb_neq in E1. congruence.
Qed.

Lemma statistics_of_observations_witness :
  exists st,
    statistics sample_sf with_missing "Gender" "Purchase" = Return st
    /\ values (contingency_table st) = [[4; 1]; [0; 5]]%Z
    /\ dof_ st = 1%Z.
Proof.
  destruct (statistics_of_observations sample_sf with_missing "Gender" "Purchase")
    as (st & Hst & Hv & Hd & _).
  - simpl. auto.
  - simpl. auto.
  - discriminate.
  - exists st. repeat split; assumption.
Defined.



Lemma getitem_missing df col :
  ~ In col (df_columns df) -> getitem df col = Raise (Exn "KeyError" col).
Proof.
  intros H. unfold getitem.
  destruct (existsb (String.eqb col) (df_columns df)) eqn:E; [| reflexivity].
  apply existsb_exists in E as (c & Hc & E). apply String.eqb_eq in E. now subst.
Qed.

(** X7: when the frame lacks one of the two columns, [get_analysis] raises
    the KeyError of the first missing column (the first column is read
    first), whether the frame has rows or not, and writes and prints
    nothing. *)
Theorem get_analysis_missing_column
    (chi2_sf : float -> Z -> float) (env : Env) (df : DataFrame)
    (col1 col2 : string) (w : World) :
  (~ In col1 (df_columns df) ->
   get_analysis chi2_sf env df col1 col2 w = (Raise (Exn "KeyError" col1), w))
  /\ (In col1 (df_columns df) -> ~ In col2 (df_columns df) ->
      get_analysis chi2_sf env df col1 col2 w = (Raise (Exn "KeyError" col2), w)).
Proof.
  rewrite get_analysis_outcome. unfold statistics. split.
  - intros H1. now rewrite (getitem_missing df col1 H1).
  - intros H1 H2. now rewrite (getitem_column df col1 H1), (getitem_missing df col2 H2).
Qed.

Lemma get_analysis_missing_column_witness :
  get_analysis sample_sf no_faults use_case "Gender" "Age" empty_world
  = (Raise (Exn "KeyError" "Age"), empty_world).
Proof.
  apply (get_analysis_missing_column sample_sf no_faults use_case "Gender" "Age" empty_world).
  - simpl. auto.
  - simpl. intros [H | [H | []]]; discriminate.
Defined.

(** X8: a run of [get_analysis] touches no file but its report and its
    chart, whatever the outcome, and only adds lines to the output: none,
    the line of the report, or the lines of the report and of the
    chart. *)
Theorem get_analysis_frame
    (chi2_sf : float -> Z -> float) (env : Env) (df : DataFrame)
    (col1 col2 : string) (w : World) (name : string) :
  name <> md_filename col1 col2 -> name <> png_filename col1 col2 ->
  let w' := snd (get_analysis chi2_sf env df col1 col2 w) in
  disk w' !! name = disk w !! name
  /\ exists out,
       stdout w' = (stdout w ++ out)%list
       /\ (out = []
           \/ out = ["✅ Markdown report saved as '" ++ md_filename col1 col2 ++ "'."]
           \/ out = ["✅ Markdown report saved as '" ++ md_filename col1 col2 ++ "'.";
                     "✅ Stacked bar chart saved as '" ++ png_filename col1 col2 ++ "'."]).
Proof.
  intros Hmd Hpng. cbv zeta. rewrite get_analysis_outcome.
  destruct (statistics chi2_sf df col1 col2) as [e|st]; cbn [snd].
  { split; [reflexivity |]. exists []. split; [now rewrite app_nil_r | now left]. }
  destruct (open_error env (md_filename col1 col2)); cbn [snd].
  { split; [reflexivity |]. exists []. split; [now rewrite app_nil_r | now left]. }
  destruct (write_error env (md_filename col1 col2)) as [[n e]|]; cbn [snd].
  { unfold report_cut. cbn [disk stdout]. split.
    - now rewrite lookup_insert_ne by congruence.
    - exists []. split; [now rewrite app_nil_r | now left]. }
  destruct (savefig_error env (png_filename col1 col2)); cbn [snd].
  - unfold report_written. cbn [disk stdout]. split.
    + now rewrite lookup_insert_ne by congruence.
    + eexists. split; [reflexivity | right; now left].
  - unfold chart_saved, report_written. cbn [disk stdout]. split.
    + now rewrite !lookup_insert_ne by congruence.
    + eexists. split; [now rewrite <- app_assoc | right; now right].
Qed.

Lemma get_analysis_frame_witness :
  let w := {| disk := {["notes.txt" := TextFile "keep"]}; stdout := ["start"] |} in
  let w' := snd (get_analysis sample_sf no_faults use_case "Gender" "Purchase" w) in
  disk w' !! "notes.txt" = Some (TextFile "keep")
  /\ exists out, stdout w' = ("start" :: out)%list.
Proof.
  cbv zeta.
  destruct (get_analysis_frame sample_sf no_faults use_case "Gender" "Purchase"
              {| disk := {["notes.txt" := TextFile "keep"]}; stdout := ["start"] |}
              "notes.txt") as (Hdisk & out & Hout & _).
  - discriminate.
  - discriminate.
  - split.
    + rewrite Hdisk. apply lookup_singleton_eq.
    + exists out. exact Hout.
Defined.

Lemma fdiv_zero_zero x : fdiv (Fin 0) (of_Z (x * 0)) = NaN.
Proof. now rewrite Z.mul_0_r. Qed.

(** X9: when a column has a single category (and the frame both columns
    and a row with a value in both), Cramér's V is 0.0 / 0: not a number.  The report prints it
    as "nan", and since every comparison with it is false, the conclusion
    printed under it is the one of a strong association, below the
    conclusion of no significant relationship (the p-value is 1). *)
Theorem degenerate_cramers_v_is_nan
    (chi2_sf : float -> Z -> float) (df : DataFrame) (col1 col2 : string) :
  In col1 (df_columns df) -> In col2 (df_columns df) -> observations df col1 col2 <> [] ->
  (length (counts df col1 col2) < 2 \/ length (hd [] (counts df col1 col2)) < 2)%nat ->
  exists st,
    statistics chi2_sf df col1 col2 = Return st
    /\ cramers_v st = Sqrt NaN
    /\ format_root_f 4 (cramers_v st) = "nan"
    /\ cramers_conclusion (cramers_v st)
       = "🔹 **Conclusion:** The association is **strong**."
    /\ Script.cramers_conclusion (cramers_v st)
       = "🔹 **Conclusion:** The association is **strong**."
    /\ chi2_conclusion col1 col2 (p_val st)
       = ("**Conclusion:** No significant relationship between `"
         ++ col1
         ++ "` and `"
         ++ col2
         ++ "` (p-value > 0.05).").
Proof.
  intros H1 H2 Hrows Hdeg.
  pose proof (counts_positive_margins df col1 col2 Hrows) as Hpm.
  destruct (statistics_counts chi2_sf df col1 col2 H1 H2 Hrows) as (res & Hres & Hst).
  rewrite (chi2_contingency_counts chi2_sf _ Hpm), (degenerate_dof _ Hpm Hdeg) in Hres.
  cbn in Hres. injection Hres as <-. cbn [statistic] in Hst.
  assert (Hmin : Nat.min (length (counts df col1 col2))
                         (length (hd [] (counts df col1 col2))) = 1%nat).
  { destruct Hpm as (Hne & Hcol & _).
    destruct (counts df col1 col2) as [|row t]; [contradiction |]. cbn [hd] in *.
    destruct row; [contradiction |]. cbn [length] in *. lia. }
  rewrite Hmin in Hst. change (Z.of_nat 1 - 1)%Z with 0%Z in Hst.
  rewrite fdiv_zero_zero in Hst.
  eexists. split; [exact Hst |]. cbn [cramers_v p_val pvalue]. repeat split.
Qed.

Lemma degenerate_cramers_v_is_nan_witness :
  exists st,
    statistics sample_sf all_male "Gender" "Purchase" = Return st
    /\ cramers_v st = Sqrt NaN
    /\ format_root_f 4 (cramers_v st) = "nan"
    /\ cramers_conclusion (cramers_v st)
       = "🔹 **Conclusion:** The association is **strong**."
    /\ Script.cramers_conclusion (cramers_v st)
       = "🔹 **Conclusion:** The association is **strong**."
    /\ chi2_conclusion "Gender" "Purchase" (p_val st)
       = "**Conclusion:** No significant relationship between `Gender` and `Purchase` (p-value > 0.05).".
Proof.
  apply (degenerate_cramers_v_is_nan sample_sf all_male "Gender" "Purchase").
  - simpl. auto.
  - simpl. auto.
  - discriminate.
  - left. vm_compute. lia.
Defined.

(* ===================================================================== *)
(** * Which row a label of the chart is read from *)
(* ===================================================================== *)

Lemma round_half_even_comp p q : (p == q)%Q -> round_half_even p = round_half_even q.
Proof.
  intros H. unfold round_half_even. rewrite (Qfloor_comp _ _ H).
  assert (H' : (p - inject_Z (Qfloor q) == q - inject_Z (Qfloor q))%Q) by now rewrite H.
  now rewrite (Qcompare_comp _ _ H' _ _ (Qeq_refl (1 # 2))).
Qed.

(** The left edge of bar [n] of a stacked bar plot: n - 1/4. *)
Lemma bar_x_value n :
  exists q, fsub (of_Z n) (Fin (1 # 4)) = Fin q /\ (q == (4 * n - 1) # 4)%Q.
Proof.
  eexists. split; [reflexivity |]. rewrite !Qred_correct.
  unfold Qeq, Qplus, Qopp, inject_Z. simpl. lia.
Qed.

Lemma Qfloor_quarter n : Qfloor ((4 * n - 1) # 4) = (n - 1)%Z.
Proof. unfold Qfloor. symmetry. apply (Z.div_unique _ _ _ 3); lia. Qed.

(** [round(n - 0.25)] is [n]. *)
Lemma py_round_bar_x n : py_round (fsub (of_Z n) (Fin (1 # 4))) = Return n.
Proof.
  destruct (bar_x_value n) as (q & -> & Hq). unfold py_round. f_equal.
  rewrite (round_half_even_comp _ _ Hq). unfold round_half_even.
  rewrite Qfloor_quarter.
  assert (H : ((4 * n - 1 # 4) - inject_Z (n - 1) == 3 # 4)%Q).
  { unfold Qeq, Qminus, Qplus, Qopp, inject_Z. simpl. lia. }
  rewrite (Qcompare_comp _ _ H _ _ (Qeq_refl (1 # 2))). simpl. f_equal. lia.
Qed.

(** [int(k - 0.25)] is [k - 1], and 0 for the first bar. *)
Lemma py_int_bar_x k :
  py_int (fsub (of_Z (Z.of_nat k)) (Fin (1 # 4))) = Return (Z.of_nat (Nat.pred k)).
Proof.
  destruct (bar_x_value (Z.of_nat k)) as (q & -> & Hq). unfold py_int, sgn. f_equal.
  rewrite (Qcompare_comp _ _ Hq _ _ (Qeq_refl 0%Q)).
  destruct k as [|k].
  - change (Qcompare (4 * Z.of_nat 0 - 1 # 4) 0) with Lt.
    unfold Qceiling. assert (H : (- q == 1 # 4)%Q) by (rewrite Hq; reflexivity).
    now rewrite (Qfloor_comp _ _ H).
  - replace (Qcompare (4 * Z.of_nat (S k) - 1 # 4) 0) with Gt.
    + rewrite (Qfloor_comp _ _ Hq), Qfloor_quarter. cbn [Nat.pred]. lia.
    + symmetry. apply Qgt_alt. unfold Qlt. simpl. lia.
Qed.

Lemma bar_column_nth k0 pos_prior neg_prior y k bar :
  nth_error (bar_column k0 pos_prior neg_prior y) k = Some bar ->
  get_x bar = fsub (of_Z (Z.of_nat (k0 + k))) (Fin (1 # 4))
  /\ nth_error y k = Some (get_height bar).
Proof.
  revert k0 neg_prior y k.
  induction pos_prior as [|p ps IH]; intros k0 [|n ns] [|h hs] k; simpl;
    try (destruct k; discriminate).
  destruct k as [|k]; simpl.
  - intros H. injection H as <-. simpl. now rewrite Nat.add_0_r.
  - intros H. apply IH in H. now rewrite Nat.add_succ_r.
Qed.

Lemma bar_containers_nth pos_prior neg_prior cols i bars :
  nth_error (bar_containers pos_prior neg_prior cols) i = Some bars ->
  exists p n col,
    bars = bar_column 0 p n (map fillna0 col) /\ nth_error cols i = Some col.
Proof.
  revert pos_prior neg_prior i.
  induction cols as [|col rest IH]; intros p n i; [destruct i; discriminate |].
  cbn [bar_containers]. destruct i as [|i]; cbn [nth_error].
  - intros H. injection H as <-. now exists p, n, col.
  - apply IH.
Qed.

Lemma table_columns_nth (t : Table float) i col :
  nth_error (table_columns t) i = Some col ->
  col = map (fun row => nth i row NaN) (values t) /\ (i < length (columns t))%nat.
Proof.
  unfold table_columns. rewrite List.nth_error_map, List.nth_error_seq.
  destruct (i <? length (columns t))%nat eqn:E; [| discriminate].
  apply Nat.ltb_lt in E. cbn. intros H. now injection H as <-.
Qed.

(** Bar [k] of container [i] of the stacked plot of [t] is the segment of
    row [k] and column [i]; its left edge is k - 1/4. *)
Lemma stacked_containers_nth (t : Table float) i k bars bar :
  nth_error (stacked_containers t) i = Some bars ->
  nth_error bars k = Some bar ->
  get_x bar = fsub (of_Z (Z.of_nat k)) (Fin (1 # 4))
  /\ (exists row, nth_error (values t) k = Some row
                  /\ get_height bar = fillna0 (nth i row NaN))
  /\ (i < length (columns t))%nat.
Proof.
  unfold stacked_containers. intros Hi Hk.
  apply bar_containers_nth in Hi as (p & n & col & -> & Hcol).
  apply table_columns_nth in Hcol as [-> Hi].
  apply bar_column_nth in Hk as [Hx Hh]. split; [exact Hx |]. split; [| exact Hi].
  rewrite map_map, List.nth_error_map in Hh.
  destruct (nth_error (values t) k) as [row|]; [| discriminate].
  exists row. split; [reflexivity |]. cbn in Hh. now injection Hh as <-.
Qed.

(** X11: in the chart of [cat_stat.py], the label of a segment is read
    from the row of the segment: for the bar of row [k] in the container
    of column [i], [round(bar.get_x())] is [k], so that the text of the
    label is the percentage at [k, i] of the table of row percentages. *)
Theorem chart_label_reads_its_row
    (t : Table float) (lookup : Z -> Z -> result float)
    (i k : nat) (bars : list Bar) (bar : Bar) (x y : float) :
  nth_error (stacked_containers t) i = Some bars ->
  nth_error bars k = Some bar ->
  (exists row, nth_error (values t) k = Some row
               /\ get_height bar = fillna0 (nth i row NaN))
  /\ py_round (get_x bar) = Return (Z.of_nat k)
  /\ try_label lookup i bar x y
     = (let* percent := lookup (Z.of_nat k) (Z.of_nat i) in
        Return {| text_x := x; text_y := y; text_s := format_f 1 percent ++ "%" |}).
Proof.
  intros Hi Hk. destruct (stacked_containers_nth t i k bars bar Hi Hk) as (Hx & Hrow & _).
  split; [exact Hrow |]. unfold try_label. rewrite Hx, py_round_bar_x. split; reflexivity.
Qed.

Lemma chart_label_reads_its_row_witness :
  let t := percent_of_total (crosstab (column use_case "Gender") (column use_case "Purchase")) in
  let labels := percent_of_row (crosstab (column use_case "Gender") (column use_case "Purchase")) in
  exists bar,
    nth_error (nth 1 (stacked_containers t) []) 1 = Some bar
    /\ try_label (iloc labels) 1 bar (Fin 1) (Fin 25)
       = Return {| text_x := Fin 1; text_y := Fin 25; text_s := "100.0%" |}.
Proof.
  cbv zeta. eexists. split; [reflexivity |].
  destruct (chart_label_reads_its_row
              (percent_of_total
                 (crosstab (column use_case "Gender") (column use_case "Purchase")))
              (iloc (percent_of_row
                 (crosstab (column use_case "Gender") (column use_case "Purchase"))))
              1 1 _ _ (Fin 1) (Fin 25) eq_refl eq_refl) as (_ & _ & H).
  exact H.
Defined.

(** X12: in the chart of [cat-stat-analysis.py], the row of the lookup is
    [int(bar.get_x())], and the left edge of the bar of row [k] is
    k - 0.25: the label of a segment of row [k >= 1] is the row percentage
    of row [k - 1], the row before its own. *)
Theorem script_label_reads_previous_row
    (t : Table float) (lookup : Z -> Z -> result float)
    (i k : nat) (bars : list Bar) (bar : Bar) (x y : float) :
  nth_error (stacked_containers t) i = Some bars ->
  nth_error bars k = Some bar ->
  (exists row, nth_error (values t) k = Some row
               /\ get_height bar = fillna0 (nth i row NaN))
  /\ py_int (get_x bar) = Return (Z.of_nat (Nat.pred k))
  /\ Script.label_text lookup i bar x y
     = (let* percent := lookup (Z.of_nat (Nat.pred k)) (Z.of_nat i) in
        Return {| text_x := x; text_y := y; text_s := format_f 1 percent ++ "%" |}).
Proof.
  intros Hi Hk. destruct (stacked_containers_nth t i k bars bar Hi Hk) as (Hx & Hrow & _).
  split; [exact Hrow |]. unfold Script.label_text. rewrite Hx, py_int_bar_x.
  split; reflexivity.
Qed.

Lemma script_label_reads_previous_row_witness :
  let t := percent_of_total (crosstab (column use_case "Gender") (column use_case "Purchase")) in
  let labels := percent_of_row (crosstab (column use_case "Gender") (column use_case "Purchase")) in
  iloc labels 1 1 = Return (Fin 100)
  /\ exists bar,
       nth_error (nth 1 (stacked_containers t) []) 1 = Some bar
       /\ Script.label_text (iloc labels) 1 bar (Fin 1) (Fin 25)
          = Return {| text_x := Fin 1; text_y := Fin 25; text_s := "20.0%" |}.
Proof.
  cbv zeta. split; [reflexivity |]. eexists. split; [reflexivity |].
  destruct (script_label_reads_previous_row
              (percent_of_total
                 (crosstab (column use_case "Gender") (column use_case "Purchase")))
              (iloc (percent_of_row
                 (crosstab (column use_case "Gender") (column use_case "Purchase"))))
              1 1 _ _ (Fin 1) (Fin 25) eq_refl eq_refl) as (_ & _ & H).
  exact H.
Defined.

(* ===================================================================== *)
(** * The run of the script's [statistical_analysis] *)
(* ===================================================================== *)

Lemma position_in_range len r : (r < len)%nat -> position len (Z.of_nat r) = Some r.
Proof.
  intros H. unfold position.
  replace ((0 <=? Z.of_nat r)%Z && (Z.of_nat r <? Z.of_nat len)%Z) with true.
  - now rewrite Nat2Z.id.
  - symmetry. apply andb_true_iff. split; [apply Z.leb_le | apply Z.ltb_lt]; lia.
Qed.

(** A lookup inside a rectangular table returns. *)
Lemma iloc_in_range {A : Type} (t : Table A) r c :
  length (index t) = length (values t) ->
  Forall (fun row => length row = length (columns t)) (values t) ->
  (r < length (index t))%nat -> (c < length (columns t))%nat ->
  exists v, iloc t (Z.of_nat r) (Z.of_nat c) = Return v.
Proof.
  intros Hlen Hrect Hr Hc. unfold iloc.
  rewrite (position_in_range _ r Hr), (position_in_range _ c Hc).
  destruct (nth_error (values t) r) as [row|] eqn:Er.
  - assert (Hrow : length row = length (columns t)).
    { apply (proj1 (List.Forall_forall _ _) Hrect). eapply nth_error_In, Er. }
    destruct (nth_error row c) as [v|] eqn:Ec; [now exists v |].
    apply nth_error_None in Ec. lia.
  - apply nth_error_None in Er. lia.
Qed.

Lemma percent_of_row_crosstab_in_range a b r c :
  (r < length (index (crosstab a b)))%nat -> (c < length (columns (crosstab a b)))%nat ->
  exists v, iloc (percent_of_row (crosstab a b)) (Z.of_nat r) (Z.of_nat c) = Return v.
Proof.
  intros Hr Hc.
  apply iloc_in_range; cbn [percent_of_row crosstab index columns values];
    [| | exact Hr | exact Hc].
  - now rewrite !length_map.
  - apply List.Forall_map, List.Forall_map, List.Forall_forall. intros x _.
    now rewrite !length_map.
Qed.

Section ScriptLabelLoopFacts.

Variable lookup : Z -> Z -> result float.
Variable R : nat.

Lemma script_label_bars_returns i k0 pos_prior neg_prior y :
  (forall r, (r < R)%nat -> exists v, lookup (Z.of_nat r) (Z.of_nat i) = Return v) ->
  (k0 + length y <= R)%nat ->
  exists texts, Script.label_bars lookup i (bar_column k0 pos_prior neg_prior y) = Return texts.
Proof.
  intros Hlookup. revert k0 neg_prior y.
  induction pos_prior as [|p ps IH]; intros k0 [|n ns] [|h hs] Hk;
    try (exists []; reflexivity).
  cbn [bar_column Script.label_bars get_height get_x get_y get_width length] in *.
  destruct (IH (S k0) ns hs ltac:(lia)) as (texts & Htexts).
  destruct (flt (Fin 0) h); [| now exists texts].
  unfold Script.label_text. cbn [get_x]. rewrite py_int_bar_x. cbn [bind].
  destruct (Hlookup (Nat.pred k0) ltac:(lia)) as (v & ->). cbn [bind].
  rewrite Htexts. cbn [bind]. eexists. reflexivity.
Qed.

Lemma script_label_containers_returns i0 pos_prior neg_prior cols :
  (forall i r, (i0 <= i < i0 + length cols)%nat -> (r < R)%nat ->
     exists v, lookup (Z.of_nat r) (Z.of_nat i) = Return v) ->
  Forall (fun col => length col = R) cols ->
  exists texts,
    Script.label_containers lookup i0 (bar_containers pos_prior neg_prior cols)
    = Return texts.
Proof.
  intros Hlookup Hcols. revert i0 pos_prior neg_prior Hlookup.
  induction Hcols as [|col rest Hcol Hrest IH]; intros i0 p n Hlookup.
  - exists []. reflexivity.
  - cbn [bar_containers Script.label_containers length] in *.
    destruct (script_label_bars_returns i0 0 p n (map fillna0 col)) as (texts & ->).
    { intros r Hr. apply Hlookup; lia. }
    { rewrite length_map. lia. }
    cbn [bind].
    match goal with |- context [bar_containers ?p' ?n' rest] =>
      destruct (IH (S i0) p' n') as (more & ->) end.
    { intros i r Hi Hr. apply Hlookup; lia. }
    cbn [bind]. eexists. reflexivity.
Qed.

End ScriptLabelLoopFacts.

(** The label loop of the script on the chart of a cross-tabulation:
    every row it reads exists, so that it returns. *)
Lemma script_label_loop_returns a b :
  exists texts,
    Script.label_containers (iloc (percent_of_row (crosstab a b))) 0
      (stacked_containers (percent_of_total (crosstab a b)))
    = Return texts.
Proof.
  set (t := crosstab a b). unfold stacked_containers.
  apply (script_label_containers_returns _ (length (index t))).
  - intros i r Hi Hr. apply percent_of_row_crosstab_in_range; [exact Hr |].
    unfold table_columns in Hi. rewrite length_map, length_seq in Hi.
    cbn [percent_of_total columns] in Hi. exact (proj2 Hi).
  - unfold table_columns. apply List.Forall_map, List.Forall_forall. intros j _.
    rewrite length_map. cbn [percent_of_total values]. rewrite length_map.
    unfold t. cbn [crosstab index values]. now rewrite length_map.
Qed.

(** With both columns and a row in the frame, the chart renderer of the
    script fails only where [savefig] does. *)
Lemma script_plot_outcome env df x_col hue_col title filename w :
  In x_col (df_columns df) -> In hue_col (df_columns df) -> observations df x_col hue_col <> [] ->
  Script.plot_stacked_percentage_bar env df x_col hue_col title filename w
  = match savefig_error env filename with
    | Some e => (Raise e, w)
    | None =>
        (Return tt,
         {| disk := <[filename := ImageFile (script_chart df x_col hue_col title)]> (disk w);
            stdout := stdout w ++ ["✅ Stacked bar chart saved as '" ++ filename ++ "'."] |})
    end.
Proof.
  intros Hx Hhue Hrows.
  unfold Script.plot_stacked_percentage_bar, script_chart, io_bind, lift.
  rewrite (getitem_column df x_col Hx), (getitem_column df hue_col Hhue).
  unfold plot_bar_stacked. cbn [percent_of_total columns].
  destruct (columns (crosstab (column df x_col) (column df hue_col))) eqn:Hcols.
  { exfalso. revert Hcols. cbn [crosstab columns]. apply labels_nonempty.
    fold (observations df x_col hue_col).
    destruct (observations df x_col hue_col); [contradiction | discriminate]. }
  destruct (script_label_loop_returns (column df x_col) (column df hue_col)) as (texts & ->).
  unfold savefig, print. destruct (savefig_error env filename); reflexivity.
Qed.

Lemma universal_newlines_nonempty c s : universal_newlines (String c s) <> "".
Proof. simpl. destruct (Ascii.eqb c _); discriminate. Qed.

Lemma lines_nonempty c s : lines (String c s) <> [].
Proof.
  simpl. destruct (Ascii.eqb c _); [discriminate |]. destruct (lines s); discriminate.
Qed.

(** The loop over the lines of a report fails at its first line, on the
    name [clean_text]. *)
Lemma pdf_cells_raises content :
  content <> "" ->
  Script.pdf_cells (lines (universal_newlines content))
  = Raise (Exn "NameError" "name 'clean_text' is not defined").
Proof.
  destruct content as [|c s]; [contradiction |]. intros _.
  pose proof (universal_newlines_nonempty c s) as H.
  destruct (universal_newlines (String c s)) as [|c' s']; [contradiction |].
  pose proof (lines_nonempty c' s') as H'.
  destruct (lines (String c' s')); [contradiction | reflexivity].
Qed.

(** The report of the script starts with a line break. *)
Lemma script_report_nonempty col1 col2 st : Script.report_md col1 col2 st <> "".
Proof. discriminate. Qed.

Lemma append_inv_head (a b c : string) : a ++ b = a ++ c -> b = c.
Proof.
  induction a as [|x a IH]; intros H; [exact H |]. apply IH.
  change (String x (a ++ b) = String x (a ++ c)) in H. now injection H.
Qed.

Lemma md_pdf_differ col1 col2 : md_filename col1 col2 <> Script.pdf_filename col1 col2.
Proof.
  unfold md_filename, Script.pdf_filename. intros H.
  do 4 apply append_inv_head in H. discriminate.
Qed.

Lemma png_pdf_differ col1 col2 : png_filename col1 col2 <> Script.pdf_filename col1 col2.
Proof. unfold png_filename, Script.pdf_filename. intros H. cbn in H. inversion H. Qed.

(** Every run of [statistical_analysis]: as [get_analysis] up to the
    chart, and then the failure of [generate_pdf_report]. *)
Lemma statistical_analysis_outcome read_error pdf_output chi2_sf env df col1 col2 w :
  Script.statistical_analysis read_error pdf_output chi2_sf env df col1 col2 w
  = match statistics chi2_sf df col1 col2 with
    | Raise e => (Raise e, w)
    | Return st =>
        match open_error env (md_filename col1 col2) with
        | Some e => (Raise e, w)
        | None =>
            match write_error env (md_filename col1 col2) with
            | Some (n, e) =>
                (Raise e,
                 {| disk := <[md_filename col1 col2 :=
                                TextFile (substring 0 n (Script.report_md col1 col2 st))]>
                              (disk w);
                    stdout := stdout w |})
            | None =>
                match savefig_error env (png_filename col1 col2) with
                | Some e => (Raise e, script_report_written col1 col2 st w)
                | None =>
                    (Raise match read_error (md_filename col1 col2) with
                           | Some e => e
                           | None => Exn "NameError" "name 'clean_text' is not defined"
                           end,
                     script_chart_saved df col1 col2 (script_report_written col1 col2 st w))
                end
            end
        end
    end.
Proof.
  unfold Script.statistical_analysis, io_bind at 1, lift.
  destruct (statistics chi2_sf df col1 col2) as [e|st] eqn:Hst; [reflexivity |].
  destruct (statistics_columns _ _ _ _ _ Hst) as [H1 H2].
  pose proof (statistics_Return_observations _ _ _ _ _ Hst) as Hrows.
  unfold io_bind at 1, write_text.
  destruct (open_error env (md_filename col1 col2)); [reflexivity |].
  destruct (write_error env (md_filename col1 col2)) as [[n e]|]; [reflexivity |].
  unfold io_bind at 1, print. unfold io_bind at 1.
  rewrite (script_plot_outcome env df col1 col2 _ _ _ H1 H2 Hrows).
  destruct (savefig_error env (png_filename col1 col2)); [reflexivity |].
  unfold Script.generate_pdf_report, io_bind, Script.read_lines, lift.
  destruct (read_error (md_filename col1 col2)); [reflexivity |].
  cbn [disk]. rewrite lookup_insert_ne by (apply not_eq_sym, md_png_differ).
  rewrite lookup_insert_eq.
  rewrite (pdf_cells_raises _ (script_report_nonempty col1 col2 st)). reflexivity.
Qed.

(** X13: [statistical_analysis] never returns and never writes the PDF.
    Where the statistics are computed and the report and the chart are
    written, [generate_pdf_report] fails at the first line of the report:
    it calls [clean_text], a name the script does not define.  The run
    ends with that NameError (or with the error of opening the report for
    reading), the report and the chart on the disk, and no PDF. *)
Theorem statistical_analysis_never_returns
    (read_error : string -> option exn)
    (pdf_output : list string -> string -> string -> io unit)
    (chi2_sf : float -> Z -> float) (env : Env) (df : DataFrame)
    (col1 col2 : string) (w : World) :
  exists e w',
    Script.statistical_analysis read_error pdf_output chi2_sf env df col1 col2 w
    = (Raise e, w')
    /\ disk w' !! Script.pdf_filename col1 col2 = disk w !! Script.pdf_filename col1 col2
    /\ (In col1 (df_columns df) -> In col2 (df_columns df) -> observations df col1 col2 <> [] ->
        open_error env (md_filename col1 col2) = None ->
        write_error env (md_filename col1 col2) = None ->
        savefig_error env (png_filename col1 col2) = None ->
        read_error (md_filename col1 col2) = None ->
        e = Exn "NameError" "name 'clean_text' is not defined"
        /\ (exists st,
              statistics chi2_sf df col1 col2 = Return st
              /\ disk w' !! md_filename col1 col2
                 = Some (TextFile (Script.report_md col1 col2 st)))
        /\ disk w' !! png_filename col1 col2
           = Some (ImageFile (script_chart df col1 col2
                     ("Stacked Percentage Bar Chart: " ++ col1 ++ " vs " ++ col2)))
        /\ stdout w'
           = List.app (stdout w)
               ["✅ Statistical analysis report saved as '" ++ md_filename col1 col2 ++ "'.";
                "✅ Stacked bar chart saved as '" ++ png_filename col1 col2 ++ "'."]).
Proof.
  rewrite statistical_analysis_outcome.
  destruct (statistics chi2_sf df col1 col2) as [e|st] eqn:Hst.
  { exists e, w. split; [reflexivity |]. split; [reflexivity |].
    intros H1 H2 Hrows. exfalso.
    destruct (statistics_counts chi2_sf df col1 col2 H1 H2 Hrows) as (res & _ & Hret).
    congruence. }
  destruct (open_error env (md_filename col1 col2)) as [e|].
  { exists e, w. split; [reflexivity |]. split; [reflexivity |]. discriminate. }
  destruct (write_error env (md_filename col1 col2)) as [[n e]|].
  { eexists. eexists. split; [reflexivity |]. split; [| discriminate].
    cbn [disk]. now rewrite lookup_insert_ne by apply md_pdf_differ. }
  destruct (savefig_error env (png_filename col1 col2)) as [e|].
  { eexists. eexists. split; [reflexivity |]. split; [| discriminate].
    unfold script_report_written. cbn [disk].
    now rewrite lookup_insert_ne by apply md_pdf_differ. }
  eexists. eexists. split; [reflexivity |].
  unfold script_chart_saved, script_report_written. cbn [disk stdout]. split.
  - rewrite lookup_insert_ne by apply png_pdf_differ.
    now rewrite lookup_insert_ne by apply md_pdf_differ.
  - intros _ _ _ _ _ _ ->. split; [reflexivity |]. split; [| split].
    + exists st. split; [reflexivity |].
      rewrite lookup_insert_ne by (apply not_eq_sym, md_png_differ). apply lookup_insert_eq.
    + apply lookup_insert_eq.
    + now rewrite <- app_assoc.
Qed.

Lemma statistical_analysis_never_returns_witness :
  exists w',
    Script.statistical_analysis (fun _ => None) (fun _ _ _ => lift (Return tt))
      sample_sf no_faults use_case "Gender" "Purchase" empty_world
    = (Raise (Exn "NameError" "name 'clean_text' is not defined"), w')
    /\ disk w' !! "stat_analysis_Gender_vs_Purchase.pdf" = None
    /\ (exists content, disk w' !! "stat_analysis_Gender_vs_Purchase.md" = Some (TextFile content))
    /\ (exists fig, disk w' !! "stacked_bar_Gender_vs_Purchase.png" = Some (ImageFile fig)).
Proof.
  destruct (statistical_analysis_never_returns (fun _ => None)
              (fun _ _ _ => lift (Return tt))
              sample_sf no_faults use_case "Gender" "Purchase" empty_world)
    as (e & w' & Hrun & Hpdf & Hrest).
  destruct Hrest as (-> & (st & _ & Hmd) & Hpng & _);
    [simpl; auto | simpl; auto | discriminate | reflexivity | reflexivity | reflexivity
     | reflexivity |].
  exists w'. split; [exact Hrun |]. split; [exact Hpdf |].
  split; eexists; [exact Hmd | exact Hpng].
Defined.

(* ===================================================================== *)
(** * The contingency table counts every observation once *)
(* ===================================================================== *)

Lemma ltb_lt a b : String.ltb a b = true <-> OrderedTypeEx.String_as_OT.lt a b.
Proof.
  rewrite <- OrderedTypeEx.String_as_OT.cmp_lt.
  unfold String.ltb, OrderedTypeEx.String_as_OT.cmp.
  destruct (String.compare a b); split; congruence.
Qed.

Lemma ltb_trans a b c : String.ltb a b = true -> String.ltb b c = true -> String.ltb a c = true.
Proof. rewrite !ltb_lt. apply OrderedTypeEx.String_as_OT.lt_trans. Qed.

Lemma ltb_irrefl a : String.ltb a a = false.
Proof.
  destruct (String.ltb a a) eqn:E; [| reflexivity].
  apply ltb_lt, OrderedTypeEx.String_as_OT.lt_not_eq in E. now contradiction E.
Qed.

Lemma ltb_total x y : String.eqb x y = false -> String.ltb x y = false -> String.ltb y x = true.
Proof.
  intros Hne Hlt. unfold String.ltb in *. rewrite String.compare_antisym.
  destruct (String.compare x y) eqn:E; try reflexivity; try discriminate.
  apply String.compare_eq_iff in E. apply String.eqb_neq in Hne. contradiction.
Qed.

Lemma insert_label_ascending x l : ascending l -> ascending (insert_label x l).
Proof.
  induction l as [|y l IH]; simpl.
  - intros _. split; [constructor | exact I].
  - intros [Hy Hl]. destruct (String.eqb x y) eqn:Exy; [now split |].
    destruct (String.ltb x y) eqn:Lxy.
    + split; [| now split]. constructor; [exact Lxy |].
      eapply List.Forall_impl; [| exact Hy]. intros z Hz. exact (ltb_trans _ _ _ Lxy Hz).
    + split; [| now apply IH]. apply List.Forall_forall. intros z Hz.
      apply In_insert_label in Hz as [-> | Hz].
      * now apply ltb_total.
      * exact (proj1 (List.Forall_forall _ _) Hy z Hz).
Qed.

Lemma labels_ascending l : ascending (labels l).
Proof.
  unfold labels. induction l as [|x l IH]; simpl; [exact I |].
  now apply insert_label_ascending.
Qed.

Lemma ascending_NoDup l : ascending l -> List.NoDup l.
Proof.
  induction l as [|y l IH]; [constructor |]. intros [Hy Hl].
  constructor; [| now apply IH].
  intros Hin. pose proof (proj1 (List.Forall_forall _ _) Hy y Hin) as H.
  cbv beta in H. now rewrite ltb_irrefl in H.
Qed.

(** The labels of a column: its distinct values, each once, in ascending
    order. *)
Lemma labels_NoDup l : List.NoDup (labels l).
Proof. apply ascending_NoDup, labels_ascending. Qed.

Lemma zsum_map_add {A : Type} (f g : A -> Z) l :
  zsum (map (fun x => f x + g x)%Z l) = (zsum (map f l) + zsum (map g l))%Z.
Proof.
  induction l as [|x l IH]; [reflexivity |]. cbn [map]. rewrite !zsum_cons, IH. lia.
Qed.

Lemma zsum_map_zero {A : Type} (l : list A) : zsum (map (fun _ => 0%Z) l) = 0%Z.
Proof. induction l as [|x l IH]; [reflexivity |]. cbn [map]. now rewrite zsum_cons, IH. Qed.

Lemma zsum_map_ext_in {A : Type} (f g : A -> Z) l :
  (forall x, In x l -> f x = g x) -> zsum (map f l) = zsum (map g l).
Proof. intros H. f_equal. now apply map_ext_in. Qed.

(** The sum of the column totals of a rectangular table is the sum of
    its row totals. *)
Lemma col_sums_row_sums (vs : list (list Z)) (C : nat) :
  Forall (fun row => length row = C) vs ->
  zsum (map (fun j => zsum (map (fun row => nth j row 0%Z) vs)) (seq 0 C))
  = zsum (map zsum vs).
Proof.
  induction 1 as [|row vs Hrow Hvs IH]; cbn [map].
  - apply zsum_map_zero.
  - rewrite zsum_cons, <- IH.
    rewrite (zsum_map_ext_in _ (fun j => nth j row 0 + zsum (map (fun r => nth j r 0) vs))%Z)
      by (intros j _; apply zsum_cons).
    rewrite zsum_map_add. f_equal. f_equal. subst C.
    transitivity (map (fun z : Z => z) row); [| apply map_id].
    rewrite <- (map_seq_nth (fun z => z) row 0%Z 0).
    apply map_ext. intros j. now rewrite Nat.sub_0_r.
Qed.

Lemma indicator_sum (a : string) (l : list string) :
  List.NoDup l -> In a l ->
  zsum (map (fun x => if String.eqb a x then 1 else 0)%Z l) = 1%Z.
Proof.
  induction 1 as [|y l Hy Hl IH]; intros Hin; [destruct Hin |].
  cbn [map]. rewrite zsum_cons. destruct (String.eqb_spec a y) as [-> | Hne].
  - rewrite (zsum_map_ext_in _ (fun _ => 0%Z)), zsum_map_zero; [reflexivity |].
    intros x Hx. destruct (String.eqb_spec y x) as [-> | _]; [contradiction | reflexivity].
  - destruct Hin as [-> | Hin]; [contradiction |]. now rewrite IH.
Qed.

Lemma count_pair_cons p pairs x y :
  count_pair (p :: pairs) x y
  = ((if String.eqb (fst p) x && String.eqb (snd p) y then 1 else 0)
     + count_pair pairs x y)%Z.
Proof.
  unfold count_pair. cbn [List.filter].
  destruct (String.eqb (fst p) x && String.eqb (snd p) y); cbn [length]; lia.
Qed.

(** Over distinct row and column labels that cover the observations, the
    counts of all cells add up to the number of observations. *)
Lemma count_pair_sum rows cols pairs :
  List.NoDup rows -> List.NoDup cols ->
  (forall p, In p pairs -> In (fst p) rows /\ In (snd p) cols) ->
  zsum (map (fun x => zsum (map (count_pair pairs x) cols)) rows)
  = Z.of_nat (length pairs).
Proof.
  intros Hrows Hcols. induction pairs as [|p pairs IH]; intros Hin.
  - rewrite (zsum_map_ext_in _ (fun _ => 0%Z)); [apply zsum_map_zero |].
    intros x _. apply zsum_map_zero.
  - destruct (Hin p (or_introl eq_refl)) as [Hp1 Hp2].
    rewrite (zsum_map_ext_in _
               (fun x => (if String.eqb (fst p) x then 1 else 0)
                         + zsum (map (count_pair pairs x) cols))%Z).
    + rewrite zsum_map_add, IH by (intros q Hq; apply Hin; now right).
      rewrite (indicator_sum _ _ Hrows Hp1). cbn [length]. lia.
    + intros x _.
      rewrite (zsum_map_ext_in _
                 (fun y => (if String.eqb (fst p) x && String.eqb (snd p) y then 1 else 0)
                           + count_pair pairs x y)%Z)
        by (intros y _; apply count_pair_cons).
      rewrite zsum_map_add. f_equal.
      destruct (String.eqb (fst p) x); cbn [andb].
      * now apply indicator_sum.
      * apply zsum_map_zero.
Qed.

Lemma crosstab_total a b :
  total (crosstab a b) = Z.of_nat (length (dropna (zip a b))).
Proof.
  unfold total, col_sums. rewrite crosstab_values. cbn [crosstab columns].
  rewrite (col_sums_row_sums _ (length (labels (map snd (dropna (zip a b)))))).
  - rewrite map_map. apply count_pair_sum; try apply labels_NoDup.
    intros p Hp. split; apply In_labels, in_map, Hp.
  - apply List.Forall_map, List.Forall_forall. intros x _. now rewrite length_map.
Qed.

Lemma zsum_concat vs : zsum (concat vs) = zsum (map zsum vs).
Proof.
  induction vs as [|row vs IH]; [reflexivity |].
  cbn [concat map]. now rewrite zsum_app, zsum_cons, IH.
Qed.

Lemma crosstab_grand_total a b :
  Spec.grand_total (values (crosstab a b)) = Z.of_nat (length (dropna (zip a b))).
Proof.
  unfold Spec.grand_total. rewrite zsum_concat, crosstab_values, map_map.
  apply count_pair_sum; try apply labels_NoDup.
  intros p Hp. split; apply In_labels, in_map, Hp.
Qed.

(** The observations are the rows with a value in both columns, in the
    order of the rows. *)
Lemma observations_rows df col1 col2 :
  observations df col1 col2
  = flat_map (fun row => match row col1, row col2 with
                         | Some x, Some y => [(x, y)]
                         | _, _ => []
                         end) (df_rows df).
Proof.
  unfold observations, dropna. rewrite zip_columns.
  induction (df_rows df) as [|row rows IH]; [reflexivity |].
  cbn [map flat_map]. rewrite IH. reflexivity.
Qed.

Lemma observations_length df col1 col2 :
  length (observations df col1 col2)
  = length (List.filter (fun row => match row col1, row col2 with
                                    | Some _, Some _ => true
                                    | _, _ => false
                                    end) (df_rows df)).
Proof.
  rewrite observations_rows.
  induction (df_rows df) as [|row rows IH]; [reflexivity |].
  cbn [flat_map List.filter]. rewrite length_app, IH.
  destruct (row col1), (row col2); reflexivity.
Qed.

Lemma filter_all {A : Type} (f : A -> bool) l : forallb f l = true -> List.filter f l = l.
Proof.
  induction l as [|x l IH]; [reflexivity |]. cbn [forallb List.filter].
  intros H. apply andb_true_iff in H as [-> H]. now rewrite IH.
Qed.

(** X10: the contingency table counts exactly once every row of the frame
    that has a value in both columns, and no other row: its cells add up
    to the number of these rows, which is the [n] of Cramér's V (the
    number of all rows when no value is missing); its row labels and its
    column labels are the distinct values of the counted rows, each
    once. *)
Theorem contingency_table_counts_every_row (df : DataFrame) (col1 col2 : string) :
  let t := crosstab (column df col1) (column df col2) in
  let complete := fun row : string -> option string =>
                    match row col1, row col2 with
                    | Some _, Some _ => true
                    | _, _ => false
                    end in
  total t = Z.of_nat (length (List.filter complete (df_rows df)))
  /\ Spec.grand_total (values t) = Z.of_nat (length (List.filter complete (df_rows df)))
  /\ (forallb complete (df_rows df) = true -> total t = Z.of_nat (length (df_rows df)))
  /\ List.NoDup (index t) /\ List.NoDup (columns t)
  /\ (forall x, In x (index t)
                <-> exists row y, In row (df_rows df)
                                  /\ row col1 = Some x /\ row col2 = Some y)
  /\ (forall y, In y (columns t)
                <-> exists row x, In row (df_rows df)
                                  /\ row col1 = Some x /\ row col2 = Some y).
Proof.
  cbv zeta.
  assert (Hin : forall x y, In (x, y) (observations df col1 col2)
                            <-> exists row, In row (df_rows df)
                                            /\ row col1 = Some x /\ row col2 = Some y).
  { intros x y. rewrite observations_rows, in_flat_map. split.
    - intros (row & Hrow & Hxy). exists row. split; [exact Hrow |].
      destruct (row col1) as [x'|], (row col2) as [y'|]; try (destruct Hxy; fail).
      destruct Hxy as [Hxy | []]. now injection Hxy as -> ->.
    - intros (row & Hrow & H1 & H2). exists row. split; [exact Hrow |].
      rewrite H1, H2. now left. }
  rewrite crosstab_total, crosstab_grand_total. fold (observations df col1 col2).
  rewrite observations_length. split; [reflexivity |]. split; [reflexivity |].
  split.
  { intros Hall. now rewrite (filter_all _ _ Hall). }
  cbn [crosstab index columns]. fold (observations df col1 col2).
  split; [apply labels_NoDup |]. split; [apply labels_NoDup |].
  split; intros z; rewrite In_labels, in_map_iff.
  - split.
    + intros ([x y] & <- & Hxy). apply Hin in Hxy as (row & Hrow & H1 & H2).
      now exists row, y.
    + intros (row & y & Hrow & H1 & H2). exists (z, y). split; [reflexivity |].
      apply Hin. now exists row.
  - split.
    + intros ([x y] & <- & Hxy). apply Hin in Hxy as (row & Hrow & H1 & H2).
      now exists row, x.
    + intros (row & x & Hrow & H1 & H2). exists (x, z). split; [reflexivity |].
      apply Hin. now exists row.
Qed.

Lemma contingency_table_counts_every_row_witness :
  length (df_rows with_missing) = 12%nat
  /\ total (crosstab (column with_missing "Gender") (column with_missing "Purchase")) = 10%Z
  /\ total (crosstab (column use_case "Gender") (column use_case "Purchase"))
     = Z.of_nat (length (df_rows use_case)).
Proof.
  split; [reflexivity |].
  destruct (contingency_table_counts_every_row with_missing "Gender" "Purchase")
    as (Hmissing & _).
  destruct (contingency_table_counts_every_row use_case "Gender" "Purchase")
    as (_ & _ & Hall & _).
  split; [exact Hmissing | exact (Hall eq_refl)].
Defined.

Lemma counts_shape df col1 col2 :
  observations df col1 col2 <> [] ->
  length (counts df col1 col2) = length (labels (map fst (observations df col1 col2)))
  /\ length (hd [] (counts df col1 col2))
     = length (labels (map snd (observations df col1 col2))).
Proof.
  intros Hrows. unfold counts. rewrite crosstab_values.
  fold (observations df col1 col2). rewrite length_map. split; [reflexivity |].
  destruct (labels (map fst (observations df col1 col2))) eqn:E.
  - exfalso. revert E. apply labels_nonempty.
    destruct (observations df col1 col2); [contradiction | discriminate].
  - cbn [map hd]. now rewrite length_map.
Qed.

(** X14: what [get_analysis] and [statistical_analysis] report as Cramér's
    V is sqrt(chi2 / (N * (min(R, C) - 1))), where chi2 is the reported
    statistic, N the number of rows of the frame that have a value in both
    columns, and R and C the numbers of distinct values of the two columns
    in these rows. *)
Theorem cramers_v_formula
    (chi2_sf : float -> Z -> float) (df : DataFrame) (col1 col2 : string) (st : Statistics) :
  statistics chi2_sf df col1 col2 = Return st ->
  let obs := observations df col1 col2 in
  cramers_v st
  = np_sqrt (fdiv (chi2_stat st)
               (of_Z (Z.of_nat (length obs)
                      * (Z.of_nat (Nat.min (length (labels (map fst obs)))
                                           (length (labels (map snd obs)))) - 1)))).
Proof.
  intros Hst. cbv zeta.
  destruct (statistics_columns _ _ _ _ _ Hst) as [H1 H2].
  pose proof (statistics_Return_observations _ _ _ _ _ Hst) as Hrows.
  destruct (statistics_counts chi2_sf df col1 col2 H1 H2 Hrows) as (res & _ & Hst').
  rewrite Hst in Hst'. injection Hst' as ->. cbn [cramers_v chi2_stat].
  destruct (counts_shape df col1 col2 Hrows) as [-> ->].
  rewrite crosstab_total. reflexivity.
Qed.

Lemma cramers_v_formula_witness :
  exists st,
    statistics sample_sf use_case "Gender" "Purchase" = Return st
    /\ chi2_stat st = Fin (15 # 4)
    /\ cramers_v st = np_sqrt (fdiv (Fin (15 # 4)) (of_Z (10 * (2 - 1)))).
Proof.
  eexists. split; [apply use_case_statistics |]. split; [reflexivity |].
  exact (cramers_v_formula sample_sf use_case "Gender" "Purchase" _
           (use_case_statistics sample_sf)).
Defined.

(* ===================================================================== *)
(** * The chart renderer of the script *)
(* ===================================================================== *)



(* ===================================================================== *)
(** * The statistic and Cramér's V are numbers *)
(* ===================================================================== *)

Lemma fin_nonneg q : (0 <= q)%Q -> fnonneg (fin q).
Proof. intros H. exists (Qred q). split; [reflexivity | now rewrite Qred_correct]. Qed.

Lemma ffinite_of_Z z : ffinite (of_Z z).
Proof. eexists. reflexivity. Qed.

Lemma fpositive_of_Z z : (0 < z)%Z -> fpositive (of_Z z).
Proof.
  intros H. eexists. split; [reflexivity |]. rewrite Qred_correct.
  now rewrite <- (Zlt_Qlt 0).
Qed.

Lemma fsub_finite x y : ffinite x -> ffinite y -> ffinite (fsub x y).
Proof. intros [a ->] [b ->]. eexists. reflexivity. Qed.

Lemma fmul_square_nonneg d : ffinite d -> fnonneg (fmul d d).
Proof.
  intros [q ->]. apply fin_nonneg.
  destruct q as [a b]. unfold Qle, Qmult. simpl. nia.
Qed.

Lemma sgn_positive q : (0 < q)%Q -> sgn q = Gt.
Proof. intros H. now apply Qgt_alt. Qed.

Lemma fdiv_nonneg s e : fnonneg s -> fpositive e -> fnonneg (fdiv s e).
Proof.
  intros (a & -> & Ha) (b & -> & Hb). cbn [fdiv]. rewrite (sgn_positive b Hb).
  apply fin_nonneg. apply Qle_shift_div_l; [exact Hb |]. now rewrite Qmult_0_l.
Qed.

Lemma fadd_nonneg x y : fnonneg x -> fnonneg y -> fnonneg (fadd x y).
Proof.
  intros (a & -> & Ha) (b & -> & Hb). cbn [fadd]. apply fin_nonneg.
  exact (Qplus_le_compat 0 a 0 b Ha Hb).
Qed.

Lemma fold_fadd_nonneg l a :
  Forall fnonneg l -> fnonneg a -> fnonneg (fold_left fadd l a).
Proof.
  intros Hl. revert a. induction Hl as [|x l Hx Hl IH]; intros a Ha; cbn [fold_left].
  - exact Ha.
  - apply IH. now apply fadd_nonneg.
Qed.

Lemma fsum_nonneg l : Forall fnonneg l -> fnonneg (fsum l).
Proof.
  intros H. apply fold_fadd_nonneg; [exact H |]. exists 0%Q. split; [reflexivity | apply Qle_refl].
Qed.

Lemma Forall_zip {A B : Type} (P : A -> Prop) (Q : B -> Prop) a b :
  Forall P a -> Forall Q b -> Forall (fun xy => P (fst xy) /\ Q (snd xy)) (zip a b).
Proof.
  intros Ha. revert b. induction Ha as [|x a Hx Ha IH]; intros b Hb; [constructor |].
  destruct Hb as [|y b Hy Hb]; cbn [zip]; constructor; [now split | now apply IH].
Qed.

(** Every term of Pearson's sum over finite counts and positive expected
    counts is a number, and not negative. *)
Lemma pearson_terms_nonneg f_obs f_exp :
  Forall (Forall ffinite) f_obs -> Forall (Forall fpositive) f_exp ->
  Forall (Forall fnonneg) (pearson_terms f_obs f_exp).
Proof.
  intros Hobs Hexp. unfold pearson_terms, map2.
  apply List.Forall_map. eapply List.Forall_impl; [| exact (Forall_zip _ _ _ _ Hobs Hexp)].
  intros [os es] [Hos Hes]. cbn [fst snd] in *.
  apply List.Forall_map. eapply List.Forall_impl; [| exact (Forall_zip _ _ _ _ Hos Hes)].
  intros [o e] [Ho [q [-> Hq]]]. cbn [fst snd] in *.
  apply fdiv_nonneg; [| now exists q].
  apply fmul_square_nonneg, fsub_finite; [exact Ho | now exists q].
Qed.

Lemma power_divergence_stat_nonneg f_obs f_exp :
  Forall (Forall ffinite) f_obs -> Forall (Forall fpositive) f_exp ->
  fnonneg (power_divergence_stat f_obs f_exp).
Proof.
  intros Hobs Hexp. apply fsum_nonneg, Forall_concat. now apply pearson_terms_nonneg.
Qed.

Lemma as_float_finite t : Forall (Forall ffinite) (as_float t).
Proof.
  unfold as_float. apply List.Forall_map, List.Forall_forall. intros row _.
  apply List.Forall_map, List.Forall_forall. intros z _. apply ffinite_of_Z.
Qed.

Lemma expected_cell_positive r c n :
  (0 < r)%Z -> (0 < c)%Z -> (0 < n)%Z ->
  fpositive (fdiv (fmul (of_Z r) (of_Z c)) (of_Z n)).
Proof.
  intros Hr Hc Hn. unfold of_Z. cbn [fmul fin fdiv].
  rewrite sgn_of_Z. destruct (Z.compare_spec n 0); try lia.
  eexists. split; [reflexivity |]. rewrite !Qred_correct.
  apply Qlt_shift_div_l; [now rewrite <- (Zlt_Qlt 0) |]. rewrite Qmult_0_l.
  apply Qmult_lt_0_compat; rewrite <- (Zlt_Qlt 0); assumption.
Qed.

Lemma expected_positive t :
  positive_margins t -> Forall (Forall fpositive) (expected_freq (as_float t)).
Proof.
  intros (Hne & Hcol & Hrect & Hnn & Hrow & Hcols).
  pose proof (zsum_concat_pos t Hne Hnn Hrow) as Hn.
  rewrite expected_freq_counts.
  apply List.Forall_map. eapply List.Forall_impl; [| exact Hrow].
  intros row Hr. apply List.Forall_map, List.Forall_forall. intros j Hj.
  apply in_seq in Hj. apply expected_cell_positive; [assumption | apply Hcols; lia | assumption].
Qed.

Lemma fpositive_finite x : fpositive x -> ffinite x.
Proof. intros (q & -> & _). now exists q. Qed.

Lemma yates_cell_finite o e :
  ffinite o -> ffinite e ->
  ffinite (fadd o (fmul (fminimum (Fin (1 # 2)) (fabs (fsub e o))) (fsign (fsub e o)))).
Proof.
  intros [a ->] [b ->]. cbn [fsub fneg fadd fin fabs fminimum fsign].
  destruct (flt _ _); destruct (sgn _); eexists; reflexivity.
Qed.

Lemma yates_finite f_obs f_exp :
  Forall (Forall ffinite) f_obs -> Forall (Forall ffinite) f_exp ->
  Forall (Forall ffinite) (yates f_obs f_exp).
Proof.
  intros Hobs Hexp. unfold yates, map2.
  apply List.Forall_map. eapply List.Forall_impl; [| exact (Forall_zip _ _ _ _ Hobs Hexp)].
  intros [os es] [Hos Hes]. cbn [fst snd] in *.
  apply List.Forall_map. eapply List.Forall_impl; [| exact (Forall_zip _ _ _ _ Hos Hes)].
  intros [o e] [Ho He]. cbn [fst snd] in *. now apply yates_cell_finite.
Qed.

(** On a table with positive margins, the statistic of [chi2_contingency]
    is a number, and not negative. *)
Lemma chi2_statistic_nonneg chi2_sf t res :
  positive_margins t -> chi2_contingency chi2_sf t = Return res -> fnonneg (statistic res).
Proof.
  intros Hpm. rewrite (chi2_contingency_counts chi2_sf t Hpm). cbv zeta.
  pose proof (expected_positive t Hpm) as Hexp.
  assert (Hfin : Forall (Forall ffinite) (expected_freq (as_float t))).
  { eapply List.Forall_impl; [| exact Hexp]. intros row Hrow.
    eapply List.Forall_impl; [| exact Hrow]. apply fpositive_finite. }
  destruct (degrees_of_freedom t =? 0)%Z.
  { intros H. injection H as <-. exists 0%Q. split; [reflexivity | apply Qle_refl]. }
  intros H. injection H as <-. cbn [statistic].
  destruct (degrees_of_freedom t =? 1)%Z.
  - apply power_divergence_stat_nonneg; [| exact Hexp].
    apply yates_finite; [apply as_float_finite | exact Hfin].
  - destruct Hpm as (_ & _ & Hrect & _).
    rewrite <- (power_divergence_pearson t Hrect).
    apply power_divergence_stat_nonneg; [apply as_float_finite | exact Hexp].
Qed.

(** X16: when each of the two columns has at least two distinct values (in
    the rows with a value in both columns), the reported statistic is a
    finite number that is not negative, and so is the radicand of
    Cramér's V: Cramér's V is a real number, the square root of that
    radicand, never nan. *)
Theorem cramers_v_is_a_number
    (chi2_sf : float -> Z -> float) (df : DataFrame) (col1 col2 : string) :
  In col1 (df_columns df) -> In col2 (df_columns df) ->
  (2 <= length (labels (map fst (observations df col1 col2))))%nat ->
  (2 <= length (labels (map snd (observations df col1 col2))))%nat ->
  exists st s q,
    statistics chi2_sf df col1 col2 = Return st
    /\ chi2_stat st = Fin s /\ (0 <= s)%Q
    /\ cramers_v st = Sqrt (Fin q) /\ (0 <= q)%Q
    /\ root_real (cramers_v st) = Some (sqrt (Q2R q)).
Proof.
  intros H1 H2 HR HC.
  assert (Hrows : observations df col1 col2 <> []).
  { intros E. rewrite E in HR. simpl in HR. lia. }
  destruct (statistics_counts chi2_sf df col1 col2 H1 H2 Hrows) as (res & Hres & Hst).
  destruct (counts_shape df col1 col2 Hrows) as [E1 E2].
  rewrite E1, E2, crosstab_total in Hst. fold (observations df col1 col2) in Hst.
  pose proof (chi2_statistic_nonneg chi2_sf _ res
                (counts_positive_margins df col1 col2 Hrows) Hres) as Hs.
  destruct (fdiv_nonneg (statistic res)
              (of_Z (Z.of_nat (length (observations df col1 col2))
                     * (Z.of_nat (Nat.min
                                    (length (labels (map fst (observations df col1 col2))))
                                    (length (labels (map snd (observations df col1 col2)))))
                        - 1)))
              Hs) as (q & Hq & Hq0).
  { apply fpositive_of_Z. apply Z.mul_pos_pos; [| lia].
    destruct (observations df col1 col2); [contradiction | simpl; lia]. }
  destruct Hs as (s & Hs & Hs0).
  eexists. exists s, q. split; [exact Hst |].
  cbn [chi2_stat cramers_v]. unfold np_sqrt. rewrite Hq.
  repeat split; try assumption.
  cbn [root_real]. destruct (sgn q) eqn:E; try reflexivity.
  unfold sgn in E. apply Qlt_alt in E. destruct (Qlt_not_le _ _ E Hq0).
Qed.

Lemma cramers_v_is_a_number_witness :
  exists st s q,
    statistics sample_sf three_levels "Gender" "Purchase" = Return st
    /\ chi2_stat st = Fin s /\ (0 <= s)%Q
    /\ cramers_v st = Sqrt (Fin q) /\ (0 <= q)%Q
    /\ root_real (cramers_v st) = Some (sqrt (Q2R q)).
Proof.
  apply (cramers_v_is_a_number sample_sf three_levels "Gender" "Purchase").
  - simpl. auto.
  - simpl. auto.
  - vm_compute. lia.
  - vm_compute. lia.
Defined.

(* ===================================================================== *)
(** * Which segments of the chart get a label *)
(* ===================================================================== *)

(** A percentage of a positive total is a number with the sign of the
    count. *)
Lemma percent_of_sign n c :
  (0 < n)%Z -> (0 <= c)%Z ->
  exists q, percent_of (of_Z n) c = Fin q /\ ((0 < q)%Q <-> (0 < c)%Z).
Proof.
  intros Hn Hc. unfold percent_of, of_Z. cbn [fdiv fin].
  rewrite sgn_of_Z. destruct (Z.compare_spec n 0); try lia.
  eexists. split; [reflexivity |]. rewrite !Qred_correct.
  assert (Hn' : (0 < inject_Z n)%Q) by now rewrite <- (Zlt_Qlt 0).
  split; intros H0.
  - destruct (Z.eq_dec c 0%Z) as [-> | Hne]; [| lia]. exfalso.
    destruct n as [|p|p]; try lia.
    revert H0. unfold Qlt, Qdiv, Qmult, Qinv, inject_Z. simpl. lia.
  - apply (Qmult_lt_0_compat _ 100); [| reflexivity].
    apply Qlt_shift_div_l; [exact Hn' |]. rewrite Qmult_0_l. now rewrite <- (Zlt_Qlt 0).
Qed.

Lemma flt_zero_Fin q : flt (Fin 0) (Fin q) = true <-> (0 < q)%Q.
Proof. apply flt_Fin_lt. Qed.

Lemma crosstab_row_nonneg a b k row :
  nth_error (values (crosstab a b)) k = Some row ->
  length row = length (columns (crosstab a b))
  /\ Forall (fun z => (0 <= z)%Z) row /\ (0 < zsum row)%Z
  /\ (0 < total (crosstab a b))%Z /\ (k < length (index (crosstab a b)))%nat.
Proof.
  intros Hk. assert (Hne : dropna (zip a b) <> []).
  { intros E. rewrite crosstab_values, E in Hk. destruct k; discriminate. }
  pose proof (crosstab_positive_margins a b Hne) as (_ & _ & _ & Hnn & Hpos & _).
  pose proof (nth_error_In _ _ Hk) as Hin.
  split; [| split; [| split; [| split]]].
  - rewrite crosstab_values in Hin. apply in_map_iff in Hin as (x & <- & _).
    cbn [crosstab columns]. now rewrite length_map.
  - exact (proj1 (List.Forall_forall _ _) Hnn row Hin).
  - exact (proj1 (List.Forall_forall _ _) Hpos row Hin).
  - rewrite crosstab_total. destruct (dropna (zip a b)); [contradiction | simpl; lia].
  - assert (Hk' : nth_error (values (crosstab a b)) k <> None) by congruence.
    apply List.nth_error_Some in Hk'. rewrite crosstab_values, length_map in Hk'. exact Hk'.
Qed.

Lemma percent_of_value d x :
  (0 < d)%Z -> percent_of (of_Z d) x = fin (inject_Z x / inject_Z d * 100).
Proof.
  intros Hd. unfold percent_of, of_Z. cbn [fdiv fin].
  rewrite sgn_of_Z. destruct (Z.compare_spec d 0); try lia.
  cbn [fmul fin]. apply fin_eq. now rewrite !Qred_correct.
Qed.

(** X17: in the chart of [cat_stat.py], the segment of row [k] and column
    [i] gets a label exactly when the count of its cell is positive; the
    text of the label is then the cell [k, i] of the table of row
    percentages, the count as a percentage of the total of its row,
    formatted with one decimal.  The text is given where that percentage
    is not halfway between two numbers of one decimal: there (as for 23
    of 80, 28.75) the code prints the rounding of a float64 next to the
    percentage, which can be the digit below. *)
Theorem chart_labels_positive_cells
    (a b : list (option string)) (i k : nat) (bars : list Bar) (bar : Bar) :
  let t := crosstab a b in
  nth_error (stacked_containers (percent_of_total t)) i = Some bars ->
  nth_error bars k = Some bar ->
  exists row,
    nth_error (values t) k = Some row
    /\ (i < length row)%nat
    /\ (label_of (iloc (percent_of_row t)) i bar = None <-> nth i row 0%Z = 0%Z)
    /\ (forall text,
          label_of (iloc (percent_of_row t)) i bar = Some text ->
          exists q,
            iloc (percent_of_row t) (Z.of_nat k) (Z.of_nat i) = Return (Fin q)
            /\ (q == inject_Z (nth i row 0%Z) / inject_Z (zsum row) * 100)%Q
            /\ (halfway 1 q = false -> text_s text = format_f 1 (Fin q) ++ "%")).
Proof.
  cbv zeta. intros Hi Hk.
  destruct (stacked_containers_nth _ i k bars bar Hi Hk) as (Hx & (prow & Hprow & Hh) & Hcol).
  cbn [percent_of_total values columns] in Hprow, Hcol.
  rewrite List.nth_error_map in Hprow.
  destruct (nth_error (values (crosstab a b)) k) as [row|] eqn:Hrow; [| discriminate].
  cbn in Hprow. injection Hprow as <-.
  destruct (crosstab_row_nonneg a b k row Hrow) as (Hlen & Hnn & Hsum & Htotal & Hkr).
  assert (Hirow : (i < length row)%nat) by lia.
  assert (Hc : (0 <= nth i row 0)%Z).
  { apply (proj1 (List.Forall_forall _ _) Hnn). now apply nth_In. }
  exists row. split; [reflexivity |]. split; [exact Hirow |].
  rewrite (nth_indep _ NaN (percent_of (of_Z (total (crosstab a b))) 0%Z)) in Hh
    by now rewrite length_map.
  rewrite map_nth in Hh.
  destruct (percent_of_sign _ _ Htotal Hc) as (q & Hq & Hq0). rewrite Hq in Hh. cbn in Hh.
  assert (Hlookup : iloc (percent_of_row (crosstab a b)) (Z.of_nat k) (Z.of_nat i)
                    = Return (percent_of (of_Z (zsum row)) (nth i row 0%Z))).
  { unfold iloc. cbn [percent_of_row index columns values].
    rewrite (position_in_range _ k Hkr), (position_in_range _ i Hcol).
    rewrite List.nth_error_map, Hrow. cbn [option_map].
    rewrite List.nth_error_map, (nth_error_nth' row 0%Z Hirow). reflexivity. }
  rewrite (percent_of_value _ (nth i row 0%Z) Hsum) in Hlookup.
  unfold label_of, try_label. rewrite Hh, Hx, py_round_bar_x. cbn [bind]. rewrite Hlookup.
  cbn [bind].
  destruct (flt (Fin 0) (Fin q)) eqn:E.
  - apply flt_zero_Fin, Hq0 in E. split.
    + split; [discriminate | lia].
    + intros text H. injection H as <-. eexists. split; [reflexivity |].
      split; [apply Qred_correct | intros _; reflexivity].
  - split; [| discriminate]. split; [| reflexivity]. intros _.
    destruct (Z.eq_dec (nth i row 0%Z) 0%Z) as [E0 | E0]; [exact E0 |].
    assert (H : flt (Fin 0) (Fin q) = true) by (apply flt_zero_Fin, Hq0; lia).
    congruence.
Qed.

Lemma chart_labels_positive_cells_witness :
  let t := crosstab (column use_case "Gender") (column use_case "Purchase") in
  exists bar,
    nth_error (nth 0 (stacked_containers (percent_of_total t)) []) 1 = Some bar
    /\ nth 0 (nth 1 (values t) []) 0%Z = 0%Z
    /\ label_of (iloc (percent_of_row t)) 0 bar = None.
Proof.
  cbv zeta. eexists. split; [reflexivity |]. split; [reflexivity |].
  destruct (chart_labels_positive_cells (column use_case "Gender")
              (column use_case "Purchase") 0 1 _ _ eq_refl eq_refl)
    as (row & Hrow & _ & Hnone & _).
  apply Hnone. vm_compute in Hrow. injection Hrow as <-. reflexivity.
Defined.

(* ===================================================================== *)
(** * The percentages of the chart add up *)
(* ===================================================================== *)

Lemma fadd_fin p q : fadd (fin p) (fin q) = fin (p + q).
Proof. cbn [fadd fin]. apply fin_eq. now rewrite !Qred_correct. Qed.

Lemma percent_of_add d x y :
  (0 < d)%Z ->
  fadd (percent_of (of_Z d) x) (percent_of (of_Z d) y) = percent_of (of_Z d) (x + y).
Proof.
  intros Hd. rewrite !percent_of_value by exact Hd. rewrite fadd_fin. apply fin_eq.
  rewrite inject_Z_plus. unfold Qdiv. ring.
Qed.

Lemma percent_of_zero d : (0 < d)%Z -> percent_of (of_Z d) 0 = Fin 0.
Proof.
  intros Hd. rewrite percent_of_value by exact Hd.
  change (Fin 0) with (fin 0). apply fin_eq. unfold Qdiv. ring.
Qed.

Lemma percent_of_all d : (0 < d)%Z -> percent_of (of_Z d) d = Fin 100.
Proof.
  intros Hd. rewrite percent_of_value by exact Hd.
  change (Fin 100) with (fin 100). apply fin_eq.
  assert (Hd' : ~ (inject_Z d == 0)%Q).
  { intros E. apply (Qlt_irrefl 0). rewrite <- E at 2. now rewrite <- (Zlt_Qlt 0). }
  unfold Qdiv. rewrite Qmult_inv_r by exact Hd'. reflexivity.
Qed.

Lemma fold_percent_of d l a :
  (0 < d)%Z ->
  fold_left fadd (map (percent_of (of_Z d)) l) (percent_of (of_Z d) a)
  = percent_of (of_Z d) (fold_left Z.add l a).
Proof.
  intros Hd. revert a. induction l as [|x l IH]; intros a; cbn [map fold_left].
  - reflexivity.
  - rewrite percent_of_add by exact Hd. apply IH.
Qed.

(** Percentages of one total add up to the percentage of the sum. *)
Lemma fsum_percent_of d l :
  (0 < d)%Z -> fsum (map (percent_of (of_Z d)) l) = percent_of (of_Z d) (zsum l).
Proof.
  intros Hd. unfold fsum, zsum. rewrite <- (percent_of_zero d Hd). now apply fold_percent_of.
Qed.

(** X18: in the two tables of percentages behind the chart, the heights of
    the segments of the bar of a row add up to the share of that row in
    all observations (the bars are not 100 high each), the heights of all
    segments add up to 100, and the row percentages that label the
    segments of one bar add up to 100. *)
Theorem chart_percentages_add_up (a b : list (option string)) (k : nat) (row : list Z) :
  let t := crosstab a b in
  nth_error (values t) k = Some row ->
  fsum (nth k (values (percent_of_total t)) []) = percent_of (of_Z (total t)) (zsum row)
  /\ fsum (concat (values (percent_of_total t))) = Fin 100
  /\ fsum (nth k (values (percent_of_row t)) []) = Fin 100.
Proof.
  cbv zeta. intros Hrow.
  destruct (crosstab_row_nonneg a b k row Hrow) as (_ & _ & Hsum & Htotal & _).
  cbn [percent_of_total percent_of_row values].
  split; [| split].
  - rewrite (nth_error_nth _ _ _ (map_nth_error _ _ _ Hrow)). now apply fsum_percent_of.
  - rewrite <- concat_map, (fsum_percent_of _ _ Htotal).
    fold (Spec.grand_total (values (crosstab a b))).
    rewrite crosstab_grand_total, <- crosstab_total. now apply percent_of_all.
  - rewrite (nth_error_nth _ _ _
               (map_nth_error (fun r => map (percent_of (of_Z (zsum r))) r) _ _ Hrow)).
    rewrite (fsum_percent_of _ _ Hsum). now apply percent_of_all.
Qed.

Lemma chart_percentages_add_up_witness :
  let t := crosstab (column use_case "Gender") (column use_case "Purchase") in
  nth 0 (values (percent_of_total t)) [] = [Fin 40; Fin 10]
  /\ fsum (nth 0 (values (percent_of_total t)) []) = Fin 50
  /\ fsum (concat (values (percent_of_total t))) = Fin 100
  /\ fsum (nth 0 (values (percent_of_row t)) []) = Fin 100.
Proof.
  cbv zeta. split; [reflexivity |].
  destruct (chart_percentages_add_up (column use_case "Gender") (column use_case "Purchase")
              0 [4; 1]%Z eq_refl) as (Hbar & Hall & Hlabels).
  split; [| split; assumption]. rewrite Hbar. reflexivity.
Defined.

(* ===================================================================== *)
(** * The order of the rows does not matter *)
(* ===================================================================== *)

Lemma ascending_head x l y : ascending (x :: l) -> In y l -> String.ltb x y = true.
Proof. intros [Hx _] Hy. exact (proj1 (List.Forall_forall _ _) Hx y Hy). Qed.

Lemma ltb_asym x y : String.ltb x y = true -> String.ltb y x = true -> False.
Proof.
  intros H1 H2. pose proof (ltb_trans _ _ _ H1 H2) as H. now rewrite ltb_irrefl in H.
Qed.

(** Two ascending lists with the same elements are the same list. *)
Lemma ascending_unique l1 l2 :
  ascending l1 -> ascending l2 -> (forall x, In x l1 <-> In x l2) -> l1 = l2.
Proof.
  revert l2. induction l1 as [|x l1 IH]; intros [|y l2] H1 H2 Hin.
  - reflexivity.
  - destruct (proj2 (Hin y) (or_introl eq_refl)).
  - destruct (proj1 (Hin x) (or_introl eq_refl)).
  - assert (Hxy : x = y).
    { destruct (proj1 (Hin x) (or_introl eq_refl)) as [E | Hx]; [now symmetry |].
      destruct (proj2 (Hin y) (or_introl eq_refl)) as [E | Hy]; [exact E |].
      destruct (ltb_asym x y (ascending_head _ _ _ H1 Hy) (ascending_head _ _ _ H2 Hx)). }
    subst y. f_equal. apply IH; [apply H1 | apply H2 |].
    intros z. split; intros Hz.
    + destruct (proj1 (Hin z) (or_intror Hz)) as [E | Hz']; [| exact Hz'].
      subst z. pose proof (ascending_head _ _ _ H1 Hz) as H. now rewrite ltb_irrefl in H.
    + destruct (proj2 (Hin z) (or_intror Hz)) as [E | Hz']; [| exact Hz'].
      subst z. pose proof (ascending_head _ _ _ H2 Hz) as H. now rewrite ltb_irrefl in H.
Qed.

Lemma labels_Permutation l l' : Permutation l l' -> labels l = labels l'.
Proof.
  intros H. apply ascending_unique; try apply labels_ascending.
  intros x. rewrite !In_labels. split; apply Permutation_in; [exact H | now symmetry].
Qed.

Lemma filter_length_Permutation {A : Type} (f : A -> bool) l l' :
  Permutation l l' -> length (List.filter f l) = length (List.filter f l').
Proof.
  induction 1 as [| x l l' _ IH | x y l | l l' l'' _ IH1 _ IH2]; cbn [List.filter].
  - reflexivity.
  - destruct (f x); cbn [length]; now rewrite IH.
  - destruct (f x), (f y); reflexivity.
  - now rewrite IH1.
Qed.

(** The contingency table depends on the observations, not on their
    order. *)
Lemma crosstab_Permutation a b a' b' :
  Permutation (zip a b) (zip a' b') -> crosstab a b = crosstab a' b'.
Proof.
  intros H. unfold crosstab.
  assert (H' : Permutation (dropna (zip a b)) (dropna (zip a' b')))
    by (unfold dropna; now apply Permutation_flat_map).
  rewrite (labels_Permutation _ _ (Permutation_map fst H')).
  rewrite (labels_Permutation _ _ (Permutation_map snd H')).
  f_equal. apply map_ext. intros x. apply map_ext. intros y.
  unfold count_pair. f_equal. now apply filter_length_Permutation.
Qed.

Lemma crosstab_columns_Permutation df df' col1 col2 :
  Permutation (df_rows df) (df_rows df') ->
  crosstab (column df col1) (column df col2) = crosstab (column df' col1) (column df' col2).
Proof.
  intros H. apply crosstab_Permutation. rewrite !zip_columns. now apply Permutation_map.
Qed.

Lemma statistics_Permutation chi2_sf df df' col1 col2 :
  df_columns df = df_columns df' -> Permutation (df_rows df) (df_rows df') ->
  statistics chi2_sf df col1 col2 = statistics chi2_sf df' col1 col2.
Proof.
  intros Hcols Hrows. unfold statistics, getitem. rewrite <- Hcols.
  destruct (existsb (String.eqb col1) (df_columns df)); [| reflexivity].
  destruct (existsb (String.eqb col2) (df_columns df)); [| reflexivity].
  cbn [bind]. fold (column df col1) (column df col2) (column df' col1) (column df' col2).
  now rewrite (crosstab_columns_Permutation df df' col1 col2 Hrows).
Qed.

Lemma plot_Permutation env df df' x_col hue_col title filename w :
  df_columns df = df_columns df' -> Permutation (df_rows df) (df_rows df') ->
  plot_stacked_percentage_bar env df x_col hue_col title filename w
  = plot_stacked_percentage_bar env df' x_col hue_col title filename w.
Proof.
  intros Hcols Hrows. unfold plot_stacked_percentage_bar, io_bind, lift, getitem.
  rewrite <- Hcols.
  destruct (existsb (String.eqb x_col) (df_columns df)); [| reflexivity].
  destruct (existsb (String.eqb hue_col) (df_columns df)); [| reflexivity].
  fold (column df x_col) (column df hue_col) (column df' x_col) (column df' hue_col).
  now rewrite (crosstab_columns_Permutation df df' x_col hue_col Hrows).
Qed.

(** X19: the analysis does not depend on the order of the rows: on two
    frames with the same columns whose rows are the same up to their
    order, [get_analysis] computes the same statistics and ends in the
    same way, with the same report, chart and output. *)
Theorem get_analysis_row_order
    (chi2_sf : float -> Z -> float) (env : Env) (df df' : DataFrame)
    (col1 col2 : string) (w : World) :
  df_columns df = df_columns df' -> Permutation (df_rows df) (df_rows df') ->
  statistics chi2_sf df col1 col2 = statistics chi2_sf df' col1 col2
  /\ get_analysis chi2_sf env df col1 col2 w = get_analysis chi2_sf env df' col1 col2 w.
Proof.
  intros Hcols Hrows.
  pose proof (statistics_Permutation chi2_sf df df' col1 col2 Hcols Hrows) as Hst.
  split; [exact Hst |].
  unfold get_analysis, io_bind, lift. rewrite <- Hst.
  destruct (statistics chi2_sf df col1 col2) as [e|st]; [reflexivity |].
  destruct (write_text env _ _ w) as [[e|[]] w1]; [reflexivity |].
  destruct (print _ w1) as [[e|[]] w2]; [reflexivity |].
  now apply plot_Permutation.
Qed.

Lemma get_analysis_row_order_witness :
  let df' := frame "Gender" "Purchase"
               [("Female", "No"); ("Male", "Yes"); ("Female", "Yes"); ("Male", "Yes");
                ("Female", "No"); ("Male", "Yes"); ("Female", "No"); ("Male", "Yes");
                ("Female", "No"); ("Male", "Yes")] in
  get_analysis sample_sf no_faults use_case "Gender" "Purchase" empty_world
  = get_analysis sample_sf no_faults df' "Gender" "Purchase" empty_world.
Proof.
  cbv zeta.
  apply (get_analysis_row_order sample_sf no_faults use_case); [reflexivity |].
  unfold use_case, frame. cbn [df_rows map]. apply perm_swap.
Defined.

(* ===================================================================== *)
(** * [generate_pdf_report] on its own *)
(* ===================================================================== *)

(** X20: [generate_pdf_report] fails on every report that has any text:
    with NameError at the first line, before anything is put into the PDF;
    on a file that does not exist it fails with FileNotFoundError.  It can
    only return when the report file exists and is empty. *)
Theorem generate_pdf_report_outcome
    (read_error : string -> option exn)
    (pdf_output : list string -> string -> string -> io unit)
    (md_file image_file pdf_filename : string) (w : World) :
  (forall content,
     read_error md_file = None -> disk w !! md_file = Some (TextFile content) ->
     content <> "" ->
     Script.generate_pdf_report read_error pdf_output md_file image_file pdf_filename w
     = (Raise (Exn "NameError" "name 'clean_text' is not defined"), w))
  /\ (read_error md_file = None -> disk w !! md_file = None ->
      exists msg,
        Script.generate_pdf_report read_error pdf_output md_file image_file pdf_filename w
        = (Raise (Exn "FileNotFoundError" msg), w))
  /\ (fst (Script.generate_pdf_report read_error pdf_output md_file image_file pdf_filename w)
      = Return tt ->
      read_error md_file = None /\ disk w !! md_file = Some (TextFile "")).
Proof.
  unfold Script.generate_pdf_report, io_bind, Script.read_lines, lift.
  split; [| split].
  - intros content -> -> Hne. now rewrite (pdf_cells_raises content Hne).
  - intros -> ->. eexists. reflexivity.
  - destruct (read_error md_file); [discriminate |].
    destruct (disk w !! md_file) as [[content|fig]|]; try discriminate.
    destruct content as [|c s]; [now split |].
    rewrite (pdf_cells_raises (String c s)) by discriminate. discriminate.
Qed.

Lemma generate_pdf_report_outcome_witness :
  let w := {| disk := {["report.md" := TextFile "# Title"]}; stdout := [] |} in
  Script.generate_pdf_report (fun _ => None) (fun _ _ _ => lift (Return tt))
    "report.md" "chart.png" "report.pdf" w
  = (Raise (Exn "NameError" "name 'clean_text' is not defined"), w).
Proof.
  cbv zeta.
  apply (proj1 (generate_pdf_report_outcome (fun _ => None) (fun _ _ _ => lift (Return tt))
                  "report.md" "chart.png" "report.pdf"
                  {| disk := {["report.md" := TextFile "# Title"]}; stdout := [] |})
               "# Title").
  - reflexivity.
  - apply lookup_singleton_eq.
  - discriminate.
Defined.
